(** * kids-tutor: the progress and level-progression engine

    A shallow embedding of the code that turns practice events into
    persistent progress:

    - the schema and the two stored procedures of
      [supabase/migrations/20250628123486_new_king.sql]
      ([update_user_stats], [update_word_progress]);
    - the hook [useLearningSession] ([startSession], [addWordToSession],
      [endSession], [updateUserStats], [updateDailyGoals], [updateStreak],
      [checkLevelProgression]);
    - the hook [useLevelProgression] of [hooks/useProfile.ts]
      ([LEVEL_REQUIREMENTS], [checkLevelProgression],
      [calculateProgressToNextLevel]);
    - what the screens compute before they call the hooks or after they
      read the tables: the practice screen of [app/_layout.tsx]
      ([checkPronunciation], [calculateSimilarity], [levenshteinDistance],
      the word filter and [nextWord]), the chat screen of
      [app/(tabs)/index.tsx] ([getDifficulty], [sendMessage]) and the
      progress screen ([calculateAchievements], [getGoalByType]).

    Conventions of the model.

    - A table with a UNIQUE key is a [gmap] from that key to its row; the
      append-only tables ([achievements], [learning_sessions]) are lists in
      insertion order.
    - An [integer] column holds a [Z] in the 32-bit signed range; PostgreSQL
      raises "integer out of range" instead of wrapping, so a statement that
      would store a value outside the range fails and changes nothing.
    - A [numeric(5,2)] column is a fixed-point decimal with two fractional
      digits: it is held as its integer number of hundredths, and a value
      assigned to it is rounded half away from zero to that scale (and
      rejected when its magnitude reaches 1000).
    - A JavaScript number is a rational, or NaN, or an infinity.  Every finite
      binary64 value is a rational, so a function that receives a number is
      modelled on all the values it can receive.  The accuracy of a session,
      whose value is stored and floored, is computed with [/] and [*]
      rounded to binary64 ([Binary64]: to nearest, ties to even); the
      ratios of the screens ([calculateSimilarity],
      [calculateProgressToNextLevel]) are taken exact.  A number handed to
      the backend is taken at its exact value (its JSON text, the shortest
      decimal that reads back as the same number, is not modelled).
    - A string handled by the screens is the list of its code units; the
      words and transcripts are ASCII text.
    - Columns are taken non-NULL (rows are created with the column defaults),
      row-level security is not modelled (every access is by the signed-in
      user on that user's rows), and a request to the backend that fails is
      ignored by the hooks, as in the source, where the [error] field of the
      response is never inspected. *)

From Stdlib Require Import ZArith QArith Qround String Ascii List Lia Lqa.
From stdpp Require Import gmap strings list fin_maps pretty.

Local Open Scope Z_scope.

(** ** PostgreSQL column types *)

Module Pg.

(** [integer]: 32-bit signed, checked. *)
Definition int4_min : Z := - 2 ^ 31.
Definition int4_max : Z := 2 ^ 31 - 1.

Definition int4_ok (z : Z) : bool := (int4_min <=? z) && (z <=? int4_max).

Definition int4 (z : Z) : option Z := if int4_ok z then Some z else None.

(** [a + b] on [integer] operands. *)
Definition int4_add (a b : Z) : option Z := int4 (a + b).

(** Rounding of a [numeric] to an integer number of units, half away from
    zero (PostgreSQL's rounding for [numeric]). *)
Definition round_half_away (q : Q) : Z :=
  if Qle_bool 0 q then Qfloor (q + (1 # 2)) else Qceiling (q - (1 # 2)).

(** Assignment of a [numeric] value to a [numeric(5,2)] column: the stored
    number of hundredths, or "numeric field overflow". *)
Definition numeric_5_2 (q : Q) : option Z :=
  let h := round_half_away (q * 100) in
  if Z.abs h <? 100000 then Some h else None.

(** The value of a [numeric(5,2)] column holding [h] hundredths. *)
Definition numeric_5_2_val (h : Z) : Q := h # 100.

(** [a::float / b]: PostgreSQL raises "division by zero" for [b = 0].  The
    operands are 32-bit integers, so the binary64 quotient compares with
    the constants 0.9, 0.7 and 0.5 exactly as the rational quotient does
    (two distinct fractions with denominators below 2^35 differ by far
    more than one unit in the last place). *)
Definition float_div (a b : Z) : option Q :=
  if b =? 0 then None else Some (inject_Z a / inject_Z b)%Q.

End Pg.

(** ** JavaScript numbers *)

Module Js.

Inductive number : Type :=
| Num (q : Q)
| NaN
| Infinity (negative : bool).

Definition is_zero (q : Q) : bool := Qnum q =? 0.
Definition is_neg (q : Q) : bool := Qnum q <? 0.

(** [a / b] *)
Definition div (a b : number) : number :=
  match a, b with
  | NaN, _ | _, NaN => NaN
  | Num x, Num y =>
      if is_zero y then (if is_zero x then NaN else Infinity (is_neg x))
      else Num (x / y)%Q
  | Num x, Infinity _ => Num 0
  | Infinity s, Num y => Infinity (xorb s (is_neg y))
  | Infinity _, Infinity _ => NaN
  end.

(** [a * b] *)
Definition mul (a b : number) : number :=
  match a, b with
  | NaN, _ | _, NaN => NaN
  | Num x, Num y => Num (x * y)%Q
  | Num x, Infinity s | Infinity s, Num x =>
      if is_zero x then NaN else Infinity (xorb s (is_neg x))
  | Infinity s, Infinity t => Infinity (xorb s t)
  end.

Definition of_Z (z : Z) : number := Num (inject_Z z).

(** [v || d] on an integer-valued number: 0 is falsy. *)
Definition or_default (v d : Z) : Z := if v =? 0 then d else v.

(** ['a'..'z'] for ['A'..'Z'], as [String.prototype.toLowerCase] does on
    ASCII letters; other bytes are kept. *)
Definition lower_ascii (c : ascii) : ascii :=
  let n := nat_of_ascii c in
  if ((65 <=? n) && (n <=? 90))%nat then ascii_of_nat (n + 32) else c.

Fixpoint toLowerCase (s : string) : string :=
  match s with
  | EmptyString => EmptyString
  | String c s' => String (lower_ascii c) (toLowerCase s')
  end.

End Js.

(** ** Binary64 arithmetic

    The quotient and the product of two binary64 numbers are the exact
    results rounded to the nearest binary64 number, the one with the even
    significand of two that are equally near. *)

Module Binary64.

(** [floor (log2 (n / d))] for positive [n] and [d]. *)
Definition ilog2 (n d : Z) : Z :=
  let k := Z.log2 n - Z.log2 d in
  if n * 2 ^ Z.max 0 (- k) <? d * 2 ^ Z.max 0 k then k - 1 else k.

(** The integer nearest to [n / d] for positive [d], the even one of two
    that are equally near. *)
Definition nearest_even (n d : Z) : Z :=
  let f := n / d in
  match 2 * (n mod d) ?= d with
  | Lt => f
  | Gt => f + 1
  | Eq => if Z.even f then f else f + 1
  end.

(** [2 ^ e] for any integer [e]. *)
Definition pow2 (e : Z) : Q :=
  if 0 <=? e then inject_Z (2 ^ e) else (1 # Z.to_pos (2 ^ (- e)))%Q.

(** The binary64 number nearest to [n / d > 0]: a multiple [m * 2 ^ e] of
    the unit in the last place, which is [2 ^ (floor (log2 (n / d)) - 52)]
    and at least [2 ^ -1074]; a result of [2 ^ 1024] or more is infinite. *)
Definition round_pos (n d : Z) : Js.number :=
  let e := Z.max (ilog2 n d - 52) (- 1074) in
  let m := if 0 <=? e then nearest_even n (d * 2 ^ e)
           else nearest_even (n * 2 ^ (- e)) d in
  if (0 <=? e) && (2 ^ 1024 <=? m * 2 ^ e) then Js.Infinity false
  else Js.Num (Qred (inject_Z m * pow2 e)).

Definition negate (a : Js.number) : Js.number :=
  match a with
  | Js.Num q => Js.Num (- q)
  | Js.Infinity s => Js.Infinity (negb s)
  | Js.NaN => Js.NaN
  end.

(** Rounding to nearest, ties to even.  The sign of a zero is not kept. *)
Definition round (q : Q) : Js.number :=
  let q' := Qred q in
  match Qnum q' with
  | 0 => Js.Num 0
  | Z.pos n => round_pos (Z.pos n) (Z.pos (Qden q'))
  | Z.neg n => negate (round_pos (Z.pos n) (Z.pos (Qden q')))
  end.

Definition of_exact (a : Js.number) : Js.number :=
  match a with
  | Js.Num q => round q
  | other => other
  end.

(** [a / b] and [a * b] on binary64 numbers *)
Definition div (a b : Js.number) : Js.number := of_exact (Js.div a b).
Definition mul (a b : Js.number) : Js.number := of_exact (Js.mul a b).

End Binary64.

(** ** Schema *)

Definition UserId : Type := string.
Definition Date : Type := string.        (* ISO [YYYY-MM-DD] *)
Definition Timestamp : Type := Z.

Inductive Difficulty : Type := easy | medium | hard.

(** [goal_type]: 'words', 'time', 'accuracy' *)
Inductive GoalType : Type := Words | Time | Accuracy.

Inductive SessionType : Type := chat | practice.

#[global] Instance GoalType_eq_dec : EqDecision GoalType.
Proof. solve_decision. Defined.

#[global] Instance GoalType_countable : Countable GoalType.
Proof.
  refine (inj_countable'
            (fun g => match g with Words => 0%nat | Time => 1%nat | Accuracy => 2%nat end)
            (fun n => match n with 0%nat => Words | 1%nat => Time | _ => Accuracy end) _).
  intros []; reflexivity.
Defined.

(** [profiles] *)
Record Profile : Type := mkProfile {
  level : Z;
  total_words_learned : Z;
  total_practice_time : Z;           (* seconds *)
  accuracy_rate : Z;                 (* numeric(5,2), in hundredths *)
  current_streak : Z;
  longest_streak : Z;
  profile_updated_at : Timestamp;
}.

(** [word_progress], UNIQUE(user_id, word) *)
Record WordProgress : Type := mkWordProgress {
  difficulty : Difficulty;
  times_practiced : Z;
  times_correct : Z;
  last_practiced : Timestamp;
  mastery_level : Z;
  wp_updated_at : Timestamp;
}.

(** [daily_goals], UNIQUE(user_id, goal_type, goal_date) *)
Record DailyGoal : Type := mkDailyGoal {
  target_value : Z;
  current_value : Z;
  completed : bool;
  goal_updated_at : Timestamp;
}.

(** [achievements] *)
Record Achievement : Type := mkAchievement {
  ach_user_id : UserId;
  achievement_type : string;
  title : string;
  description : string;
  icon : string;
  earned_at : Timestamp;
}.

(** [learning_sessions] *)
Record LearningSession : Type := mkLearningSession {
  ls_user_id : UserId;
  session_type : SessionType;
  words_practiced : list string;
  correct_pronunciations : Z;
  total_attempts : Z;
  session_duration : Z;
  ls_accuracy_rate : Z;              (* numeric(5,2), in hundredths *)
  ls_created_at : Timestamp;
}.

(** [app_settings]: the one column this engine reads. *)
Record AppSettings : Type := mkAppSettings {
  daily_word_goal : Z;
}.

(** The database. *)
Record DB : Type := mkDB {
  profiles : gmap UserId Profile;
  word_progress : gmap (UserId * string) WordProgress;
  daily_goals : gmap (UserId * GoalType * Date) DailyGoal;
  achievements : list Achievement;
  learning_sessions : list LearningSession;
}.

Definition set_profiles (db : DB) (ps : gmap UserId Profile) : DB :=
  mkDB ps (word_progress db) (daily_goals db) (achievements db) (learning_sessions db).

Definition set_word_progress (db : DB) (wp : gmap (UserId * string) WordProgress) : DB :=
  mkDB (profiles db) wp (daily_goals db) (achievements db) (learning_sessions db).

Definition set_daily_goals (db : DB) (dg : gmap (UserId * GoalType * Date) DailyGoal) : DB :=
  mkDB (profiles db) (word_progress db) dg (achievements db) (learning_sessions db).

Definition set_achievements (db : DB) (a : list Achievement) : DB :=
  mkDB (profiles db) (word_progress db) (daily_goals db) a (learning_sessions db).

Definition set_learning_sessions (db : DB) (s : list LearningSession) : DB :=
  mkDB (profiles db) (word_progress db) (daily_goals db) (achievements db) s.

(** A request whose statement failed leaves the database as it was. *)
Definition or_unchanged (db : DB) (r : option DB) : DB := default db r.

(** ** Stored procedures (new_king.sql) *)

(** [update_user_stats]: one UPDATE of the caller's profile row.  [None] is
    an exception raised by the statement.  The quotient
    [(accuracy_rate + p_accuracy) / 2] is a [numeric] carried to at least 16
    significant digits, taken exact here; storing it in the [numeric(5,2)]
    column rounds it to two decimals. *)
Definition update_user_stats (db : DB) (now : Timestamp) (p_user_id : UserId)
    (p_words_learned p_practice_time : Z) (p_accuracy : Q) : option DB :=
  _ ← Pg.int4 p_words_learned;
  _ ← Pg.int4 p_practice_time;
  match profiles db !! p_user_id with
  | None => Some db
  | Some p =>
      w ← Pg.int4_add (total_words_learned p) p_words_learned;
      t ← Pg.int4_add (total_practice_time p) p_practice_time;
      a ← Pg.numeric_5_2 ((Pg.numeric_5_2_val (accuracy_rate p) + p_accuracy) / 2)%Q;
      Some (set_profiles db
              (<[p_user_id :=
                   mkProfile (level p) w t a (current_streak p) (longest_streak p) now]>
                 (profiles db)))
  end.

(** The CASE expression of [update_word_progress], on the post-increment
    counts. *)
Definition mastery_case (correct' practiced' : Z) : option Z :=
  r ← Pg.float_div correct' practiced';
  Some (if Qle_bool (9 # 10) r && (5 <=? practiced') then 100
        else if Qle_bool (7 # 10) r && (3 <=? practiced') then 75
        else if Qle_bool (5 # 10) r then 50
        else 25).

(** [update_word_progress]: INSERT ... ON CONFLICT (user_id, word) DO UPDATE.
    The INSERT lists no [mastery_level], which takes the column default 0;
    [user_id] references [profiles]. *)
Definition update_word_progress (db : DB) (now : Timestamp) (p_user_id : UserId)
    (p_word : string) (p_difficulty : Difficulty) (p_correct : bool) : option DB :=
  let c := if p_correct then 1 else 0 in
  match word_progress db !! (p_user_id, p_word) with
  | None =>
      match profiles db !! p_user_id with
      | None => None
      | Some _ =>
          Some (set_word_progress db
                  (<[(p_user_id, p_word) := mkWordProgress p_difficulty 1 c now 0 now]>
                     (word_progress db)))
      end
  | Some r =>
      practiced' ← Pg.int4_add (times_practiced r) 1;
      correct' ← Pg.int4_add (times_correct r) c;
      m ← mastery_case correct' practiced';
      Some (set_word_progress db
              (<[(p_user_id, p_word) :=
                   mkWordProgress (difficulty r) practiced' correct' now m now]>
                 (word_progress db)))
  end.

(** ** Table writes issued by the hooks *)

(** [from('profiles').update({ level, updated_at }).eq('id', u)] *)
Definition update_profile_level (db : DB) (now : Timestamp) (u : UserId) (l : Z) : option DB :=
  match profiles db !! u with
  | None => Some db
  | Some p =>
      l' ← Pg.int4 l;
      Some (set_profiles db
              (<[u := mkProfile l' (total_words_learned p) (total_practice_time p)
                        (accuracy_rate p) (current_streak p) (longest_streak p) now]>
                 (profiles db)))
  end.

(** [from('profiles').update({ current_streak, longest_streak, updated_at }).eq('id', u)] *)
Definition update_profile_streak (db : DB) (now : Timestamp) (u : UserId)
    (streak longest : Z) : option DB :=
  match profiles db !! u with
  | None => Some db
  | Some p =>
      s ← Pg.int4 streak;
      l ← Pg.int4 longest;
      Some (set_profiles db
              (<[u := mkProfile (level p) (total_words_learned p) (total_practice_time p)
                        (accuracy_rate p) s l now]>
                 (profiles db)))
  end.

(** [from('daily_goals').update({ current_value, completed, updated_at })
      .eq('user_id', u).eq('goal_type', g).eq('goal_date', d)] *)
Definition update_daily_goal (db : DB) (now : Timestamp) (u : UserId) (g : GoalType)
    (d : Date) (newValue : Z) (done : bool) : option DB :=
  match daily_goals db !! (u, g, d) with
  | None => Some db
  | Some r =>
      v ← Pg.int4 newValue;
      Some (set_daily_goals db
              (<[(u, g, d) := mkDailyGoal (target_value r) v done now]> (daily_goals db)))
  end.

(** One row of a [from('daily_goals').insert([...])]. *)
Record DailyGoalInsert : Type := mkDailyGoalInsert {
  dgi_goal_type : GoalType;
  dgi_target_value : Z;
  dgi_current_value : Z;
  dgi_completed : bool;
}.

Fixpoint insert_goal_rows (now : Timestamp) (u : UserId) (d : Date)
    (rows : list DailyGoalInsert) (dg : gmap (UserId * GoalType * Date) DailyGoal)
    : option (gmap (UserId * GoalType * Date) DailyGoal) :=
  match rows with
  | [] => Some dg
  | r :: rest =>
      match dg !! (u, dgi_goal_type r, d) with
      | Some _ => None                      (* unique violation *)
      | None =>
          t ← Pg.int4 (dgi_target_value r);
          v ← Pg.int4 (dgi_current_value r);
          insert_goal_rows now u d rest
            (<[(u, dgi_goal_type r, d) := mkDailyGoal t v (dgi_completed r) now]> dg)
      end
  end.

(** The insert is one statement: all rows or none. *)
Definition insert_daily_goals (db : DB) (now : Timestamp) (u : UserId) (d : Date)
    (rows : list DailyGoalInsert) : option DB :=
  match profiles db !! u with
  | None => None
  | Some _ => set_daily_goals db <$> insert_goal_rows now u d rows (daily_goals db)
  end.

(** [from('achievements').insert({...})] *)
Definition insert_achievement (db : DB) (a : Achievement) : option DB :=
  match profiles db !! ach_user_id a with
  | None => None
  | Some _ => Some (set_achievements db (achievements db ++ [a]))
  end.

(** [from('learning_sessions').insert(sessionData).select().single()]: the
    stored row, with [accuracy_rate] rounded to the column's scale. *)
Definition insert_learning_session (db : DB) (now : Timestamp) (u : UserId)
    (ty : SessionType) (ws : list string) (correct attempts duration : Z) (acc : Q)
    : option (LearningSession * DB) :=
  match profiles db !! u with
  | None => None
  | Some _ =>
      c ← Pg.int4 correct;
      n ← Pg.int4 attempts;
      d ← Pg.int4 duration;
      a ← Pg.numeric_5_2 acc;
      let row := mkLearningSession u ty ws c n d a now in
      Some (row, set_learning_sessions db (learning_sessions db ++ [row]))
  end.

(** [from('word_progress').select(...).eq('user_id', u).gte('mastery_level', 75)] *)
Definition mastered_rows (db : DB) (u : UserId) : list (UserId * string * WordProgress) :=
  List.filter (fun kv => bool_decide (kv.1.1 = u) && (75 <=? mastery_level kv.2))
    (map_to_list (word_progress db)).

(** ** useLearningSession *)

Module UseLearningSession.

(** The in-memory accumulator returned by [startSession]. *)
Record Session : Type := mkSession {
  sessionType : SessionType;
  startTime : Z;                     (* [Date.now()], milliseconds *)
  wordsPracticed : list string;
  correctPronunciations : Z;
  totalAttempts : Z;
}.

(** An entry of [levelRequirements]. *)
Module Requirement.
Record t : Type := mk {
  level : Z;
  words : Z;
  accuracy : Z;
  streak : Z;
  time : Z;
}.
End Requirement.

Definition levelRequirements : list Requirement.t :=
  [ Requirement.mk 1 0 0 0 0;
    Requirement.mk 2 25 60 3 30;
    Requirement.mk 3 75 70 7 90;
    Requirement.mk 4 150 75 14 180;
    Requirement.mk 5 250 80 21 300;
    Requirement.mk 6 400 85 30 480;
    Requirement.mk 7 600 88 45 720;
    Requirement.mk 8 850 90 60 1000;
    Requirement.mk 9 1200 92 90 1440;
    Requirement.mk 10 1500 95 120 2000 ].

(** The qualification loop of [checkLevelProgression], on the four values
    it reads. *)
Section Qualification.
Variables (masteredWords : Z) (accuracy_rate : Q)
          (current_streak practiceTimeMinutes : Z).

Definition meetsRequirements (requirement : Requirement.t) : bool :=
  (Requirement.words requirement <=? masteredWords)
  && Qle_bool (inject_Z (Requirement.accuracy requirement)) accuracy_rate
  && (Requirement.streak requirement <=? current_streak)
  && (Requirement.time requirement <=? practiceTimeMinutes).

(** [for (const requirement of rest) { if (meets) qualifiedLevel =
    requirement.level; else break; }] *)
Fixpoint walk (rest : list Requirement.t) (qualifiedLevel : Z) : Z :=
  match rest with
  | [] => qualifiedLevel
  | requirement :: rest' =>
      if meetsRequirements requirement
      then walk rest' (Requirement.level requirement)
      else qualifiedLevel
  end.

Definition qualifiedLevel : Z := walk levelRequirements 1.

(** The entry of the ladder for level [L], and whether the four values
    meet it. *)
Definition requirementFor (L : Z) : option Requirement.t :=
  List.find (fun r => Requirement.level r =? L) levelRequirements.

Definition meetsLevel (L : Z) : bool :=
  match requirementFor L with
  | Some requirement => meetsRequirements requirement
  | None => false
  end.
End Qualification.

(** The level and the four thresholds of an entry. *)
Definition thresholds (r : Requirement.t) : Z * (Z * Z * Z * Z) :=
  (Requirement.level r,
   (Requirement.words r, Requirement.accuracy r, Requirement.streak r,
    Requirement.time r)).

Definition icons : list string :=
  ["🌱"; "🌿"; "🌳"; "⭐"; "🌟"; "💫"; "🏆"; "👑"; "💎"; "🔥"]%string.

(** [icons[Math.min(level - 1, icons.length - 1)]]; an index below 0 reads
    [undefined], shown here as the empty string. *)
Definition getLevelIcon (level : Z) : string :=
  let i := Z.min (level - 1) (Z.of_nat (length icons) - 1) in
  if i <? 0 then ""%string else default ""%string (icons !! Z.to_nat i).

Definition level_up_achievement (u : UserId) (now : Timestamp) (l : Z) : Achievement :=
  mkAchievement u "level_up"
    ("Level " +:+ pretty l +:+ " Reached!")
    ("Congratulations! You've advanced to Level " +:+ pretty l
       +:+ ". Keep up the amazing work!")
    (getLevelIcon l) now.

Definition milestone_5 (u : UserId) (now : Timestamp) : Achievement :=
  mkAchievement u "milestone" "Reading Star ⭐"
    "You've reached Level 5! You're becoming a reading expert!" "⭐" now.

Definition milestone_10 (u : UserId) (now : Timestamp) : Achievement :=
  mkAchievement u "milestone" "Reading Buddy Master 🏆"
    "Amazing! You've reached the highest level! You're a true reading champion!"
    "🏆" now.

(** What [endSession] returns. *)
Inductive EndResult : Type :=
| NoUser                                 (* [{ error: new Error('No user') }] *)
| Failed                                 (* [{ data: null, error }] *)
| Stored (data : LearningSession).       (* [{ data, error: null }] *)

Section Hook.
(** [useAuth().user], [useSettings().settings], and the clock as read
    during the call. *)
Variables (user : option UserId) (settings : option AppSettings).
Variables (now : Timestamp) (today : Date).

Definition startSession (ty : SessionType) : Session :=
  mkSession ty now [] 0 0.

Definition updateWordProgress (word : string) (difficulty : Difficulty)
    (isCorrect : bool) (db : DB) : DB :=
  match user with
  | None => db
  | Some u =>
      or_unchanged db
        (update_word_progress db now u (Js.toLowerCase word) difficulty isCorrect)
  end.

Definition addWordToSession (session : Session) (word : string) (isCorrect : bool)
    (difficulty : Difficulty) (db : DB) : Session * DB :=
  let updatedSession :=
    mkSession (sessionType session) (startTime session)
      (wordsPracticed session ++ [word])
      (correctPronunciations session + (if isCorrect then 1 else 0))
      (totalAttempts session + 1) in
  (updatedSession,
   match user with
   | Some _ => updateWordProgress word difficulty isCorrect db
   | None => db
   end).

Definition updateUserStats (wordsLearned practiceTime : Z) (accuracy : Q)
    (db : DB) : DB :=
  match user with
  | None => db
  | Some u =>
      or_unchanged db (update_user_stats db now u wordsLearned practiceTime accuracy)
  end.

Definition updateStreak (wordsLearned : Z) (db : DB) : DB :=
  match user, settings with
  | Some u, Some s =>
      let dailyGoal := Js.or_default (daily_word_goal s) 10 in
      let todayGoal := daily_goals db !! (u, Words, today) in
      let totalWordsToday :=
        match todayGoal with
        | Some g => Js.or_default (current_value g) 0
        | None => 0
        end + wordsLearned in
      if dailyGoal <=? totalWordsToday then
        match profiles db !! u with
        | Some profile =>
            let newStreak := current_streak profile + 1 in
            let newLongestStreak := Z.max newStreak (longest_streak profile) in
            or_unchanged db (update_profile_streak db now u newStreak newLongestStreak)
        | None => db
        end
      else db
  | _, _ => db
  end.

Definition checkLevelProgression (wordsLearned : Z) (sessionAccuracy : Q)
    (db : DB) : DB :=
  match user with
  | None => db
  | Some u =>
      match profiles db !! u with
      | None => db
      | Some profile =>
          let masteredWords := Z.of_nat (length (mastered_rows db u)) in
          let practiceTimeMinutes := total_practice_time profile / 60 in
          let qualifiedLevel :=
            qualifiedLevel masteredWords (Pg.numeric_5_2_val (accuracy_rate profile))
              (current_streak profile) practiceTimeMinutes in
          if level profile <? qualifiedLevel then
            let db1 := or_unchanged db (update_profile_level db now u qualifiedLevel) in
            let db2 :=
              or_unchanged db1
                (insert_achievement db1 (level_up_achievement u now qualifiedLevel)) in
            if qualifiedLevel =? 5 then
              or_unchanged db2 (insert_achievement db2 (milestone_5 u now))
            else if qualifiedLevel =? 10 then
              or_unchanged db2 (insert_achievement db2 (milestone_10 u now))
            else db2
          else db
      end
  end.

Definition updateDailyGoals (wordsLearned practiceTime : Z) (accuracy : Q)
    (db : DB) : DB :=
  match user with
  | None => db
  | Some u =>
      (* the rows of today, as fetched before any update *)
      let wordsGoal := daily_goals db !! (u, Words, today) in
      let timeGoal := daily_goals db !! (u, Time, today) in
      let accuracyGoal := daily_goals db !! (u, Accuracy, today) in
      let db1 :=
        match wordsGoal with
        | Some g =>
            let newValue := current_value g + wordsLearned in
            or_unchanged db
              (update_daily_goal db now u Words today newValue
                 (target_value g <=? newValue))
        | None => db
        end in
      let db2 :=
        match timeGoal with
        | Some g =>
            let newValue := current_value g + practiceTime / 60 in
            or_unchanged db1
              (update_daily_goal db1 now u Time today newValue
                 (target_value g <=? newValue))
        | None => db1
        end in
      let db3 :=
        match accuracyGoal with
        | Some g =>
            let newValue := Z.max (current_value g) (Qfloor accuracy) in
            or_unchanged db2
              (update_daily_goal db2 now u Accuracy today newValue
                 (target_value g <=? newValue))
        | None => db2
        end in
      match wordsGoal, timeGoal, accuracyGoal with
      | None, None, None =>
          let wordTarget :=
            match settings with
            | Some s => Js.or_default (daily_word_goal s) 10
            | None => 10
            end in
          let defaultGoals :=
            [ mkDailyGoalInsert Words wordTarget wordsLearned
                (wordTarget <=? wordsLearned);
              mkDailyGoalInsert Time 30 (practiceTime / 60)
                (30 <=? practiceTime / 60);
              mkDailyGoalInsert Accuracy 80 (Qfloor accuracy)
                (80 <=? Qfloor accuracy) ] in
          or_unchanged db3 (insert_daily_goals db3 now u today defaultGoals)
      | _, _, _ => db3
      end
  end.

(** [session.totalAttempts > 0 ? (correct / total) * 100 : 0].  The two
    counts are whole numbers, which binary64 holds exactly (below 2^53);
    the quotient and the product are rounded. *)
Definition accuracyRate (session : Session) : Js.number :=
  if 0 <? totalAttempts session
  then Binary64.mul (Binary64.div (Js.of_Z (correctPronunciations session))
                                  (Js.of_Z (totalAttempts session)))
                    (Js.of_Z 100)
  else Js.of_Z 0.

Definition endSession (session : Session) (db : DB) : EndResult * DB :=
  match user with
  | None => (NoUser, db)
  | Some u =>
      let sessionDuration := (now - startTime session) / 1000 in
      match accuracyRate session with
      | Js.Num accuracyRate =>
          match insert_learning_session db now u (sessionType session)
                  (wordsPracticed session) (correctPronunciations session)
                  (totalAttempts session) sessionDuration accuracyRate with
          | None => (Failed, db)
          | Some (data, db0) =>
              let n := Z.of_nat (length (wordsPracticed session)) in
              let db1 := updateUserStats n sessionDuration accuracyRate db0 in
              let db2 := updateDailyGoals n sessionDuration accuracyRate db1 in
              let db3 := updateStreak n db2 in
              let db4 := checkLevelProgression n accuracyRate db3 in
              (Stored data, db4)
          end
      | _ => (Failed, db)   (* not taken: [accuracyRate] is a finite number *)
      end
  end.

End Hook.

End UseLearningSession.

(** ** useLevelProgression (hooks/useProfile.ts) *)

Module UseLevelProgression.

(** [interface LevelRequirements] *)
Module LevelRequirements.
Record t : Type := mk {
  level : Z;
  minWordsLearned : Z;
  minAccuracy : Z;
  minStreakDays : Z;
  minPracticeTime : Z;               (* in minutes *)
  specialRequirements : option (list string);
}.
End LevelRequirements.

Definition LEVEL_REQUIREMENTS : list LevelRequirements.t :=
  [ LevelRequirements.mk 1 0 0 0 0 None;
    LevelRequirements.mk 2 25 60 3 30
      (Some ["Complete first chat session"; "Try pronunciation practice"]%string);
    LevelRequirements.mk 3 75 70 7 90
      (Some ["Master 10 easy words"; "Use app for 7 consecutive days"]%string);
    LevelRequirements.mk 4 150 75 14 180
      (Some ["Master 20 medium words"; "Achieve 80% accuracy in practice"]%string);
    LevelRequirements.mk 5 250 80 21 300
      (Some ["Master 15 hard words"; "Complete 50 practice sessions"]%string);
    LevelRequirements.mk 6 400 85 30 480
      (Some ["Master 30 hard words"; "Maintain 30-day streak"]%string);
    LevelRequirements.mk 7 600 88 45 720
      (Some ["Reading Champion achievement"; "Help others learn"]%string);
    LevelRequirements.mk 8 850 90 60 1000
      (Some ["Master 100 words total"; "Pronunciation expert"]%string);
    LevelRequirements.mk 9 1200 92 90 1440
      (Some ["Learning mentor"; "Advanced difficulty mastery"]%string);
    LevelRequirements.mk 10 1500 95 120 2000
      (Some ["Reading Buddy Master"; "Perfect pronunciation streak"]%string) ].

Section Qualification.
Variables (masteredWords : Z) (accuracy_rate : Q)
          (current_streak practiceTimeMinutes : Z).

Definition meetsRequirements (requirement : LevelRequirements.t) : bool :=
  (LevelRequirements.minWordsLearned requirement <=? masteredWords)
  && Qle_bool (inject_Z (LevelRequirements.minAccuracy requirement)) accuracy_rate
  && (LevelRequirements.minStreakDays requirement <=? current_streak)
  && (LevelRequirements.minPracticeTime requirement <=? practiceTimeMinutes).

Fixpoint walk (rest : list LevelRequirements.t) (qualifiedLevel : Z) : Z :=
  match rest with
  | [] => qualifiedLevel
  | requirement :: rest' =>
      if meetsRequirements requirement
      then walk rest' (LevelRequirements.level requirement)
      else qualifiedLevel
  end.

Definition qualifiedLevel : Z := walk LEVEL_REQUIREMENTS 1.

Definition requirementFor (L : Z) : option LevelRequirements.t :=
  List.find (fun r => LevelRequirements.level r =? L) LEVEL_REQUIREMENTS.

Definition meetsLevel (L : Z) : bool :=
  match requirementFor L with
  | Some requirement => meetsRequirements requirement
  | None => false
  end.
End Qualification.

(** The level and the four thresholds of an entry. *)
Definition thresholds (r : LevelRequirements.t) : Z * (Z * Z * Z * Z) :=
  (LevelRequirements.level r,
   (LevelRequirements.minWordsLearned r, LevelRequirements.minAccuracy r,
    LevelRequirements.minStreakDays r, LevelRequirements.minPracticeTime r)).

Definition icons : list string :=
  ["🌱"; "🌿"; "🌳"; "⭐"; "🌟"; "💫"; "🏆"; "👑"; "💎"; "🔥"]%string.

Definition getLevelIcon (level : Z) : string :=
  let i := Z.min (level - 1) (Z.of_nat (length icons) - 1) in
  if i <? 0 then ""%string else default ""%string (icons !! Z.to_nat i).

Section Hook.
Variables (user : option UserId) (now : Timestamp).

Definition updateUserLevel (newLevel : Z) (db : DB) : DB :=
  match user with
  | None => db
  | Some u => or_unchanged db (update_profile_level db now u newLevel)
  end.

(** [GlobalSounds.playSuccess()] only plays a sound; the inserts follow. *)
Definition awardLevelUpAchievement (newLevel : Z) (db : DB) : DB :=
  match user with
  | None => db
  | Some u =>
      let db1 :=
        or_unchanged db
          (insert_achievement db
             (mkAchievement u "level_up"
                ("Level " +:+ pretty newLevel +:+ " Reached!")
                ("Congratulations! You've advanced to Level " +:+ pretty newLevel
                   +:+ ". Keep up the amazing work!")
                (getLevelIcon newLevel) now)) in
      if newLevel =? 5 then
        or_unchanged db1
          (insert_achievement db1
             (mkAchievement u "milestone" "Reading Star ⭐"
                "You've reached Level 5! You're becoming a reading expert!" "⭐" now))
      else if newLevel =? 10 then
        or_unchanged db1
          (insert_achievement db1
             (mkAchievement u "milestone" "Reading Buddy Master 🏆"
                "Amazing! You've reached the highest level! You're a true reading champion!"
                "🏆" now))
      else db1
  end.

(** The database after the evaluation, and the value given to
    [setCurrentLevel] (if any).  The progress percentage shown next to
    it is display state and is not part of this model. *)
Definition checkLevelProgression (db : DB) : DB * option Z :=
  match user with
  | None => (db, None)
  | Some u =>
      match profiles db !! u with
      | None => (db, None)
      | Some profile =>
          let masteredWords := Z.of_nat (length (mastered_rows db u)) in
          let practiceTimeMinutes := total_practice_time profile / 60 in
          let qualifiedLevel :=
            qualifiedLevel masteredWords (Pg.numeric_5_2_val (accuracy_rate profile))
              (current_streak profile) practiceTimeMinutes in
          if level profile <? qualifiedLevel then
            (awardLevelUpAchievement qualifiedLevel (updateUserLevel qualifiedLevel db),
             Some qualifiedLevel)
          else (db, Some (level profile))
      end
  end.

End Hook.

End UseLevelProgression.

(** ** Arithmetic of JavaScript numbers used by the screens *)

Module JsMath.

(** [a + b] *)
Definition add (a b : Js.number) : Js.number :=
  match a, b with
  | Js.NaN, _ | _, Js.NaN => Js.NaN
  | Js.Num x, Js.Num y => Js.Num (x + y)%Q
  | Js.Num _, Js.Infinity s | Js.Infinity s, Js.Num _ => Js.Infinity s
  | Js.Infinity s, Js.Infinity t => if Bool.eqb s t then Js.Infinity s else Js.NaN
  end.

(** [a - b] *)
Definition sub (a b : Js.number) : Js.number :=
  match a, b with
  | Js.NaN, _ | _, Js.NaN => Js.NaN
  | Js.Num x, Js.Num y => Js.Num (x - y)%Q
  | Js.Num _, Js.Infinity s => Js.Infinity (negb s)
  | Js.Infinity s, Js.Num _ => Js.Infinity s
  | Js.Infinity s, Js.Infinity t => if Bool.eqb s t then Js.NaN else Js.Infinity s
  end.

(** [Math.min(a, b)] *)
Definition min (a b : Js.number) : Js.number :=
  match a, b with
  | Js.NaN, _ | _, Js.NaN => Js.NaN
  | Js.Num x, Js.Num y => if Qle_bool x y then Js.Num x else Js.Num y
  | Js.Infinity true, _ | _, Js.Infinity true => Js.Infinity true
  | Js.Num x, Js.Infinity false | Js.Infinity false, Js.Num x => Js.Num x
  | Js.Infinity false, Js.Infinity false => Js.Infinity false
  end.

(** [Math.floor(a)] *)
Definition floor (a : Js.number) : Js.number :=
  match a with
  | Js.Num x => Js.Num (inject_Z (Qfloor x))
  | other => other
  end.

(** [a > b] *)
Definition gt (a b : Js.number) : bool :=
  match a, b with
  | Js.NaN, _ | _, Js.NaN => false
  | Js.Num x, Js.Num y => negb (Qle_bool x y)
  | Js.Infinity s, Js.Infinity t => negb s && t
  | Js.Infinity s, Js.Num _ => negb s
  | Js.Num _, Js.Infinity t => t
  end.

End JsMath.

(** ** useLevelProgression: progress to the next level *)

Module LevelProgressView.
Module P := UseLevelProgression.

(** [calculateProgressToNextLevel(current, requirement)]: the mean of the
    four ratios, each capped at 1, as a whole percentage. *)
Definition calculateProgressToNextLevel (wordsLearned : Z) (accuracy : Q)
    (streak practiceTime : Z) (requirement : P.LevelRequirements.t) : Js.number :=
  let progressMetrics :=
    [ JsMath.min (Js.div (Js.of_Z wordsLearned)
                    (Js.of_Z (P.LevelRequirements.minWordsLearned requirement)))
        (Js.of_Z 1);
      JsMath.min (Js.div (Js.Num accuracy)
                    (Js.of_Z (P.LevelRequirements.minAccuracy requirement)))
        (Js.of_Z 1);
      JsMath.min (Js.div (Js.of_Z streak)
                    (Js.of_Z (P.LevelRequirements.minStreakDays requirement)))
        (Js.of_Z 1);
      JsMath.min (Js.div (Js.of_Z practiceTime)
                    (Js.of_Z (P.LevelRequirements.minPracticeTime requirement)))
        (Js.of_Z 1) ] in
  JsMath.floor
    (Js.mul
       (Js.div (fold_left JsMath.add progressMetrics (Js.of_Z 0))
          (Js.of_Z (Z.of_nat (length progressMetrics))))
       (Js.of_Z 100)).

(** The end of [checkLevelProgression]: the requirement of the next level
    (the last one at the top) and the progress towards it, when that
    requirement is found. *)
Definition nextLevelProgress (masteredWords : Z) (accuracy_rate : Q)
    (current_streak practiceTimeMinutes : Z)
    : option (Js.number * P.LevelRequirements.t) :=
  let qualifiedLevel :=
    P.qualifiedLevel masteredWords accuracy_rate current_streak practiceTimeMinutes in
  let nextLevel := Z.min (qualifiedLevel + 1) (Z.of_nat (length P.LEVEL_REQUIREMENTS)) in
  match List.find (fun r => P.LevelRequirements.level r =? nextLevel) P.LEVEL_REQUIREMENTS with
  | Some nextRequirement =>
      Some (calculateProgressToNextLevel masteredWords accuracy_rate current_streak
              practiceTimeMinutes nextRequirement,
            nextRequirement)
  | None => None
  end.

End LevelProgressView.

(** ** The practice screen (app/_layout.tsx, PracticeScreen)

    A string is the list of its code units; the words and transcripts this
    screen handles are ASCII text, held as [string]. *)

Module PracticeScreen.

Section Levenshtein.
Context {A : Type} `{EqDecision A}.

(** Row 0 of the matrix: [matrix[0][j] = j] for [j = 0 .. str1.length]. *)
Definition first_row (str1 : list A) : list Z :=
  List.map Z.of_nat (seq 0 (S (length str1))).

(** The inner loop on row [i], from some column [j] on: [diag] is
    [matrix[i-1][j-1]], [left] is [matrix[i][j-1]], [ups] holds
    [matrix[i-1][j], matrix[i-1][j+1], ...], [cs] the code units
    [str1.charAt(j-1), ...], and [c2] is [str2.charAt(i-1)]. *)
Fixpoint fill_row (c2 : A) (diag left : Z) (ups : list Z) (cs : list A) : list Z :=
  match cs, ups with
  | c1 :: cs', up :: ups' =>
      let cell :=
        if decide (c2 = c1) then diag
        else Z.min (Z.min (diag + 1) (left + 1)) (up + 1) in
      cell :: fill_row c2 up cell ups' cs'
  | _, _ => []
  end.

(** Row [i], which starts as [[i]], from row [i - 1]. *)
Definition next_row (i : Z) (c2 : A) (prev : list Z) (str1 : list A) : list Z :=
  match prev with
  | d :: ups => i :: fill_row c2 d i ups str1
  | [] => [i]
  end.

(** The rows [i, i + 1, ...] for the code units [rest2] of [str2]. *)
Fixpoint rows_from (i : Z) (prev : list Z) (str1 rest2 : list A) : list (list Z) :=
  match rest2 with
  | [] => []
  | c2 :: rest2' =>
      let row := next_row i c2 prev str1 in
      row :: rows_from (i + 1) row str1 rest2'
  end.

Definition matrix (str1 str2 : list A) : list (list Z) :=
  first_row str1 :: rows_from 1 (first_row str1) str1 str2.

(** [matrix[str2.length][str1.length]] *)
Definition levenshteinDistance (str1 str2 : list A) : Z :=
  default 0 (matrix str1 str2 !! length str2 ≫= (.!! length str1)).

(** [calculateSimilarity(str1, str2)] *)
Definition calculateSimilarity (str1 str2 : list A) : Js.number :=
  let longer := if (length str2 <? length str1)%nat then str1 else str2 in
  let shorter := if (length str2 <? length str1)%nat then str2 else str1 in
  if (length longer =? 0)%nat then Js.of_Z 1
  else
    let editDistance := levenshteinDistance longer shorter in
    Js.div (JsMath.sub (Js.of_Z (Z.of_nat (length longer))) (Js.of_Z editDistance))
      (Js.of_Z (Z.of_nat (length longer))).

(** [s.startsWith(p)] and [s.includes(p)] *)
Fixpoint starts_with (s p : list A) : bool :=
  match p, s with
  | [], _ => true
  | x :: p', y :: s' => bool_decide (x = y) && starts_with s' p'
  | _ :: _, [] => false
  end.

Fixpoint includes (s p : list A) : bool :=
  starts_with s p
  || match s with
     | [] => false
     | _ :: s' => includes s' p
     end.

End Levenshtein.

(** White space and line terminators below 128, which [trim] removes. *)
Definition is_space (c : ascii) : bool :=
  let n := nat_of_ascii c in
  ((9 <=? n) && (n <=? 13) || (n =? 32))%nat.

Fixpoint trim_start (s : list ascii) : list ascii :=
  match s with
  | c :: s' => if is_space c then trim_start s' else s
  | [] => []
  end.

(** [s.trim()] *)
Definition trim (s : list ascii) : list ascii :=
  rev (trim_start (rev (trim_start s))).

Definition code_units (s : string) : list ascii := list_ascii_of_string s.

(** The test of [checkPronunciation]: the transcript contains the word, or
    the word contains the transcript, or they are more than 0.7 similar.
    The quotient compared with 0.7 has a numerator and a denominator below
    2^32, so the binary64 comparison is the exact one. *)
Definition isCorrect (word spokenText : string) : bool :=
  let targetWord := code_units (Js.toLowerCase word) in
  let spokenWord := trim (code_units (Js.toLowerCase spokenText)) in
  includes spokenWord targetWord
  || includes targetWord spokenWord
  || JsMath.gt (calculateSimilarity spokenWord targetWord) (Js.Num (7 # 10)).

(** [checkPronunciation(spokenText)]: the verdict, and the session and
    database after the attempt is reported.  [word], [difficulty] and
    [currentSession] are the current word and session of the render that
    made the closure. *)
Definition checkPronunciation (user : option UserId) (now : Timestamp)
    (word : string) (difficulty : Difficulty)
    (currentSession : option UseLearningSession.Session) (spokenText : string) (db : DB)
    : bool * option UseLearningSession.Session * DB :=
  let correct := isCorrect word spokenText in
  match currentSession with
  | Some session =>
      let r := UseLearningSession.addWordToSession user now session word correct
                 difficulty db in
      (correct, Some r.1, r.2)
  | None => (correct, None, db)
  end.

(** An entry of [practiceWords]; the phonetic hint, which is only displayed,
    is left out. *)
Record PracticeWord : Type := mkPracticeWord {
  pw_word : string;
  pw_difficulty : Difficulty;
}.

Definition practiceWords : list PracticeWord :=
  [ mkPracticeWord "cat" easy; mkPracticeWord "dog" easy;
    mkPracticeWord "sun" easy; mkPracticeWord "book" easy;
    mkPracticeWord "tree" easy; mkPracticeWord "ball" easy;
    mkPracticeWord "fish" easy; mkPracticeWord "bird" easy;
    mkPracticeWord "happy" medium; mkPracticeWord "friend" medium;
    mkPracticeWord "school" medium; mkPracticeWord "family" medium;
    mkPracticeWord "garden" medium; mkPracticeWord "window" medium;
    mkPracticeWord "picture" medium; mkPracticeWord "kitchen" medium;
    mkPracticeWord "beautiful" hard; mkPracticeWord "wonderful" hard;
    mkPracticeWord "adventure" hard; mkPracticeWord "butterfly" hard;
    mkPracticeWord "telephone" hard; mkPracticeWord "computer" hard;
    mkPracticeWord "elephant" hard; mkPracticeWord "dinosaur" hard ].

Definition is_easy (w : PracticeWord) : bool :=
  match pw_difficulty w with easy => true | _ => false end.

Definition is_medium (w : PracticeWord) : bool :=
  match pw_difficulty w with medium => true | _ => false end.

(** The filter of the effect on [difficultyLevel]. *)
Definition keeps (difficultyLevel : string) (w : PracticeWord) : bool :=
  if String.eqb difficultyLevel "beginner" then is_easy w
  else if String.eqb difficultyLevel "intermediate" then is_easy w || is_medium w
  else if String.eqb difficultyLevel "advanced" then true
  else is_easy w.

(** The part of the screen's state that selects the word on display. *)
Record Screen : Type := mkScreen {
  filteredWords : list PracticeWord;
  currentWordIndex : nat;
}.

(** [filteredWords[currentWordIndex]]; [None] is [undefined]. *)
Definition currentWord (s : Screen) : option PracticeWord :=
  filteredWords s !! currentWordIndex s.

(** The effect on [difficultyLevel]. *)
Definition setDifficulty (difficultyLevel : string) (s : Screen) : Screen :=
  mkScreen (List.filter (keeps difficultyLevel) practiceWords) 0.

(** [setCurrentWordIndex((prev) => (prev + 1) % filteredWords.length)].  The
    [filteredWords] of this expression is the one of the render that made
    the closure, [capturedWords]: the current list for a handler of the
    latest render, an earlier one for a callback that was registered
    before (the speech [onresult] handler is registered once, at mount,
    and keeps the [checkPronunciation] and [nextWord] of the first render).
    With no word in the captured list the remainder is [NaN] in the source
    and [prev + 1] here; that case does not arise, no list being empty. *)
Definition nextWord (capturedWords : list PracticeWord) (s : Screen) : Screen :=
  mkScreen (filteredWords s) ((currentWordIndex s + 1) mod length capturedWords).

(** [resetPractice], as far as the word on display goes. *)
Definition resetIndex (s : Screen) : Screen :=
  mkScreen (filteredWords s) 0.

(** The screen together with the values [filteredWords] has had since the
    screen was mounted, oldest first: the lists the closures made so far
    can hold. *)
Record Practice : Type := mkPractice {
  screen : Screen;
  rendered : list (list PracticeWord);
}.

(** [useState(practiceWords)], [useState(0)] *)
Definition initial : Practice := mkPractice (mkScreen practiceWords 0) [practiceWords].

(** [NextWord k] runs a [nextWord] that was made while [filteredWords] had
    its [k]-th value ([k = 0] for the closures of the first render). *)
Inductive Event : Type :=
| DifficultyChanged (difficultyLevel : string)
| NextWord (k : nat)
| ResetPractice.

Definition step (p : Practice) (e : Event) : Practice :=
  match e with
  | DifficultyChanged l =>
      let s := setDifficulty l (screen p) in
      mkPractice s (rendered p ++ [filteredWords s])
  | NextWord k =>
      match rendered p !! k with
      | Some capturedWords => mkPractice (nextWord capturedWords (screen p)) (rendered p)
      | None => p
      end
  | ResetPractice => mkPractice (resetIndex (screen p)) (rendered p)
  end.

Definition run (events : list Event) (p : Practice) : Practice :=
  fold_left step events p.

End PracticeScreen.

(** ** The chat screen (app/(tabs)/index.tsx, ChatScreen) *)

Module ChatScreen.

(** [s.trim()] on a string *)
Definition trim (s : string) : string :=
  string_of_list_ascii (PracticeScreen.trim (PracticeScreen.code_units s)).

Definition getDifficulty (word : string) : Difficulty :=
  if (String.length word <=? 3)%nat then easy
  else if (String.length word <=? 6)%nat then medium
  else hard.

(** [sendMessage()], as far as the learning session goes: a blank input is
    dropped; any other is reported as a correct attempt at the trimmed,
    lower-cased input. *)
Definition sendMessage (user : option UserId) (now : Timestamp) (inputText : string)
    (currentSession : option UseLearningSession.Session) (db : DB)
    : option UseLearningSession.Session * DB :=
  if String.eqb (trim inputText) "" then (currentSession, db)
  else
    let word := trim (Js.toLowerCase inputText) in
    let difficulty := getDifficulty word in
    match currentSession with
    | Some session =>
        let r := UseLearningSession.addWordToSession user now session word true
                   difficulty db in
        (Some r.1, r.2)
    | None => (None, db)
    end.

(** The messages of a conversation, each with the time it is sent at. *)
Definition sendMessages (user : option UserId) (msgs : list (Timestamp * string))
    (currentSession : option UseLearningSession.Session) (db : DB)
    : option UseLearningSession.Session * DB :=
  fold_left (fun st m => sendMessage user m.1 m.2 st.1 st.2) msgs (currentSession, db).

End ChatScreen.

(** ** The progress screen (ProgressScreen): the achievement cards *)

Module ProgressScreen.

Record UserStats : Type := mkUserStats {
  totalWords : Z;
  totalTime : Z;                     (* minutes *)
  accuracyRate : Q;
  currentStreak : Z;
  sessionsToday : Z;
  chatSessions : Z;
  practiceSessions : Z;
  uniqueWordsLearned : Z;
  masteredWords : Z;
}.

(** A card; the texts shown on it ([title], [description], [icon],
    [category], [earnedAt]) are left out. *)
Record Achievement : Type := mkAchievement {
  id : string;
  earned : bool;
  progress : Q;
  maxProgress : Z;
}.

Definition calculateAchievements (stats : UserStats) : list Achievement :=
  [ mkAchievement "first_word" (0 <? totalWords stats)
      (inject_Z (Z.min (totalWords stats) 1)) 1;
    mkAchievement "chat_master" (10 <=? chatSessions stats)
      (inject_Z (Z.min (chatSessions stats) 10)) 10;
    mkAchievement "practice_star" (5 <=? practiceSessions stats)
      (inject_Z (Z.min (practiceSessions stats) 5)) 5;
    mkAchievement "word_explorer" (20 <=? uniqueWordsLearned stats)
      (inject_Z (Z.min (uniqueWordsLearned stats) 20)) 20;
    mkAchievement "reading_champion" (Qle_bool 90 (accuracyRate stats))
      (if Qle_bool (accuracyRate stats) 90 then accuracyRate stats else 90) 90;
    mkAchievement "daily_learner" (7 <=? currentStreak stats)
      (inject_Z (Z.min (currentStreak stats) 7)) 7;
    mkAchievement "word_master" (50 <=? masteredWords stats)
      (inject_Z (Z.min (masteredWords stats) 50)) 50;
    mkAchievement "time_champion" (300 <=? totalTime stats)
      (inject_Z (Z.min (totalTime stats) 300)) 300 ].

(** A row of [dailyGoals], as selected by [fetchUserProgress]. *)
Record DailyGoalView : Type := mkDailyGoalView {
  goal_type : GoalType;
  view_target_value : Z;
  view_current_value : Z;
  view_completed : bool;
}.

(** The [daily_goals] rows of the user for [today]; there is at most one of
    each type. *)
Definition fetchDailyGoals (db : DB) (u : UserId) (today : Date) : list DailyGoalView :=
  omap (fun g =>
          (fun r => mkDailyGoalView g (target_value r) (current_value r) (completed r))
          <$> daily_goals db !! (u, g, today))
    [Words; Time; Accuracy].

(** [getGoalByType(type)]: the row of that type, or a placeholder. *)
Definition getGoalByType (settings : option AppSettings) (dailyGoals : list DailyGoalView)
    (type : GoalType) : DailyGoalView :=
  match List.find (fun g => bool_decide (goal_type g = type)) dailyGoals with
  | Some g => g
  | None =>
      mkDailyGoalView type
        match type with
        | Words =>
            match settings with
            | Some s => Js.or_default (daily_word_goal s) 10
            | None => 10
            end
        | Time => 30
        | Accuracy => 80
        end
        0 false
  end.

End ProgressScreen.

(** ** Vocabulary of the statements *)

(** A ladder walk in general: entries of type [R], each with a level and a
    test; both hooks' loops are instances. *)
Module Ladder.
Section Generic.
Context {R : Type} (lvl : R -> Z) (meets : R -> bool).

Fixpoint climb (rest : list R) (q : Z) : Z :=
  match rest with
  | [] => q
  | r :: rest' => if meets r then climb rest' (lvl r) else q
  end.

(** The levels of [l] are [k], [k+1], [k+2], ... *)
Fixpoint consecutive_from (k : Z) (l : list R) : Prop :=
  match l with
  | [] => True
  | r :: l' => lvl r = k /\ consecutive_from (k + 1) l'
  end.
End Generic.

(** [q] is the level reached by a contiguous climb from level 1 on a
    ten-level ladder whose level [L] is met exactly when [meetsL L]:
    every level up to [q] is met, the next one (if any) is not, hence [q]
    is the highest level with all levels up to it met; and whoever
    qualifies for [L] meets every level below [L]. *)
Definition highest_contiguous (meetsL : Z -> bool) (q : Z) : Prop :=
  1 <= q <= 10
  /\ (forall L, 1 <= L <= q -> meetsL L = true)
  /\ (q < 10 -> meetsL (q + 1) = false)
  /\ (forall L, 1 <= L <= 10 ->
        (forall L', 1 <= L' <= L -> meetsL L' = true) -> L <= q)
  /\ (forall L L', L <= q -> 1 <= L' < L -> L' <= q /\ meetsL L' = true).
End Ladder.

(** None of the four values is negative: what the requirements of level 1
    ask. *)
Definition metrics_nonneg (masteredWords : Z) (accuracy_rate : Q)
    (current_streak practiceTimeMinutes : Z) : Prop :=
  0 <= masteredWords /\ (0 <= accuracy_rate)%Q
  /\ 0 <= current_streak /\ 0 <= practiceTimeMinutes.

(** What a walk that starts from 1 returns on a ten-level ladder: the
    level reached by the contiguous climb when level 1 is met, and the
    floor 1, with no level met at all, when it is not. *)
Definition contiguous_or_floor (meetsL : Z -> bool) (q : Z) : Prop :=
  1 <= q <= 10
  /\ (meetsL 1 = true -> Ladder.highest_contiguous meetsL q)
  /\ (meetsL 1 = false -> q = 1 /\ forall L, 1 <= L <= 10 -> meetsL L = false).

(** The level either hook computes for the user [u] with profile [profile]
    from the stored rows: mastered words are the [word_progress] rows of
    tier 75 or more, practice minutes are whole minutes of
    [total_practice_time]. *)
Definition stored_qualified_level (db : DB) (u : UserId) (profile : Profile) : Z :=
  UseLearningSession.qualifiedLevel
    (Z.of_nat (length (mastered_rows db u)))
    (Pg.numeric_5_2_val (accuracy_rate profile))
    (current_streak profile)
    (total_practice_time profile / 60).

Definition is_level_up (a : Achievement) : bool :=
  String.eqb (achievement_type a) "level_up".

(** The one transition of a level evaluation: from [db] to [db'] the profile
    of [u] gets level [q] (and a fresh [updated_at]), and the achievements
    gain exactly one 'level_up' record, naming [q], followed by records of
    other types only; nothing else changes. *)
Definition level_up_transition (u : UserId) (now : Timestamp) (profile : Profile)
    (q : Z) (db db' : DB) : Prop :=
  profiles db'
  = <[u := mkProfile q (total_words_learned profile) (total_practice_time profile)
             (accuracy_rate profile) (current_streak profile) (longest_streak profile)
             now]> (profiles db)
  /\ word_progress db' = word_progress db
  /\ daily_goals db' = daily_goals db
  /\ learning_sessions db' = learning_sessions db
  /\ exists a extra,
       achievements db' = achievements db ++ a :: extra
       /\ ach_user_id a = u
       /\ achievement_type a = "level_up"%string
       /\ title a = ("Level " +:+ pretty q +:+ " Reached!")%string
       /\ List.filter is_level_up (a :: extra) = [a].

(** A profile and [n] mastered words for one user, for worked examples. *)
Definition example_words (u : UserId) (n : nat) : gmap (UserId * string) WordProgress :=
  list_to_map
    (List.map (fun i => ((u, ("word" +:+ pretty i)%string), mkWordProgress easy 5 5 0 100 0))
       (seq 0 n)).

Definition example_db (u : UserId) (p : Profile) (n : nat) : DB :=
  mkDB {[u := p]} (example_words u n) ∅ [] [].

(** The mastery tier as the specification words it, from the counts after
    the attempt: 100 if accuracy >= 0.90 and practiced >= 5, else 75 if
    accuracy >= 0.70 and practiced >= 3, else 50 if accuracy >= 0.50, else 25,
    where accuracy is [times_correct / times_practiced]. *)
Definition spec_mastery_tier (times_correct times_practiced : Z) : Z :=
  let accuracy := (inject_Z times_correct / inject_Z times_practiced)%Q in
  if Qle_bool (90 # 100) accuracy && (5 <=? times_practiced) then 100
  else if Qle_bool (70 # 100) accuracy && (3 <=? times_practiced) then 75
  else if Qle_bool (50 # 100) accuracy then 50
  else 25.

(** One [rpc('update_word_progress', ...)] request. *)
Record WordCall : Type := mkWordCall {
  wc_now : Timestamp;
  wc_user : UserId;
  wc_word : string;
  wc_difficulty : Difficulty;
  wc_correct : bool;
}.

Definition call_update_word_progress (db : DB) (c : WordCall) : DB :=
  or_unchanged db
    (update_word_progress db (wc_now c) (wc_user c) (wc_word c) (wc_difficulty c)
       (wc_correct c)).

Definition run_word_calls (db : DB) (calls : list WordCall) : DB :=
  fold_left call_update_word_progress calls db.

(** The rate [update_user_stats] computes before it is stored. *)
Definition mean_rate (p : Profile) (sessionAccuracy : Q) : Q :=
  ((Pg.numeric_5_2_val (accuracy_rate p) + sessionAccuracy) / 2)%Q.

(** The database accepts the update of [update_user_stats] on profile [p]:
    both arguments and both sums are 32-bit integers and the rounded rate
    fits [numeric(5,2)]. *)
Definition stats_accepted (p : Profile) (wordsLearned practiceTime : Z)
    (sessionAccuracy : Q) : bool :=
  Pg.int4_ok wordsLearned && Pg.int4_ok practiceTime
  && Pg.int4_ok (total_words_learned p + wordsLearned)
  && Pg.int4_ok (total_practice_time p + practiceTime)
  && (Z.abs (Pg.round_half_away (mean_rate p sessionAccuracy * 100)) <? 100000).

(** The value the tracker merges into an existing row of type [g]. *)
Definition merged_value (g : GoalType) (wordsLearned practiceTime : Z) (accuracy : Q)
    (r : DailyGoal) : Z :=
  match g with
  | Words => current_value r + wordsLearned
  | Time => current_value r + practiceTime / 60
  | Accuracy => Z.max (current_value r) (Qfloor accuracy)
  end.

(** The row an accepted update writes, and the row a rejected one leaves. *)
Definition after_update (now : Timestamp) (v : Z) (c : bool) (r : DailyGoal) : DailyGoal :=
  if Pg.int4_ok v then mkDailyGoal (target_value r) v c now else r.

(** The target and the first value of a row the tracker creates. *)
Definition default_target (settings : option AppSettings) (g : GoalType) : Z :=
  match g with
  | Words =>
      match settings with
      | Some s => Js.or_default (daily_word_goal s) 10
      | None => 10
      end
  | Time => 30
  | Accuracy => 80
  end.

Definition initial_value (g : GoalType) (wordsLearned practiceTime : Z) (accuracy : Q) : Z :=
  match g with
  | Words => wordsLearned
  | Time => practiceTime / 60
  | Accuracy => Qfloor accuracy
  end.

(** The invariant of a daily-goal row. *)
Definition flag_matches (r : DailyGoal) : Prop :=
  completed r = (target_value r <=? current_value r).

(** One reported attempt, and a session built from [startSession] by a
    sequence of [addWordToSession] calls. *)
Record Attempt : Type := mkAttempt {
  at_word : string;
  at_correct : bool;
  at_difficulty : Difficulty;
}.

Definition add_attempts (user : option UserId) (now : Timestamp)
    (start : UseLearningSession.Session * DB) (attempts : list Attempt)
    : UseLearningSession.Session * DB :=
  fold_left
    (fun sd a =>
       UseLearningSession.addWordToSession user now sd.1 (at_word a) (at_correct a)
         (at_difficulty a) sd.2)
    attempts start.

Definition session_of (user : option UserId) (now : Timestamp) (ty : SessionType)
    (db : DB) (attempts : list Attempt) : UseLearningSession.Session * DB :=
  add_attempts user now (UseLearningSession.startSession now ty, db) attempts.

(** Which tables a step leaves alone. *)
Definition only_profiles_changed (db db' : DB) : Prop :=
  word_progress db' = word_progress db
  /\ daily_goals db' = daily_goals db
  /\ achievements db' = achievements db
  /\ learning_sessions db' = learning_sessions db.

Definition only_daily_goals_changed (db db' : DB) : Prop :=
  profiles db' = profiles db
  /\ word_progress db' = word_progress db
  /\ achievements db' = achievements db
  /\ learning_sessions db' = learning_sessions db.

Definition only_word_progress_changed (db db' : DB) : Prop :=
  profiles db' = profiles db
  /\ daily_goals db' = daily_goals db
  /\ achievements db' = achievements db
  /\ learning_sessions db' = learning_sessions db.

(** The tiers a row of [word_progress] can hold. *)
Definition is_tier (m : Z) : Prop := m = 0 \/ m = 25 \/ m = 50 \/ m = 75 \/ m = 100.

(** What a row of [word_progress] made by [update_word_progress] looks
    like: after one attempt it holds tier 0, after more it holds the tier of
    its counts. *)
Definition row_sound (r : WordProgress) : Prop :=
  1 <= times_practiced r
  /\ 0 <= times_correct r <= times_practiced r
  /\ ((times_practiced r = 1 /\ mastery_level r = 0)
      \/ (2 <= times_practiced r
          /\ mastery_level r = spec_mastery_tier (times_correct r) (times_practiced r))).

(** Nothing is left to do for [u]: the profile already holds at least the
    level its stored values qualify for. *)
Definition level_settled (db : DB) (u : UserId) : Prop :=
  forall p, profiles db !! u = Some p -> stored_qualified_level db u p <= level p.

(** The edit distance of two lists, by recursion on both: the number of
    insertions, deletions and substitutions that [levenshteinDistance]
    tabulates. *)
Fixpoint edit_distance {A : Type} `{EqDecision A} (s : list A) : list A -> Z :=
  match s with
  | [] => fun t => Z.of_nat (length t)
  | a :: s' =>
      fix go (t : list A) : Z :=
        match t with
        | [] => Z.of_nat (length (a :: s'))
        | b :: t' =>
            if decide (a = b) then edit_distance s' t'
            else Z.min (Z.min (edit_distance s' t' + 1) (go t' + 1))
                   (edit_distance s' (b :: t') + 1)
        end
  end.

(** The row of the matrix for the reversed prefix [p2] of [str2], from the
    column after the reversed prefix [p1] of [str1]. *)
Fixpoint row_of {A : Type} `{EqDecision A} (p2 p1 cs : list A) : list Z :=
  match cs with
  | [] => []
  | c :: cs' => edit_distance p2 (c :: p1) :: row_of p2 (c :: p1) cs'
  end.

(** The word index of the practice screen points into its word list. *)
Definition index_in_range (s : PracticeScreen.Screen) : Prop :=
  (PracticeScreen.currentWordIndex s < length (PracticeScreen.filteredWords s))%nat.

(** No list a closure of the practice screen can hold is empty, or longer
    than the table. *)
Definition lists_bounded (p : PracticeScreen.Practice) : Prop :=
  Forall (fun ws => (0 < length ws <= length PracticeScreen.practiceWords)%nat)
    (PracticeScreen.rendered p).

(** Every [nextWord] of the events was made by a render that showed the
    word list current when it runs. *)
Fixpoint uses_current_words (events : list PracticeScreen.Event)
    (p : PracticeScreen.Practice) : Prop :=
  match events with
  | [] => True
  | e :: events' =>
      match e with
      | PracticeScreen.NextWord k =>
          PracticeScreen.rendered p !! k
          = Some (PracticeScreen.filteredWords (PracticeScreen.screen p))
      | _ => True
      end
      /\ uses_current_words events' (PracticeScreen.step p e)
  end.

(** A chat message that [sendMessage] drops. *)
Definition blank_message (m : Timestamp * string) : bool := String.eqb (ChatScreen.trim m.2) "".

(** What holds of a session in which every attempt counted as correct. *)
Definition all_correct (s : UseLearningSession.Session) : Prop :=
  UseLearningSession.correctPronunciations s = UseLearningSession.totalAttempts s
  /\ UseLearningSession.totalAttempts s = Z.of_nat (length (UseLearningSession.wordsPracticed s)).

(** A card is earned exactly when its bar is full, and the bar never
    overflows. *)
Definition card_consistent (a : ProgressScreen.Achievement) : Prop :=
  (ProgressScreen.progress a <= inject_Z (ProgressScreen.maxProgress a))%Q
  /\ (ProgressScreen.earned a = true
      <-> (ProgressScreen.progress a == inject_Z (ProgressScreen.maxProgress a))%Q).

(** ** The level ladder *)

Module LadderFacts.
Import Ladder.

Section Generic.
Context {R : Type} (lvl : R -> Z) (meets : R -> bool).

Lemma consecutive_bounds (l : list R) : forall k r,
  consecutive_from lvl k l -> In r l -> k <= lvl r < k + Z.of_nat (length l).
Proof.
  induction l as [|r0 l IH]; intros k r Hc Hin; [destruct Hin|].
  destruct Hc as [H0 Hc]. cbn [length]. destruct Hin as [->|Hin].
  - lia.
  - specialize (IH _ _ Hc Hin). lia.
Qed.

Lemma climb_range (l : list R) : forall k,
  consecutive_from lvl k l ->
  k - 1 <= climb lvl meets l (k - 1) <= k - 1 + Z.of_nat (length l).
Proof.
  induction l as [|r0 l IH]; intros k Hc; cbn [climb length]; [lia|].
  destruct Hc as [H0 Hc]. destruct (meets r0); [|lia].
  specialize (IH _ Hc). replace (k + 1 - 1) with k in IH by lia.
  rewrite H0. lia.
Qed.

(** From any starting value, the climb ends between it and the top. *)
Lemma climb_bounds (l : list R) : forall k q,
  consecutive_from lvl k l ->
  Z.min q k <= climb lvl meets l q <= Z.max q (k - 1 + Z.of_nat (length l)).
Proof.
  induction l as [|r0 l IH]; intros k q Hc; cbn [climb length]; [lia|].
  destruct Hc as [H0 Hc]. destruct (meets r0); [|lia].
  specialize (IH (k + 1) (lvl r0) Hc). lia.
Qed.

(** Every entry at or below the level reached is met. *)
Lemma climb_met (l : list R) : forall k r,
  consecutive_from lvl k l -> In r l ->
  lvl r <= climb lvl meets l (k - 1) -> meets r = true.
Proof.
  induction l as [|r0 l IH]; intros k r Hc Hin Hle; [destruct Hin|].
  pose proof (consecutive_bounds _ _ _ Hc Hin) as Hb.
  destruct Hc as [H0 Hc]. cbn [climb] in Hle.
  destruct (meets r0) eqn:E0; [|lia].
  destruct Hin as [->|Hin]; [exact E0|].
  apply (IH (k + 1)); auto.
  replace (k + 1 - 1) with k by lia. now rewrite <- H0.
Qed.

(** The entry just above the level reached is not met. *)
Lemma climb_stop (l : list R) : forall k r,
  consecutive_from lvl k l -> In r l ->
  lvl r = climb lvl meets l (k - 1) + 1 -> meets r = false.
Proof.
  induction l as [|r0 l IH]; intros k r Hc Hin Heq; [destruct Hin|].
  destruct Hc as [H0 Hc]. cbn [climb] in Heq.
  destruct (meets r0) eqn:E0.
  - pose proof (climb_range l (k + 1) Hc) as Hr.
    replace (k + 1 - 1) with k in Hr by lia. rewrite H0 in Heq.
    destruct Hin as [->|Hin]; [lia|].
    apply (IH (k + 1)); auto.
    now replace (k + 1 - 1) with k by lia.
  - destruct Hin as [->|Hin]; [exact E0|].
    pose proof (consecutive_bounds _ _ _ Hc Hin). lia.
Qed.

(** A level within the ladder has an entry, found by its level. *)
Lemma find_level (l : list R) : forall k L,
  consecutive_from lvl k l -> k <= L < k + Z.of_nat (length l) ->
  exists r, List.find (fun r => lvl r =? L) l = Some r /\ In r l /\ lvl r = L.
Proof.
  induction l as [|r0 l IH]; intros k L Hc HL; cbn [length] in HL; [lia|].
  destruct Hc as [H0 Hc]. cbn [List.find].
  destruct (lvl r0 =? L) eqn:E.
  - exists r0. apply Z.eqb_eq in E. repeat split; auto. now left.
  - apply Z.eqb_neq in E.
    destruct (IH (k + 1) L Hc) as (r & Hf & Hin & Hl); [lia|].
    exists r. repeat split; auto. now right.
Qed.

(** The climb of a ten-level ladder from level 1, above a first entry
    that is met, is the highest contiguous level. *)
Lemma climb_highest_contiguous (r1 : R) (l : list R) :
  consecutive_from lvl 1 (r1 :: l) -> length (r1 :: l) = 10%nat ->
  meets r1 = true ->
  highest_contiguous
    (fun L => match List.find (fun r => lvl r =? L) (r1 :: l) with
              | Some r => meets r
              | None => false
              end)
    (climb lvl meets (r1 :: l) 1).
Proof.
  intros Hc Hlen H1.
  assert (Hq : climb lvl meets (r1 :: l) 1 = climb lvl meets (r1 :: l) (1 - 1)).
  { cbn [climb]. rewrite H1. reflexivity. }
  rewrite Hq. clear Hq.
  pose proof (climb_range _ _ Hc) as Hr. rewrite Hlen in Hr.
  assert (Hlow : 1 <= climb lvl meets (r1 :: l) (1 - 1)).
  { cbn [climb]. rewrite H1. destruct Hc as [H0 Hc].
    pose proof (climb_range l 2 Hc) as Hr2. rewrite H0.
    change (2 - 1) with 1 in Hr2. lia. }
  assert (Hmet : forall L, 1 <= L <= climb lvl meets (r1 :: l) (1 - 1) ->
            match List.find (fun r => lvl r =? L) (r1 :: l) with
            | Some r => meets r
            | None => false
            end = true).
  { intros L HL.
    destruct (find_level (r1 :: l) 1 L Hc) as (r & -> & Hin & Hl); [rewrite Hlen; lia|].
    apply (climb_met (r1 :: l) 1 r Hc Hin). lia. }
  assert (Hstop : climb lvl meets (r1 :: l) (1 - 1) < 10 ->
            match List.find (fun r => lvl r =? climb lvl meets (r1 :: l) (1 - 1) + 1)
                    (r1 :: l) with
            | Some r => meets r
            | None => false
            end = false).
  { intros Hlt.
    destruct (find_level (r1 :: l) 1 (climb lvl meets (r1 :: l) (1 - 1) + 1) Hc)
      as (r & -> & Hin & Hl); [rewrite Hlen; lia|].
    apply (climb_stop (r1 :: l) 1 r Hc Hin Hl). }
  unfold highest_contiguous. repeat split; try lia; auto.
  - intros L HL Hall.
    destruct (Z_lt_le_dec (climb lvl meets (r1 :: l) (1 - 1)) L) as [Hlt|]; [|lia].
    specialize (Hall (climb lvl meets (r1 :: l) (1 - 1) + 1)).
    rewrite Hstop in Hall by lia. discriminate Hall. lia.
  - apply Hmet. lia.
Qed.

End Generic.

End LadderFacts.

Module QualificationFacts.
Import Ladder LadderFacts.
Module S := UseLearningSession.
Module P := UseLevelProgression.

Section Metrics.
Variables (masteredWords : Z) (accuracy_rate : Q)
          (current_streak practiceTimeMinutes : Z).

Abbreviation s_meets := (S.meetsRequirements masteredWords accuracy_rate
                       current_streak practiceTimeMinutes).
Abbreviation p_meets := (P.meetsRequirements masteredWords accuracy_rate
                       current_streak practiceTimeMinutes).

(** Each hook's loop is the generic climb over its own ladder. *)
Lemma session_walk_climb (l : list S.Requirement.t) : forall q,
  S.walk masteredWords accuracy_rate current_streak practiceTimeMinutes l q
  = climb S.Requirement.level s_meets l q.
Proof.
  induction l as [|r l IH]; intros q; cbn [S.walk climb]; [reflexivity|].
  destruct (s_meets r); [apply IH | reflexivity].
Qed.

Lemma progression_walk_climb (l : list P.LevelRequirements.t) : forall q,
  P.walk masteredWords accuracy_rate current_streak practiceTimeMinutes l q
  = climb P.LevelRequirements.level p_meets l q.
Proof.
  induction l as [|r l IH]; intros q; cbn [P.walk climb]; [reflexivity|].
  destruct (p_meets r); [apply IH | reflexivity].
Qed.

(** Two entries with the same thresholds are met by the same values. *)
Lemma meets_by_thresholds (a : S.Requirement.t) (b : P.LevelRequirements.t) :
  S.thresholds a = P.thresholds b -> s_meets a = p_meets b.
Proof.
  destruct a, b. unfold S.thresholds, P.thresholds. cbn.
  intros [= -> -> -> -> ->]. reflexivity.
Qed.

(** The two loops are the same function of a ladder's thresholds. *)
Lemma walks_agree (l1 : list S.Requirement.t) :
  forall (l2 : list P.LevelRequirements.t) q,
  map S.thresholds l1 = map P.thresholds l2 ->
  S.walk masteredWords accuracy_rate current_streak practiceTimeMinutes l1 q
  = P.walk masteredWords accuracy_rate current_streak practiceTimeMinutes l2 q.
Proof.
  induction l1 as [|a l1 IH]; intros [|b l2] q Hmap; try discriminate Hmap.
  - reflexivity.
  - cbn [map] in Hmap.
    assert (Hab : S.thresholds a = P.thresholds b)
      by exact (f_equal (fun t => List.hd (S.thresholds a) t) Hmap).
    assert (Hrest : map S.thresholds l1 = map P.thresholds l2)
      by exact (f_equal (@List.tl _) Hmap).
    cbn [S.walk P.walk]. rewrite (meets_by_thresholds a b Hab).
    destruct (p_meets b); [|reflexivity].
    replace (S.Requirement.level a) with (P.LevelRequirements.level b).
    + apply IH, Hrest.
    + destruct a, b. unfold S.thresholds, P.thresholds in Hab. cbn in *. congruence.
Qed.

(** The first entry of either ladder asks for nothing. *)
Lemma session_level1_met :
  metrics_nonneg masteredWords accuracy_rate current_streak practiceTimeMinutes ->
  s_meets (S.Requirement.mk 1 0 0 0 0) = true.
Proof.
  intros (Hw & Ha & Hs & Ht). unfold S.meetsRequirements. cbn.
  rewrite !andb_true_iff, !Z.leb_le, Qle_bool_iff. auto.
Qed.

Lemma progression_level1_met :
  metrics_nonneg masteredWords accuracy_rate current_streak practiceTimeMinutes ->
  p_meets (P.LevelRequirements.mk 1 0 0 0 0 None) = true.
Proof.
  intros (Hw & Ha & Hs & Ht). unfold P.meetsRequirements. cbn.
  rewrite !andb_true_iff, !Z.leb_le, Qle_bool_iff. auto.
Qed.

Lemma session_consecutive :
  consecutive_from S.Requirement.level 1 S.levelRequirements.
Proof. cbn. repeat split. Qed.

Lemma progression_consecutive :
  consecutive_from P.LevelRequirements.level 1 P.LEVEL_REQUIREMENTS.
Proof. cbn. repeat split. Qed.

Lemma session_qualified_highest :
  metrics_nonneg masteredWords accuracy_rate current_streak practiceTimeMinutes ->
  highest_contiguous
    (S.meetsLevel masteredWords accuracy_rate current_streak practiceTimeMinutes)
    (S.qualifiedLevel masteredWords accuracy_rate current_streak practiceTimeMinutes).
Proof.
  intros Hnn. unfold S.qualifiedLevel. rewrite session_walk_climb.
  apply (climb_highest_contiguous S.Requirement.level s_meets _ _
           session_consecutive eq_refl (session_level1_met Hnn)).
Qed.

Lemma progression_qualified_highest :
  metrics_nonneg masteredWords accuracy_rate current_streak practiceTimeMinutes ->
  highest_contiguous
    (P.meetsLevel masteredWords accuracy_rate current_streak practiceTimeMinutes)
    (P.qualifiedLevel masteredWords accuracy_rate current_streak practiceTimeMinutes).
Proof.
  intros Hnn. unfold P.qualifiedLevel. rewrite progression_walk_climb.
  apply (climb_highest_contiguous P.LevelRequirements.level p_meets _ _
           progression_consecutive eq_refl (progression_level1_met Hnn)).
Qed.

(** The level computed is between 1 and 10 whatever the values are. *)
Lemma session_qualified_range :
  1 <= S.qualifiedLevel masteredWords accuracy_rate current_streak practiceTimeMinutes
    <= 10.
Proof.
  unfold S.qualifiedLevel. rewrite session_walk_climb.
  pose proof (climb_bounds S.Requirement.level s_meets _ 1 1 session_consecutive) as Hr.
  change (Z.of_nat (length S.levelRequirements)) with 10 in Hr. lia.
Qed.

(** Level 1 asks for nothing, so it is met exactly by values that are not
    negative; and no entry asks for less, so values that miss level 1 miss
    every level. *)
Lemma session_level1_iff :
  S.meetsLevel masteredWords accuracy_rate current_streak practiceTimeMinutes 1 = true
  <-> metrics_nonneg masteredWords accuracy_rate current_streak practiceTimeMinutes.
Proof.
  change (S.meetsLevel masteredWords accuracy_rate current_streak practiceTimeMinutes 1)
    with (s_meets (S.Requirement.mk 1 0 0 0 0)).
  unfold S.meetsRequirements, metrics_nonneg. cbn.
  rewrite !andb_true_iff, !Z.leb_le, Qle_bool_iff. tauto.
Qed.

Lemma progression_level1_iff :
  P.meetsLevel masteredWords accuracy_rate current_streak practiceTimeMinutes 1 = true
  <-> metrics_nonneg masteredWords accuracy_rate current_streak practiceTimeMinutes.
Proof.
  change (P.meetsLevel masteredWords accuracy_rate current_streak practiceTimeMinutes 1)
    with (p_meets (P.LevelRequirements.mk 1 0 0 0 0 None)).
  unfold P.meetsRequirements, metrics_nonneg. cbn.
  rewrite !andb_true_iff, !Z.leb_le, Qle_bool_iff. tauto.
Qed.

Lemma session_met_nonneg (L : Z) :
  S.meetsLevel masteredWords accuracy_rate current_streak practiceTimeMinutes L = true ->
  metrics_nonneg masteredWords accuracy_rate current_streak practiceTimeMinutes.
Proof.
  unfold S.meetsLevel.
  destruct (S.requirementFor L) as [r|] eqn:E; [|discriminate].
  apply find_some in E. destruct E as [Hin _].
  unfold S.meetsRequirements, metrics_nonneg.
  rewrite !andb_true_iff, !Z.leb_le, Qle_bool_iff. intros [[[Hw Ha] Hs] Ht].
  assert (Hr : 0 <= S.Requirement.words r /\ 0 <= S.Requirement.accuracy r
               /\ 0 <= S.Requirement.streak r /\ 0 <= S.Requirement.time r).
  { unfold S.levelRequirements in Hin. cbn [In] in Hin.
    repeat (destruct Hin as [<-|Hin]; [cbn; lia|]). destruct Hin. }
  destruct Hr as (Rw & Ra & Rs & Rt).
  assert (Ra' : (0 <= inject_Z (S.Requirement.accuracy r))%Q).
  { change 0%Q with (inject_Z 0). now rewrite <- Zle_Qle. }
  repeat split; try lia. lra.
Qed.

Lemma progression_met_nonneg (L : Z) :
  P.meetsLevel masteredWords accuracy_rate current_streak practiceTimeMinutes L = true ->
  metrics_nonneg masteredWords accuracy_rate current_streak practiceTimeMinutes.
Proof.
  unfold P.meetsLevel.
  destruct (P.requirementFor L) as [r|] eqn:E; [|discriminate].
  apply find_some in E. destruct E as [Hin _].
  unfold P.meetsRequirements, metrics_nonneg.
  rewrite !andb_true_iff, !Z.leb_le, Qle_bool_iff. intros [[[Hw Ha] Hs] Ht].
  assert (Hr : 0 <= P.LevelRequirements.minWordsLearned r
               /\ 0 <= P.LevelRequirements.minAccuracy r
               /\ 0 <= P.LevelRequirements.minStreakDays r
               /\ 0 <= P.LevelRequirements.minPracticeTime r).
  { unfold P.LEVEL_REQUIREMENTS in Hin. cbn [In] in Hin.
    repeat (destruct Hin as [<-|Hin]; [cbn; lia|]). destruct Hin. }
  destruct Hr as (Rw & Ra & Rs & Rt).
  assert (Ra' : (0 <= inject_Z (P.LevelRequirements.minAccuracy r))%Q).
  { change 0%Q with (inject_Z 0). now rewrite <- Zle_Qle. }
  repeat split; try lia. lra.
Qed.

Lemma session_contiguous_or_floor :
  contiguous_or_floor
    (S.meetsLevel masteredWords accuracy_rate current_streak practiceTimeMinutes)
    (S.qualifiedLevel masteredWords accuracy_rate current_streak practiceTimeMinutes).
Proof.
  split; [apply session_qualified_range|]. split.
  - intros H1. apply session_qualified_highest, session_level1_iff, H1.
  - intros H1. split.
    + change (S.meetsLevel masteredWords accuracy_rate current_streak
                practiceTimeMinutes 1)
        with (s_meets (S.Requirement.mk 1 0 0 0 0)) in H1.
      unfold S.qualifiedLevel, S.levelRequirements. cbn [S.walk]. now rewrite H1.
    + intros L _.
      destruct (S.meetsLevel masteredWords accuracy_rate current_streak
                  practiceTimeMinutes L) eqn:E; [|reflexivity].
      apply session_met_nonneg, session_level1_iff in E. congruence.
Qed.

Lemma progression_contiguous_or_floor :
  contiguous_or_floor
    (P.meetsLevel masteredWords accuracy_rate current_streak practiceTimeMinutes)
    (P.qualifiedLevel masteredWords accuracy_rate current_streak practiceTimeMinutes).
Proof.
  assert (Hrange : 1 <= P.qualifiedLevel masteredWords accuracy_rate current_streak
                          practiceTimeMinutes <= 10).
  { unfold P.qualifiedLevel. rewrite progression_walk_climb.
    pose proof (climb_bounds P.LevelRequirements.level p_meets _ 1 1
                  progression_consecutive) as Hr.
    change (Z.of_nat (length P.LEVEL_REQUIREMENTS)) with 10 in Hr. lia. }
  split; [exact Hrange|]. split.
  - intros H1. apply progression_qualified_highest, progression_level1_iff, H1.
  - intros H1. split.
    + change (P.meetsLevel masteredWords accuracy_rate current_streak
                practiceTimeMinutes 1)
        with (p_meets (P.LevelRequirements.mk 1 0 0 0 0 None)) in H1.
      unfold P.qualifiedLevel, P.LEVEL_REQUIREMENTS. cbn [P.walk]. now rewrite H1.
    + intros L _.
      destruct (P.meetsLevel masteredWords accuracy_rate current_streak
                  practiceTimeMinutes L) eqn:E; [|reflexivity].
      apply progression_met_nonneg, progression_level1_iff in E. congruence.
Qed.

End Metrics.

End QualificationFacts.

(** A new user qualifies for level 1 only; a user who clears the first five
    rows but not the sixth is at level 5. *)
Example qualified_level_new_user :
  UseLearningSession.qualifiedLevel 0 0 0 0 = 1
  /\ UseLevelProgression.qualifiedLevel 0 0 0 0 = 1.
Proof. split; reflexivity. Qed.

Example qualified_level_five :
  UseLearningSession.qualifiedLevel 300 (8250 # 100) 25 310 = 5
  /\ UseLearningSession.meetsLevel 300 (8250 # 100) 25 310 6 = false.
Proof. split; reflexivity. Qed.

(** One short streak holds the user at level 1 whatever the other values. *)
Example qualified_level_short_streak :
  UseLearningSession.qualifiedLevel 2000 100 2 5000 = 1
  /\ UseLearningSession.meetsLevel 2000 100 2 5000 2 = false.
Proof. split; reflexivity. Qed.

(** The walk starts from 1: values that fail even the first row still give
    level 1. *)
Example qualified_level_floor :
  UseLearningSession.qualifiedLevel 0 0 (-1) 0 = 1
  /\ UseLearningSession.meetsLevel 0 0 (-1) 0 1 = false.
Proof. split; reflexivity. Qed.

(** With values that are not negative the walk is the contiguous climb. *)
Example qualified_level_two :
  metrics_nonneg 30 (6500 # 100) 4 45
  /\ UseLearningSession.qualifiedLevel 30 (6500 # 100) 4 45 = 2
  /\ UseLevelProgression.qualifiedLevel 30 (6500 # 100) 4 45 = 2
  /\ Ladder.highest_contiguous
       (UseLearningSession.meetsLevel 30 (6500 # 100) 4 45)
       (UseLearningSession.qualifiedLevel 30 (6500 # 100) 4 45).
Proof.
  assert (Hnn : metrics_nonneg 30 (6500 # 100) 4 45).
  { unfold metrics_nonneg, Qle. simpl. lia. }
  split; [exact Hnn|]. split; [reflexivity|]. split; [reflexivity|].
  now apply QualificationFacts.session_qualified_highest.
Qed.

(** The computed level is not always one the values qualify for.  A session
    that ends at a clock reading before the one it started at has a
    negative duration, which [update_user_stats] adds to
    [total_practice_time]: the profile then holds -99 seconds, -2 minutes,
    the requirements of level 1 are not met, and the walk still returns 1. *)
Lemma qualified_level_without_level_1 :
  let db := example_db "u1" (mkProfile 1 0 0 0 0 0 0) 0 in
  let session := UseLearningSession.mkSession practice 100000 ["cat"%string] 1 1 in
  let db' := (UseLearningSession.endSession (Some "u1"%string) (Some (mkAppSettings 10))
                1000 "2025-06-28" session db).2 in
  let meets := UseLearningSession.meetsLevel 0 50 0 (-2) in
  let q := UseLearningSession.qualifiedLevel 0 50 0 (-2) in
  (exists p, profiles db' !! "u1"%string = Some p
             /\ total_practice_time p = -99
             /\ Z.of_nat (length (mastered_rows db' "u1")) = 0
             /\ (Pg.numeric_5_2_val (accuracy_rate p) == 50)%Q
             /\ current_streak p = 0
             /\ total_practice_time p / 60 = -2
             /\ stored_qualified_level db' "u1" p = 1)
  /\ q = 1
  /\ meets 1 = false
  /\ ~ Ladder.highest_contiguous meets q.
Proof.
  cbv zeta. split; [|split; [reflexivity|split; [reflexivity|]]].
  - eexists. split; [vm_compute; reflexivity|]. vm_compute. repeat split; congruence.
  - intros (_ & Hall & _). specialize (Hall 1 ltac:(vm_compute; split; congruence)).
    discriminate Hall.
Qed.

(** C2. For every value of the four metrics (mastered-word count, accuracy
    rate, current streak, practice minutes), the level computed by the
    ladder walk of either hook lies in 1..10, and:

    - when the requirements of level 1 are met, which is exactly when no
      value is negative, every level up to it has its requirements met (so
      qualifying for L implies meeting every level below L), the next
      level, if there is one, is not met (the walk stopped there), and it
      is the highest level all of whose lower levels are met contiguously
      from level 1;
    - when a value is negative, no level has its requirements met and the
      walk returns 1, the value it starts from. *)
Theorem qualified_level_contiguous_or_floor
    (masteredWords : Z) (accuracy_rate : Q) (current_streak practiceTimeMinutes : Z) :
  contiguous_or_floor
    (UseLearningSession.meetsLevel masteredWords accuracy_rate current_streak
       practiceTimeMinutes)
    (UseLearningSession.qualifiedLevel masteredWords accuracy_rate current_streak
       practiceTimeMinutes)
  /\ contiguous_or_floor
       (UseLevelProgression.meetsLevel masteredWords accuracy_rate current_streak
          practiceTimeMinutes)
       (UseLevelProgression.qualifiedLevel masteredWords accuracy_rate current_streak
          practiceTimeMinutes)
  /\ (UseLearningSession.meetsLevel masteredWords accuracy_rate current_streak
        practiceTimeMinutes 1 = true
      <-> metrics_nonneg masteredWords accuracy_rate current_streak practiceTimeMinutes)
  /\ (UseLevelProgression.meetsLevel masteredWords accuracy_rate current_streak
        practiceTimeMinutes 1 = true
      <-> metrics_nonneg masteredWords accuracy_rate current_streak practiceTimeMinutes).
Proof.
  split; [apply QualificationFacts.session_contiguous_or_floor|].
  split; [apply QualificationFacts.progression_contiguous_or_floor|].
  split.
  - apply QualificationFacts.session_level1_iff.
  - apply QualificationFacts.progression_level1_iff.
Qed.

(** C9. The ladder of [useLearningSession] and the ladder of
    [useLevelProgression] have ten entries with equal levels and equal
    thresholds entry by entry, their loops compute the same result on any
    two ladders with equal thresholds, and so both hooks compute the same
    qualified level from every four values. *)
Theorem both_hooks_qualify_alike :
  length UseLearningSession.levelRequirements = 10%nat
  /\ map UseLearningSession.thresholds UseLearningSession.levelRequirements
     = map UseLevelProgression.thresholds UseLevelProgression.LEVEL_REQUIREMENTS
  /\ forall (masteredWords : Z) (accuracy_rate : Q)
            (current_streak practiceTimeMinutes : Z),
       (forall l1 l2 q,
          map UseLearningSession.thresholds l1 = map UseLevelProgression.thresholds l2 ->
          UseLearningSession.walk masteredWords accuracy_rate current_streak
            practiceTimeMinutes l1 q
          = UseLevelProgression.walk masteredWords accuracy_rate current_streak
              practiceTimeMinutes l2 q)
       /\ UseLearningSession.qualifiedLevel masteredWords accuracy_rate current_streak
            practiceTimeMinutes
          = UseLevelProgression.qualifiedLevel masteredWords accuracy_rate current_streak
              practiceTimeMinutes.
Proof.
  split; [reflexivity|]. split; [reflexivity|].
  intros mw acc st pm. split.
  - intros l1 l2 q H. now apply QualificationFacts.walks_agree.
  - unfold UseLearningSession.qualifiedLevel, UseLevelProgression.qualifiedLevel.
    now apply QualificationFacts.walks_agree.
Qed.

(** ** Level-up transition *)

Module LevelUpFacts.
Module S := UseLearningSession.
Module P := UseLevelProgression.

Lemma int4_level (q : Z) : 1 <= q <= 10 -> Pg.int4 q = Some q.
Proof.
  intros Hq. unfold Pg.int4, Pg.int4_ok, Pg.int4_min, Pg.int4_max.
  destruct (Z.leb_spec (- 2 ^ 31) q), (Z.leb_spec q (2 ^ 31 - 1)); try reflexivity; lia.
Qed.

Lemma stored_qualified_level_range (db : DB) (u : UserId) (profile : Profile) :
  1 <= stored_qualified_level db u profile <= 10.
Proof. apply QualificationFacts.session_qualified_range. Qed.

Lemma progression_stored_level (db : DB) (u : UserId) (profile : Profile) :
  P.qualifiedLevel (Z.of_nat (length (mastered_rows db u)))
    (Pg.numeric_5_2_val (accuracy_rate profile)) (current_streak profile)
    (total_practice_time profile / 60)
  = stored_qualified_level db u profile.
Proof.
  unfold stored_qualified_level, S.qualifiedLevel, P.qualifiedLevel.
  symmetry. now apply QualificationFacts.walks_agree.
Qed.

Lemma insert_achievement_ok (db : DB) (a : Achievement) :
  is_Some (profiles db !! ach_user_id a) ->
  or_unchanged db (insert_achievement db a)
  = set_achievements db (achievements db ++ [a]).
Proof. intros [p Hp]. unfold insert_achievement. rewrite Hp. reflexivity. Qed.

(** The three writes of a level-up, whoever issues them. *)
Lemma level_up_steps (u : UserId) (now : Timestamp) (profile : Profile) (q : Z)
    (db : DB) (a m5 m10 : Achievement) :
  profiles db !! u = Some profile -> 1 <= q <= 10 ->
  ach_user_id a = u -> achievement_type a = "level_up"%string ->
  title a = ("Level " +:+ pretty q +:+ " Reached!")%string ->
  ach_user_id m5 = u -> is_level_up m5 = false ->
  ach_user_id m10 = u -> is_level_up m10 = false ->
  let db1 := or_unchanged db (update_profile_level db now u q) in
  let db2 := or_unchanged db1 (insert_achievement db1 a) in
  let db3 :=
    if q =? 5 then or_unchanged db2 (insert_achievement db2 m5)
    else if q =? 10 then or_unchanged db2 (insert_achievement db2 m10)
    else db2 in
  level_up_transition u now profile q db db3.
Proof.
  intros Hp Hq Hu Hty Hti Hu5 Hn5 Hu10 Hn10 db1 db2 db3.
  assert (E1 : db1 = set_profiles db
                 (<[u := mkProfile q (total_words_learned profile)
                           (total_practice_time profile) (accuracy_rate profile)
                           (current_streak profile) (longest_streak profile) now]>
                    (profiles db))).
  { subst db1. unfold update_profile_level. rewrite Hp, (int4_level q Hq). reflexivity. }
  assert (Hin1 : forall d, profiles d = profiles db1 -> is_Some (profiles d !! u)).
  { intros d ->. rewrite E1. cbn. rewrite lookup_insert_eq. eauto. }
  assert (E2 : db2 = set_achievements db1 (achievements db1 ++ [a])).
  { subst db2. apply insert_achievement_ok. rewrite Hu. now apply Hin1. }
  assert (Hla : is_level_up a = true).
  { unfold is_level_up. rewrite Hty. reflexivity. }
  assert (E3 : exists extra,
             db3 = set_achievements db1 (achievements db1 ++ a :: extra)
             /\ List.filter is_level_up extra = []).
  { subst db3.
    destruct (q =? 5); [|destruct (q =? 10)].
    - exists [m5]. rewrite insert_achievement_ok
        by (rewrite Hu5; apply Hin1; rewrite E2; reflexivity).
      rewrite E2. cbn. rewrite <- app_assoc, Hn5. auto.
    - exists [m10]. rewrite insert_achievement_ok
        by (rewrite Hu10; apply Hin1; rewrite E2; reflexivity).
      rewrite E2. cbn. rewrite <- app_assoc, Hn10. auto.
    - exists []. rewrite E2. auto. }
  destruct E3 as (extra & -> & Hextra).
  rewrite E1. unfold level_up_transition. cbn.
  repeat split. exists a, extra. rewrite Hla, Hextra. auto.
Qed.

Lemma session_level_up (u : UserId) (now : Timestamp) (wordsLearned : Z)
    (sessionAccuracy : Q) (db : DB) (profile : Profile) :
  profiles db !! u = Some profile ->
  level profile < stored_qualified_level db u profile ->
  level_up_transition u now profile (stored_qualified_level db u profile) db
    (S.checkLevelProgression (Some u) now wordsLearned sessionAccuracy db).
Proof.
  intros Hp Hlt. unfold S.checkLevelProgression. rewrite Hp.
  fold (stored_qualified_level db u profile).
  apply Z.ltb_lt in Hlt. rewrite Hlt.
  now apply level_up_steps; auto using stored_qualified_level_range.
Qed.

Lemma session_no_level_up (u : UserId) (now : Timestamp) (wordsLearned : Z)
    (sessionAccuracy : Q) (db : DB) (profile : Profile) :
  profiles db !! u = Some profile ->
  stored_qualified_level db u profile <= level profile ->
  S.checkLevelProgression (Some u) now wordsLearned sessionAccuracy db = db.
Proof.
  intros Hp Hle. unfold S.checkLevelProgression. rewrite Hp.
  fold (stored_qualified_level db u profile).
  apply Z.ltb_ge in Hle. now rewrite Hle.
Qed.

Lemma progression_level_up (u : UserId) (now : Timestamp) (db : DB) (profile : Profile) :
  profiles db !! u = Some profile ->
  level profile < stored_qualified_level db u profile ->
  level_up_transition u now profile (stored_qualified_level db u profile) db
    (P.checkLevelProgression (Some u) now db).1
  /\ (P.checkLevelProgression (Some u) now db).2
     = Some (stored_qualified_level db u profile).
Proof.
  intros Hp Hlt. unfold P.checkLevelProgression. rewrite Hp.
  rewrite progression_stored_level.
  apply Z.ltb_lt in Hlt. rewrite Hlt. cbn [fst snd]. split; [|reflexivity].
  unfold P.awardLevelUpAchievement, P.updateUserLevel.
  now apply level_up_steps; auto using stored_qualified_level_range.
Qed.

Lemma progression_no_level_up (u : UserId) (now : Timestamp) (db : DB)
    (profile : Profile) :
  profiles db !! u = Some profile ->
  stored_qualified_level db u profile <= level profile ->
  P.checkLevelProgression (Some u) now db = (db, Some (level profile)).
Proof.
  intros Hp Hle. unfold P.checkLevelProgression. rewrite Hp.
  rewrite progression_stored_level.
  apply Z.ltb_ge in Hle. now rewrite Hle.
Qed.

End LevelUpFacts.

(** A user at level 2 whose stored values clear the first five rows: one
    evaluation writes level 5 and two achievements, the level-up for level 5
    and the level-5 milestone; no record is made for levels 3 and 4. *)
Example level_jump_2_to_5 :
  let p := mkProfile 2 300 18600 8250 25 25 0 in
  let db := example_db "u1" p 260 in
  let db' := UseLearningSession.checkLevelProgression (Some "u1"%string) 7 3 100 db in
  stored_qualified_level db "u1" p = 5
  /\ profiles db' !! "u1"%string = Some (mkProfile 5 300 18600 8250 25 25 7)
  /\ List.map (fun a => (achievement_type a, title a)) (achievements db')
     = [("level_up", "Level 5 Reached!"); ("milestone", "Reading Star ⭐")]%string.
Proof. vm_compute. repeat split. Qed.

(** C1. In an evaluation of level progression (by either hook) for a user
    with a profile: if the qualified level computed from the stored rows
    exceeds the profile's level, the profile's level becomes the qualified
    level and exactly one achievement of type 'level_up' is appended, its
    title naming the qualified level (any other record appended has another
    type), nothing else changing; if the qualified level does not exceed the
    profile's level, the database is left as it was. *)
Theorem level_evaluation_single_transition
    (u : UserId) (now : Timestamp) (wordsLearned : Z) (sessionAccuracy : Q)
    (db : DB) (profile : Profile) :
  profiles db !! u = Some profile ->
  let q := stored_qualified_level db u profile in
  let after_session :=
    UseLearningSession.checkLevelProgression (Some u) now wordsLearned sessionAccuracy db in
  let after_view := UseLevelProgression.checkLevelProgression (Some u) now db in
  (level profile < q ->
     level_up_transition u now profile q db after_session
     /\ level_up_transition u now profile q db after_view.1)
  /\ (q <= level profile -> after_session = db /\ after_view.1 = db).
Proof.
  intros Hp q after_session after_view. split.
  - intros Hlt. split.
    + now apply LevelUpFacts.session_level_up.
    + now apply LevelUpFacts.progression_level_up.
  - intros Hle. split.
    + now apply (LevelUpFacts.session_no_level_up u now wordsLearned sessionAccuracy
                   db profile).
    + subst after_view. now rewrite (LevelUpFacts.progression_no_level_up _ _ _ _ Hp Hle).
Qed.

Lemma level_evaluation_single_transition_witness :
  let p := mkProfile 2 300 18600 8250 25 25 0 in
  let db := example_db "u1" p 260 in
  profiles db !! "u1"%string = Some p
  /\ level p < stored_qualified_level db "u1" p
  /\ level_up_transition "u1" 7 p (stored_qualified_level db "u1" p) db
       (UseLearningSession.checkLevelProgression (Some "u1"%string) 7 3 100 db).
Proof.
  intros p db.
  assert (Hp : profiles db !! "u1"%string = Some p) by (vm_compute; reflexivity).
  assert (Hlt : level p < stored_qualified_level db "u1" p) by (vm_compute; reflexivity).
  split; [exact Hp|]. split; [exact Hlt|].
  exact (proj1 (proj1 (level_evaluation_single_transition "u1" 7 3 100 db p Hp) Hlt)).
Defined.

(** ** Word mastery tracker *)

Module WordProgressFacts.

Lemma int4_Some (z x : Z) :
  Pg.int4 z = Some x -> x = z /\ - 2 ^ 31 <= z <= 2 ^ 31 - 1.
Proof.
  unfold Pg.int4, Pg.int4_ok, Pg.int4_min, Pg.int4_max.
  destruct (Z.leb_spec (- 2 ^ 31) z), (Z.leb_spec z (2 ^ 31 - 1)); cbn;
    intros [= <-]; auto.
Qed.

Lemma int4_in_range (z : Z) :
  - 2 ^ 31 <= z <= 2 ^ 31 - 1 -> Pg.int4 z = Some z.
Proof.
  intros Hz. unfold Pg.int4, Pg.int4_ok, Pg.int4_min, Pg.int4_max.
  destruct (Z.leb_spec (- 2 ^ 31) z), (Z.leb_spec z (2 ^ 31 - 1)); try reflexivity; lia.
Qed.

Lemma Qle_bool_eq (a b r : Q) : (a == b)%Q -> Qle_bool a r = Qle_bool b r.
Proof.
  intros Hab. apply eq_true_iff_eq. rewrite !Qle_bool_iff. now rewrite Hab.
Qed.

(** The CASE of the procedure is the tier of the specification. *)
Lemma mastery_case_spec (correct' practiced' : Z) :
  practiced' <> 0 ->
  mastery_case correct' practiced' = Some (spec_mastery_tier correct' practiced').
Proof.
  intros Hnz. unfold mastery_case, Pg.float_div, spec_mastery_tier.
  apply Z.eqb_neq in Hnz. rewrite Hnz. cbn [mbind option_bind].
  rewrite (Qle_bool_eq (9 # 10) (90 # 100)), (Qle_bool_eq (7 # 10) (70 # 100)),
    (Qle_bool_eq (5 # 10) (50 # 100)) by reflexivity.
  reflexivity.
Qed.

(** The first request for a (user, word) pair takes the INSERT branch: the
    row is created with the counts of this attempt and tier 0. *)
Lemma first_call_row (db : DB) (now : Timestamp) (u : UserId) (w : string)
    (d : Difficulty) (correct : bool) :
  word_progress db !! (u, w) = None -> is_Some (profiles db !! u) ->
  word_progress (call_update_word_progress db (mkWordCall now u w d correct)) !! (u, w)
  = Some (mkWordProgress d 1 (if correct then 1 else 0) now 0 now).
Proof.
  intros Hnone [p Hp]. unfold call_update_word_progress, update_word_progress. cbn.
  rewrite Hnone, Hp. cbn. apply lookup_insert_eq.
Qed.

(** A later request takes the DO UPDATE branch: both counts advance and the
    stored tier is the one derived from the advanced counts. *)
Lemma later_call_row (db : DB) (now : Timestamp) (u : UserId) (w : string)
    (d : Difficulty) (correct : bool) (r : WordProgress) :
  word_progress db !! (u, w) = Some r ->
  0 <= times_practiced r < 2 ^ 31 - 1 ->
  - 2 ^ 31 <= times_correct r < 2 ^ 31 - 1 ->
  let practiced' := times_practiced r + 1 in
  let correct' := times_correct r + (if correct then 1 else 0) in
  word_progress (call_update_word_progress db (mkWordCall now u w d correct)) !! (u, w)
  = Some (mkWordProgress (difficulty r) practiced' correct' now
            (spec_mastery_tier correct' practiced') now).
Proof.
  intros Hr Hp Hc practiced' correct'.
  unfold call_update_word_progress, update_word_progress. cbn.
  rewrite Hr. unfold Pg.int4_add.
  rewrite (int4_in_range (times_practiced r + 1)) by lia. cbn.
  fold correct'. rewrite (int4_in_range correct') by (subst correct'; destruct correct; lia).
  cbn. fold practiced'. rewrite mastery_case_spec by (subst practiced'; lia).
  cbn. apply lookup_insert_eq.
Qed.

(** A request touches the row of its own (user, word) pair only. *)
Lemma call_other_row (db : DB) (c : WordCall) (k : UserId * string) :
  (wc_user c, wc_word c) <> k ->
  word_progress (call_update_word_progress db c) !! k = word_progress db !! k.
Proof.
  intros Hne. unfold call_update_word_progress, update_word_progress.
  destruct (word_progress db !! (wc_user c, wc_word c)) as [r|].
  - destruct (Pg.int4_add (times_practiced r) 1) as [p'|]; cbn; [|reflexivity].
    destruct (Pg.int4_add (times_correct r) _) as [c'|]; cbn; [|reflexivity].
    destruct (mastery_case c' p') as [m|]; cbn; [|reflexivity].
    now rewrite lookup_insert_ne.
  - destruct (profiles db !! wc_user c); cbn; [|reflexivity].
    now rewrite lookup_insert_ne.
Qed.

Lemma call_profiles (db : DB) (c : WordCall) :
  profiles (call_update_word_progress db c) = profiles db.
Proof.
  unfold call_update_word_progress, update_word_progress.
  destruct (word_progress db !! (wc_user c, wc_word c)) as [r|].
  - destruct (Pg.int4_add (times_practiced r) 1) as [p'|]; cbn; [|reflexivity].
    destruct (Pg.int4_add (times_correct r) _) as [c'|]; cbn; [|reflexivity].
    destruct (mastery_case c' p') as [m|]; reflexivity.
  - destruct (profiles db !! wc_user c); reflexivity.
Qed.

(** The row of the pair after a request on that pair: created, advanced by
    one attempt, or (when the statement fails) left as it was. *)
Lemma call_same_row (db : DB) (c : WordCall) (r' : WordProgress) :
  word_progress (call_update_word_progress db c) !! (wc_user c, wc_word c) = Some r' ->
  (word_progress db !! (wc_user c, wc_word c) = None
   /\ times_practiced r' = 1
   /\ times_correct r' = (if wc_correct c then 1 else 0))
  \/ (exists r, word_progress db !! (wc_user c, wc_word c) = Some r
      /\ ((times_practiced r' = times_practiced r + 1
           /\ times_correct r' = times_correct r + (if wc_correct c then 1 else 0))
          \/ r' = r)).
Proof.
  unfold call_update_word_progress, update_word_progress.
  destruct (word_progress db !! (wc_user c, wc_word c)) as [r|] eqn:Hr.
  - intros H. right. exists r. split; [reflexivity|]. revert H.
    destruct (Pg.int4_add (times_practiced r) 1) as [p'|] eqn:Ep; cbn;
      [|rewrite Hr; intros [= <-]; now right].
    destruct (Pg.int4_add (times_correct r) _) as [c'|] eqn:Ec; cbn;
      [|rewrite Hr; intros [= <-]; now right].
    destruct (mastery_case c' p') as [m|]; cbn;
      [|rewrite Hr; intros [= <-]; now right].
    rewrite lookup_insert_eq. intros [= <-]. cbn.
    apply int4_Some in Ep, Ec. left. lia.
  - intros H. left. split; [reflexivity|]. revert H.
    destruct (profiles db !! wc_user c); cbn; [|rewrite Hr; discriminate].
    rewrite lookup_insert_eq. intros [= <-]. cbn. auto.
Qed.

(** One request keeps [times_correct <= times_practiced] on a pair's row. *)
Lemma call_keeps_order (db : DB) (c : WordCall) (k : UserId * string) :
  (forall r, word_progress db !! k = Some r -> times_correct r <= times_practiced r) ->
  forall r', word_progress (call_update_word_progress db c) !! k = Some r' ->
             times_correct r' <= times_practiced r'.
Proof.
  intros Hinv r' Hr'.
  destruct (decide ((wc_user c, wc_word c) = k)) as [<-|Hne].
  - destruct (call_same_row db c r' Hr') as [(_ & Hp & Hc)|(r & Hr & [[Hp Hc]| ->])].
    + rewrite Hp, Hc. destruct (wc_correct c); lia.
    + specialize (Hinv r Hr). rewrite Hp, Hc. destruct (wc_correct c); lia.
    + now apply Hinv.
  - rewrite call_other_row in Hr' by exact Hne. now apply Hinv.
Qed.

Lemma run_keeps_order (calls : list WordCall) : forall (db : DB) (k : UserId * string),
  (forall r, word_progress db !! k = Some r -> times_correct r <= times_practiced r) ->
  forall r', word_progress (run_word_calls db calls) !! k = Some r' ->
             times_correct r' <= times_practiced r'.
Proof.
  induction calls as [|c calls IH]; intros db k Hinv r' Hr'; cbn in Hr'.
  - now apply Hinv.
  - apply (IH (call_update_word_progress db c) k); [|exact Hr'].
    now apply call_keeps_order.
Qed.

(** [n] requests for one pair of a user with a profile, starting from no
    row, leave a row with [times_practiced = n]: the requests do create
    and advance the row. *)
Lemma run_counts (calls : list WordCall) (u : UserId) (w : string) :
  Forall (fun c => wc_user c = u /\ wc_word c = w) calls ->
  forall db r,
    is_Some (profiles db !! u) ->
    word_progress db !! (u, w) = Some r ->
    0 <= times_correct r <= times_practiced r ->
    times_practiced r + Z.of_nat (length calls) < 2 ^ 31 ->
    exists r', word_progress (run_word_calls db calls) !! (u, w) = Some r'
               /\ times_practiced r' = times_practiced r + Z.of_nat (length calls)
               /\ 0 <= times_correct r' <= times_practiced r'.
Proof.
  induction 1 as [|c calls [Hu Hw] _ IH]; intros db r Hprof Hr Hord Hlen.
  - exists r. cbn. repeat split; try lia. exact Hr.
  - cbn [run_word_calls fold_left length] in *.
    pose proof (later_call_row db (wc_now c) u w (wc_difficulty c) (wc_correct c) r Hr)
      as Hstep.
    cbn zeta in Hstep. destruct c as [n0 u0 w0 d0 c0]. cbn in Hu, Hw, Hstep. subst u0 w0.
    fold (run_word_calls (call_update_word_progress db (mkWordCall n0 u w d0 c0)) calls).
    destruct (IH (call_update_word_progress db (mkWordCall n0 u w d0 c0))
                (mkWordProgress (difficulty r) (times_practiced r + 1)
                   (times_correct r + (if c0 then 1 else 0)) n0
                   (spec_mastery_tier (times_correct r + (if c0 then 1 else 0))
                      (times_practiced r + 1)) n0))
      as (r' & Hr' & Hp' & Ho').
    + now rewrite call_profiles.
    + apply Hstep; lia.
    + cbn. destruct c0; lia.
    + cbn. lia.
    + exists r'. cbn in Hp'. repeat split; try lia. exact Hr'.
Qed.

End WordProgressFacts.

(** The tiers of the specification at the counts it quotes. *)
Example spec_mastery_tier_examples :
  spec_mastery_tier 5 5 = 100 /\ spec_mastery_tier 2 3 = 50
  /\ spec_mastery_tier 1 1 = 50 /\ spec_mastery_tier 0 1 = 25.
Proof. repeat split. Qed.

(** From the second attempt on, the stored tier follows the counts: five
    correct attempts in a row end at tier 100, passing through 0 (first
    attempt), 50, 75, 75. *)
Example five_correct_attempts :
  let db := example_db "u1" (mkProfile 1 0 0 0 0 0 0) 0 in
  let c := mkWordCall 7 "u1" "cat" easy true in
  List.map (fun n => mastery_level <$> word_progress (run_word_calls db (repeat c n))
                       !! ("u1", "cat")%string)
    [1; 2; 3; 4; 5]%nat
  = [Some 0; Some 50; Some 75; Some 75; Some 100].
Proof. vm_compute. reflexivity. Qed.

(** C3 (the code departs from it).  The first correct attempt on a word, as
    [addWordToSession] reports it: the row is created with
    [times_practiced = 1], [times_correct = 1] and the column default
    [mastery_level = 0], where the tier derived from the counts is 50. *)
Theorem first_attempt_stores_tier_0 :
  let db := example_db "u1" (mkProfile 1 0 0 0 0 0 0) 0 in
  let db' := UseLearningSession.updateWordProgress (Some "u1"%string) 7 "Cat" easy true db in
  word_progress db !! ("u1", "cat")%string = None
  /\ word_progress db' !! ("u1", "cat")%string = Some (mkWordProgress easy 1 1 7 0 7)
  /\ spec_mastery_tier 1 1 = 50.
Proof. vm_compute. repeat split. Qed.

(** C7. Starting from a database with no row for (user, word), after each
    request of any finite sequence of [update_word_progress] requests (that
    is, after every prefix of the sequence) the row of the pair, once it
    exists, has [times_correct <= times_practiced]. *)
Theorem times_correct_le_times_practiced
    (db : DB) (u : UserId) (w : string) (calls : list WordCall) :
  word_progress db !! (u, w) = None ->
  forall (n : nat) (r : WordProgress),
    word_progress (run_word_calls db (take n calls)) !! (u, w) = Some r ->
    times_correct r <= times_practiced r.
Proof.
  intros Hnone n r Hr.
  apply (WordProgressFacts.run_keeps_order (take n calls) db (u, w)); [|exact Hr].
  intros r0 Hr0. rewrite Hnone in Hr0. discriminate Hr0.
Qed.

Lemma times_correct_le_times_practiced_witness :
  let db := example_db "u1" (mkProfile 1 0 0 0 0 0 0) 0 in
  let calls := [mkWordCall 7 "u1" "cat" easy true; mkWordCall 8 "u1" "cat" easy false;
                mkWordCall 9 "u1" "dog" hard true; mkWordCall 10 "u1" "cat" easy true]%string in
  word_progress db !! ("u1", "cat")%string = None
  /\ exists r, word_progress (run_word_calls db (take 4 calls)) !! ("u1", "cat")%string = Some r
       /\ times_practiced r = 3 /\ times_correct r = 2
       /\ times_correct r <= times_practiced r.
Proof.
  intros db calls.
  assert (Hnone : word_progress db !! ("u1", "cat")%string = None) by reflexivity.
  split; [exact Hnone|].
  exists (mkWordProgress easy 3 2 10 50 10).
  assert (Hr : word_progress (run_word_calls db (take 4 calls)) !! ("u1", "cat")%string
               = Some (mkWordProgress easy 3 2 10 50 10)) by (vm_compute; reflexivity).
  split; [exact Hr|]. split; [reflexivity|]. split; [reflexivity|].
  exact (times_correct_le_times_practiced db "u1" "cat" calls Hnone 4 _ Hr).
Defined.

(** ** Aggregate stats updater *)

Module StatsFacts.

(** Rounding half away from zero: integers are fixed, and the result is
    within one half of the argument. *)
Lemma round_half_away_Z (z : Z) : Pg.round_half_away (inject_Z z) = z.
Proof.
  unfold Pg.round_half_away.
  destruct (Qle_bool 0 (inject_Z z)).
  - apply Z.le_antisymm.
    + apply Z.lt_succ_r. rewrite Zlt_Qlt.
      eapply Qle_lt_trans; [apply Qfloor_le|].
      unfold Z.succ. rewrite inject_Z_plus. change (inject_Z 1) with 1%Q. lra.
    + rewrite <- (Qfloor_Z z) at 1. apply Qfloor_resp_le. lra.
  - apply Z.le_antisymm.
    + rewrite <- (Qceiling_Z z) at 2. apply Qceiling_resp_le. lra.
    + apply Z.lt_pred_le. rewrite Zlt_Qlt.
      eapply Qlt_le_trans; [|apply Qle_ceiling].
      unfold Z.pred. rewrite inject_Z_plus. change (inject_Z (-1)) with (-1)%Q. lra.
Qed.

Lemma round_half_away_close (q : Q) :
  (q - (1 # 2) <= inject_Z (Pg.round_half_away q) <= q + (1 # 2))%Q.
Proof.
  unfold Pg.round_half_away. destruct (Qle_bool 0 q).
  - pose proof (Qfloor_le (q + (1 # 2))) as H1.
    pose proof (Qlt_floor (q + (1 # 2))) as H2.
    rewrite inject_Z_plus in H2. change (inject_Z 1) with 1%Q in H2. lra.
  - pose proof (Qle_ceiling (q - (1 # 2))) as H1.
    pose proof (Qceiling_lt (q - (1 # 2))) as H2.
    unfold Z.sub in H2. rewrite inject_Z_plus, inject_Z_opp in H2.
    change (inject_Z 1) with 1%Q in H2. lra.
Qed.


Lemma update_user_stats_accepted (db : DB) (now : Timestamp) (u : UserId)
    (wordsLearned practiceTime : Z) (sessionAccuracy : Q) (p : Profile) :
  profiles db !! u = Some p ->
  stats_accepted p wordsLearned practiceTime sessionAccuracy = true ->
  update_user_stats db now u wordsLearned practiceTime sessionAccuracy
  = Some (set_profiles db
            (<[u := mkProfile (level p) (total_words_learned p + wordsLearned)
                      (total_practice_time p + practiceTime)
                      (Pg.round_half_away (mean_rate p sessionAccuracy * 100))
                      (current_streak p) (longest_streak p) now]> (profiles db))).
Proof.
  intros Hp Hacc. unfold stats_accepted in Hacc.
  rewrite !andb_true_iff in Hacc. destruct Hacc as ((((Hw & Ht) & Hws) & Hts) & Hr).
  unfold update_user_stats, Pg.int4_add, Pg.int4, Pg.numeric_5_2.
  rewrite Hw, Ht, Hp. cbn. rewrite Hws, Hts. cbn.
  fold (mean_rate p sessionAccuracy). rewrite Hr. reflexivity.
Qed.

Lemma update_user_stats_rejected (db : DB) (now : Timestamp) (u : UserId)
    (wordsLearned practiceTime : Z) (sessionAccuracy : Q) (p : Profile) :
  profiles db !! u = Some p ->
  stats_accepted p wordsLearned practiceTime sessionAccuracy = false ->
  update_user_stats db now u wordsLearned practiceTime sessionAccuracy = None.
Proof.
  intros Hp Hacc. unfold stats_accepted in Hacc.
  unfold update_user_stats, Pg.int4_add, Pg.int4, Pg.numeric_5_2.
  fold (mean_rate p sessionAccuracy).
  destruct (Pg.int4_ok wordsLearned); [|reflexivity].
  destruct (Pg.int4_ok practiceTime); [|reflexivity]. cbn. rewrite Hp.
  destruct (Pg.int4_ok (total_words_learned p + wordsLearned)); [|reflexivity].
  destruct (Pg.int4_ok (total_practice_time p + practiceTime)); [|reflexivity].
  cbn in Hacc. unfold mean_rate in Hacc. cbn. rewrite Hacc. reflexivity.
Qed.

End StatsFacts.


(** The rate 56.25 arises from a new profile after sessions of 50, 100 and
    50 per cent; a fourth session of 100 per cent then stores 78.13. *)
Example accuracy_rate_after_four_sessions :
  let db := example_db "u1" (mkProfile 1 0 0 0 0 0 0) 0 in
  let step db acc := UseLearningSession.updateUserStats (Some "u1"%string) 7 2 60 acc db in
  List.map (fun accs => accuracy_rate <$> profiles (fold_left step accs db) !! "u1"%string)
    [[50%Q]; [50; 100]%Q; [50; 100; 50]%Q; [50; 100; 50; 100]%Q]
  = [Some 2500; Some 6250; Some 5625; Some 7813].
Proof. vm_compute. reflexivity. Qed.

(** A session accuracy far outside 0-100 makes the statement fail: nothing
    is added to the totals either. *)
Example update_user_stats_overflow :
  let p := mkProfile 1 12 600 5625 0 0 0 in
  let db := example_db "u1" p 0 in
  update_user_stats db 7 "u1" 3 60 5000 = None
  /\ UseLearningSession.updateUserStats (Some "u1"%string) 7 3 60 5000 db = db.
Proof. split; vm_compute; reflexivity. Qed.



(** ** Session recorder *)

Module Binary64Facts.
Import Binary64.

Lemma nearest_even_error (n d : Z) :
  0 < d -> 2 * Z.abs (nearest_even n d * d - n) <= d.
Proof.
  intros Hd. unfold nearest_even.
  pose proof (Z.div_mod n d ltac:(lia)) as Hdm.
  pose proof (Z.mod_pos_bound n d Hd) as Hr.
  destruct (Z.compare_spec (2 * (n mod d)) d) as [E|Hlt|Hgt];
    [destruct (Z.even (n / d))|..]; nia.
Qed.

Lemma nearest_even_le (n d N : Z) :
  0 < d -> n <= N * d -> nearest_even n d <= N.
Proof.
  intros Hd Hn. unfold nearest_even.
  pose proof (Z.div_mod n d ltac:(lia)) as Hdm.
  pose proof (Z.mod_pos_bound n d Hd) as Hr.
  assert (Hf : n / d <= N) by (apply Z.div_le_upper_bound; nia).
  assert (Hcase : n / d < N \/ (n / d = N /\ n mod d = 0)) by nia.
  destruct (Z.compare_spec (2 * (n mod d)) d) as [E|Hlt|Hgt];
    [destruct (Z.even (n / d))|..]; lia.
Qed.

Lemma nearest_even_nonneg (n d : Z) : 0 < d -> 0 <= n -> 0 <= nearest_even n d.
Proof.
  intros Hd Hn. unfold nearest_even.
  assert (Hf : 0 <= n / d) by (apply Z.div_pos; lia).
  destruct (2 * (n mod d) ?= d); [destruct (Z.even (n / d))|..]; lia.
Qed.

(** [ilog2 n d] does not exceed the logarithm of the quotient. *)
Lemma ilog2_lower (n d : Z) :
  0 < n -> 0 < d ->
  d * 2 ^ Z.max 0 (ilog2 n d) <= n * 2 ^ Z.max 0 (- ilog2 n d).
Proof.
  intros Hn Hd. unfold ilog2.
  destruct (Z.log2_spec n Hn) as [Hn1 Hn2]. destruct (Z.log2_spec d Hd) as [Hd1 Hd2].
  pose proof (Z.log2_nonneg n) as Ha. pose proof (Z.log2_nonneg d) as Hb.
  set (a := Z.log2 n) in *. set (b := Z.log2 d) in *.
  rewrite Z.pow_succ_r in Hn2, Hd2 by assumption.
  destruct (Z.ltb_spec (n * 2 ^ Z.max 0 (- (a - b))) (d * 2 ^ Z.max 0 (a - b)))
    as [Hlt|Hge]; [|exact Hge].
  destruct (Z_lt_le_dec (a - b - 1) 0) as [Hneg|Hpos].
  - rewrite (Z.max_l 0 (a - b - 1)), (Z.max_r 0 (- (a - b - 1))) by lia.
    replace (- (a - b - 1)) with (b - a + 1) by lia.
    assert (E : 2 ^ a * 2 ^ (b - a + 1) = 2 * 2 ^ b).
    { rewrite <- Z.pow_add_r by lia. replace (a + (b - a + 1)) with (Z.succ b) by lia.
      now rewrite Z.pow_succ_r. }
    assert (Hp : 0 < 2 ^ (b - a + 1)) by (apply Z.pow_pos_nonneg; lia).
    change (2 ^ 0) with 1. nia.
  - rewrite (Z.max_r 0 (a - b - 1)), (Z.max_l 0 (- (a - b - 1))) by lia.
    assert (E : 2 * 2 ^ b * 2 ^ (a - b - 1) = 2 ^ a).
    { rewrite <- Z.pow_succ_r, <- Z.pow_add_r by lia. f_equal. lia. }
    assert (Hp : 0 < 2 ^ (a - b - 1)) by (apply Z.pow_pos_nonneg; lia).
    change (2 ^ 0) with 1. nia.
Qed.

(** [ilog2 n d] is the whole part of the logarithm: the quotient is below
    the next power of two. *)
Lemma ilog2_upper (n d : Z) :
  0 < n -> 0 < d ->
  n * 2 ^ Z.max 0 (- (ilog2 n d + 1)) < d * 2 ^ Z.max 0 (ilog2 n d + 1).
Proof.
  intros Hn Hd. unfold ilog2.
  destruct (Z.log2_spec n Hn) as [Hn1 Hn2]. destruct (Z.log2_spec d Hd) as [Hd1 Hd2].
  pose proof (Z.log2_nonneg n) as Ha. pose proof (Z.log2_nonneg d) as Hb.
  set (a := Z.log2 n) in *. set (b := Z.log2 d) in *.
  rewrite Z.pow_succ_r in Hn2, Hd2 by assumption.
  destruct (Z.ltb_spec (n * 2 ^ Z.max 0 (- (a - b))) (d * 2 ^ Z.max 0 (a - b)))
    as [Hlt|Hge].
  - replace (a - b - 1 + 1) with (a - b) by lia. exact Hlt.
  - destruct (Z_lt_le_dec (a - b + 1) 0) as [Hneg|Hpos].
    + rewrite (Z.max_l 0 (a - b + 1)), (Z.max_r 0 (- (a - b + 1))) by lia.
      replace (- (a - b + 1)) with (b - a - 1) by lia.
      assert (E : 2 * 2 ^ a * 2 ^ (b - a - 1) = 2 ^ b).
      { rewrite <- Z.pow_succ_r, <- Z.pow_add_r by lia. f_equal. lia. }
      assert (Hp : 0 < 2 ^ (b - a - 1)) by (apply Z.pow_pos_nonneg; lia).
      change (2 ^ 0) with 1. nia.
    + rewrite (Z.max_r 0 (a - b + 1)), (Z.max_l 0 (- (a - b + 1))) by lia.
      assert (E : 2 ^ b * 2 ^ (a - b + 1) = 2 * 2 ^ a).
      { rewrite <- Z.pow_add_r by lia. replace (b + (a - b + 1)) with (Z.succ a) by lia.
        now rewrite Z.pow_succ_r. }
      assert (Hp : 0 < 2 ^ (a - b + 1)) by (apply Z.pow_pos_nonneg; lia).
      change (2 ^ 0) with 1. nia.
Qed.

Lemma ilog2_le (n d j : Z) :
  0 < n -> 0 < d -> 0 <= j -> n <= d * 2 ^ j -> ilog2 n d <= j.
Proof.
  intros Hn Hd Hj Hle. pose proof (ilog2_lower n d Hn Hd) as Hl.
  destruct (Z_le_gt_dec (ilog2 n d) j) as [|Hgt]; [assumption|exfalso].
  rewrite (Z.max_r 0 (ilog2 n d)), (Z.max_l 0 (- ilog2 n d)) in Hl by lia.
  change (2 ^ 0) with 1 in Hl.
  assert (Hp : 2 * 2 ^ j <= 2 ^ ilog2 n d).
  { rewrite <- Z.pow_succ_r by assumption. apply Z.pow_le_mono_r; lia. }
  assert (Hq : 0 < 2 ^ j) by (apply Z.pow_pos_nonneg; lia).
  nia.
Qed.


Lemma round_proper (q q' : Q) : (q == q')%Q -> round q = round q'.
Proof. intros E. unfold round. now rewrite (Qred_complete q q' E). Qed.

Lemma round_zero (q : Q) : (q == 0)%Q -> round q = Js.Num 0.
Proof. intros E. now rewrite (round_proper q 0 E). Qed.

(** A positive number that does not exceed the whole number [B <= 2 ^ j] is
    rounded to a number that does not exceed [B] either, at a distance of
    at most [2 ^ (j - 53)]. *)
Lemma round_small (q : Q) (B j : Z) :
  (0 < q)%Q -> (q <= inject_Z B)%Q -> B <= 2 ^ j -> 0 <= j <= 51 ->
  exists r : Q,
    round q = Js.Num r
    /\ (0 <= r <= inject_Z B)%Q
    /\ (- (1 # Z.to_pos (2 ^ (53 - j))) <= r - q <= 1 # Z.to_pos (2 ^ (53 - j)))%Q.
Proof.
  intros Hpos HB Hj Hj51.
  assert (Eq : (Qred q == q)%Q) by apply Qred_correct.
  unfold round. destruct (Qred q) as [n D] eqn:Eqr. cbn [Qnum Qden].
  assert (Hn : 0 < n).
  { rewrite <- Eq in Hpos. unfold Qlt in Hpos. cbn in Hpos. lia. }
  destruct n as [|p|p]; try lia.
  assert (HnB : Z.pos p <= B * Z.pos D).
  { rewrite <- Eq in HB. unfold Qle in HB. cbn in HB. lia. }
  assert (Hp2 : 0 < 2 ^ j) by (apply Z.pow_pos_nonneg; lia).
  assert (Hk : ilog2 (Z.pos p) (Z.pos D) <= j) by (apply ilog2_le; nia).
  unfold round_pos.
  set (e := Z.max (ilog2 (Z.pos p) (Z.pos D) - 52) (- 1074)).
  assert (He : e <= j - 52) by (subst e; lia).
  assert (He' : - 1074 <= e) by (subst e; lia).
  destruct (Z.leb_spec 0 e) as [|_]; [lia|]. cbn [andb].
  set (s := - e). assert (Hs : 53 - j <= s + 1) by (subst s; lia).
  set (m := nearest_even (Z.pos p * 2 ^ s) (Z.pos D)).
  assert (HS : 0 < 2 ^ s) by (apply Z.pow_pos_nonneg; lia).
  assert (Hm0 : 0 <= m) by (apply nearest_even_nonneg; nia).
  assert (HmB : m <= B * 2 ^ s) by (apply nearest_even_le; nia).
  pose proof (nearest_even_error (Z.pos p * 2 ^ s) (Z.pos D) ltac:(lia)) as Herr.
  fold m in Herr.
  assert (HE : 2 ^ (53 - j) <= 2 * 2 ^ s).
  { rewrite <- Z.pow_succ_r by lia. apply Z.pow_le_mono_r; lia. }
  assert (HE0 : 0 < 2 ^ (53 - j)) by (apply Z.pow_pos_nonneg; lia).
  eexists. split; [reflexivity|].
  assert (Er : (Qred (inject_Z m * pow2 e) == m # Z.to_pos (2 ^ s))%Q).
  { rewrite Qred_correct. unfold pow2. destruct (Z.leb_spec 0 e) as [|_]; [lia|].
    fold s. unfold Qeq, Qmult, inject_Z. cbn. lia. }
  rewrite Er, <- Eq.
  unfold Qle, Qminus, Qplus, Qopp, inject_Z. cbn [Qnum Qden].
  rewrite ?Pos2Z.inj_mul, ?Z2Pos.id by lia.
  repeat split; try nia.
Qed.

End Binary64Facts.

(** Some roundings: 0.1, 1/3, a percentage, the smallest numbers, the
    largest ones, and ties above [2 ^ 53]. *)
Example binary64_examples :
  Binary64.round (1 # 10) = Js.Num (3602879701896397 # 36028797018963968)
  /\ Binary64.div (Js.of_Z 1) (Js.of_Z 3) = Js.Num (6004799503160661 # 18014398509481984)
  /\ Binary64.mul (Binary64.div (Js.of_Z 29) (Js.of_Z 50)) (Js.of_Z 100)
     = Js.Num (8162774324609023 # 140737488355328)
  /\ Binary64.round (3 # Z.to_pos (2 ^ 1075)) = Js.Num (1 # Z.to_pos (2 ^ 1073))
  /\ Binary64.round (1 # Z.to_pos (2 ^ 1075)) = Js.Num 0
  /\ Binary64.round (inject_Z (2 ^ 1024 - 2 ^ 970 - 1)) = Js.Num (inject_Z (2 ^ 1024 - 2 ^ 971))
  /\ Binary64.round (inject_Z (2 ^ 1024 - 2 ^ 970)) = Js.Infinity false
  /\ Binary64.round (inject_Z (2 ^ 53 + 1)) = Js.Num (inject_Z (2 ^ 53))
  /\ Binary64.round (inject_Z (2 ^ 53 + 3)) = Js.Num (inject_Z (2 ^ 53 + 4)).
Proof. vm_compute. repeat split; reflexivity. Qed.

Module SessionFacts.
Module S := UseLearningSession.

Lemma add_attempts_snoc (user : option UserId) (now : Timestamp)
    (start : S.Session * DB) (attempts : list Attempt) (a : Attempt) :
  add_attempts user now start (attempts ++ [a])
  = S.addWordToSession user now (add_attempts user now start attempts).1
      (at_word a) (at_correct a) (at_difficulty a)
      (add_attempts user now start attempts).2.
Proof. unfold add_attempts. now rewrite fold_left_app. Qed.

(** What the accumulator of a session holds after a sequence of attempts. *)
Lemma session_counts (user : option UserId) (now : Timestamp) (ty : SessionType)
    (db : DB) (attempts : list Attempt) :
  let session := (session_of user now ty db attempts).1 in
  S.wordsPracticed session = List.map at_word attempts
  /\ S.totalAttempts session = Z.of_nat (length attempts)
  /\ S.correctPronunciations session
     = Z.of_nat (length (List.filter at_correct attempts))
  /\ S.sessionType session = ty /\ S.startTime session = now.
Proof.
  induction attempts as [|a attempts IH] using rev_ind.
  - cbn. auto.
  - unfold session_of in *. rewrite add_attempts_snoc. cbn zeta in *.
    destruct IH as (Hw & Ht & Hc & Hty & Hst).
    unfold S.addWordToSession. cbn [fst snd S.wordsPracticed S.totalAttempts
      S.correctPronunciations S.sessionType S.startTime].
    rewrite Hw, Ht, Hc, Hty, Hst, map_app, List.filter_app, !length_app. cbn [map List.filter length].
    repeat split; try lia.
    destruct (at_correct a); cbn [length]; lia.
Qed.

Lemma filter_length_le {A : Type} (f : A -> bool) (l : list A) :
  (length (List.filter f l) <= length l)%nat.
Proof.
  induction l as [|x l IH]; cbn; [lia|]. destruct (f x); cbn; lia.
Qed.

(** Without attempts the guarded expression is the number 0. *)
Lemma accuracyRate_zero (session : S.Session) :
  S.totalAttempts session <= 0 -> S.accuracyRate session = Js.Num 0.
Proof.
  intros Hle. unfold S.accuracyRate. apply Z.ltb_ge in Hle. now rewrite Hle.
Qed.

(** With a positive attempt count it is the rounded quotient times 100,
    rounded. *)
Lemma accuracyRate_positive (session : S.Session) :
  0 < S.totalAttempts session ->
  S.accuracyRate session
  = Binary64.mul (Binary64.div (Js.of_Z (S.correctPronunciations session))
                    (Js.of_Z (S.totalAttempts session)))
      (Js.of_Z 100).
Proof.
  intros Hpos. unfold S.accuracyRate. apply Z.ltb_lt in Hpos. now rewrite Hpos.
Qed.

Lemma exact_quotient_bounds (c t : Z) :
  0 <= c <= t -> 0 < t -> (0 <= inject_Z c / inject_Z t <= 1)%Q.
Proof.
  intros Hc Ht.
  assert (Ht' : (inject_Z 0 < inject_Z t)%Q) by (rewrite <- Zlt_Qlt; lia).
  assert (Hc0 : (inject_Z 0 <= inject_Z c)%Q) by (rewrite <- Zle_Qle; lia).
  change (inject_Z 0) with 0%Q in Ht', Hc0.
  assert (Hct : (inject_Z c <= inject_Z t)%Q) by (rewrite <- Zle_Qle; lia).
  split.
  - apply Qle_shift_div_l; [exact Ht'|]. lra.
  - apply Qle_shift_div_r; [exact Ht'|]. lra.
Qed.

(** The quotient of a count by a larger count, as a binary64 number. *)
Lemma quotient_rounded (c t : Z) :
  0 <= c <= t -> 0 < t ->
  exists r : Q,
    Binary64.div (Js.of_Z c) (Js.of_Z t) = Js.Num r
    /\ (0 <= r <= 1)%Q
    /\ (- (1 # 9007199254740992) <= r - inject_Z c / inject_Z t
        <= 1 # 9007199254740992)%Q.
Proof.
  intros Hc Ht. destruct (exact_quotient_bounds c t Hc Ht) as [H0 H1].
  unfold Binary64.div, Js.div, Js.of_Z, Js.is_zero. cbn [Qnum inject_Z].
  destruct (Z.eqb_spec t 0) as [|_]; [lia|]. cbn [Binary64.of_exact].
  destruct (Qlt_le_dec 0 (inject_Z c / inject_Z t)) as [Hpos|Hz].
  - destruct (Binary64Facts.round_small (inject_Z c / inject_Z t) 1 0 Hpos)
      as (r & E & Hr & Herr); [exact H1|reflexivity|lia|].
    exists r. split; [exact E|]. split; [exact Hr|exact Herr].
  - assert (E0 : (inject_Z c / inject_Z t == 0)%Q) by lra.
    exists 0%Q. split; [apply Binary64Facts.round_zero, E0|].
    split; [lra|]. rewrite E0. lra.
Qed.

(** The percentage [(c / t) * 100] as the recorder computes it: between 0
    and 100, and within [2 ^ -45] of the exact percentage. *)
Lemma percentage_rounded (c t : Z) :
  0 <= c <= t -> 0 < t ->
  exists a : Q,
    Binary64.mul (Binary64.div (Js.of_Z c) (Js.of_Z t)) (Js.of_Z 100) = Js.Num a
    /\ (0 <= a <= 100)%Q
    /\ (- (1 # 35184372088832) <= a - inject_Z c / inject_Z t * 100
        <= 1 # 35184372088832)%Q.
Proof.
  intros Hc Ht. destruct (quotient_rounded c t Hc Ht) as (r & -> & Hr & Herr).
  set (x := (inject_Z c / inject_Z t)%Q) in *.
  unfold Binary64.mul, Js.mul, Js.of_Z. cbn [Binary64.of_exact].
  change (inject_Z 100) with 100%Q.
  destruct (Qlt_le_dec 0 (r * 100)) as [Hpos|Hz].
  - destruct (Binary64Facts.round_small (r * 100) 100 7 Hpos)
      as (a & E & Ha & Haerr);
      [change (inject_Z 100) with 100%Q; lra|change (2 ^ 7) with 128; lia|lia|].
    change (inject_Z 100) with 100%Q in Ha.
    change (1 # Z.to_pos (2 ^ (53 - 7)))%Q with (1 # 70368744177664)%Q in Haerr.
    exists a. split; [exact E|]. split; [exact Ha|]. lra.
  - assert (E0 : (r * 100 == 0)%Q) by lra.
    exists 0%Q. split; [apply Binary64Facts.round_zero, E0|]. split; lra.
Qed.

(** All attempts correct: exactly 100. *)
Lemma percentage_full (t : Z) :
  0 < t ->
  Binary64.mul (Binary64.div (Js.of_Z t) (Js.of_Z t)) (Js.of_Z 100) = Js.Num 100.
Proof.
  intros Ht. unfold Binary64.div, Js.div, Js.of_Z, Js.is_zero. cbn [Qnum inject_Z].
  destruct (Z.eqb_spec t 0) as [|_]; [lia|]. cbn [Binary64.of_exact].
  assert (E1 : (inject_Z t / inject_Z t == 1)%Q).
  { field. intros E0. unfold Qeq in E0. cbn in E0. lia. }
  rewrite (Binary64Facts.round_proper _ _ E1).
  vm_compute. reflexivity.
Qed.



End SessionFacts.

(** The division the guard protects: with no attempts it would be NaN. *)
Example unguarded_division_is_NaN :
  Binary64.mul (Binary64.div (Js.of_Z 0) (Js.of_Z 0)) (Js.of_Z 100) = Js.NaN.
Proof. reflexivity. Qed.

(** Ending a session with no attempts stores a record with accuracy 0. *)
Example endSession_without_attempts :
  let db := example_db "u1" (mkProfile 1 0 0 0 0 0 0) 0 in
  let session := UseLearningSession.startSession 1000 practice in
  (UseLearningSession.endSession (Some "u1"%string) (Some (mkAppSettings 10)) 61000
     "2025-06-28" session db).1
  = UseLearningSession.Stored (mkLearningSession "u1" practice [] 0 0 60 0 61000).
Proof. vm_compute. reflexivity. Qed.

(** The session of the specification's scenario: cat, cat, dog with two
    correct gives 66.66666666666667 (the binary64 number next to 200/3),
    stored as 66.67. *)
Example endSession_two_of_three :
  let db := example_db "u1" (mkProfile 1 0 0 0 0 0 0) 0 in
  let sd := session_of (Some "u1"%string) 1000 practice db
              [mkAttempt "cat" true easy; mkAttempt "cat" false easy;
               mkAttempt "dog" true easy] in
  UseLearningSession.accuracyRate sd.1 = Js.Num (2345624805922133 # 35184372088832)
  /\ (UseLearningSession.endSession (Some "u1"%string) (Some (mkAppSettings 10)) 61000
        "2025-06-28" sd.1 sd.2).1
     = UseLearningSession.Stored
         (mkLearningSession "u1" practice ["cat"; "cat"; "dog"] 2 3 60 6667 61000).
Proof. vm_compute. split; reflexivity. Qed.



(** C10. For the session built by [startSession] and any finite sequence of
    [addWordToSession] calls: [totalAttempts] is the length of
    [wordsPracticed], [correctPronunciations] lies between 0 and
    [totalAttempts], and the accuracy [endSession] computes is a finite
    number in the closed interval from 0 to 100. *)
Theorem session_accuracy_in_range (user : option UserId) (now : Timestamp)
    (ty : SessionType) (db : DB) (attempts : list Attempt) :
  let session := (session_of user now ty db attempts).1 in
  UseLearningSession.totalAttempts session
  = Z.of_nat (length (UseLearningSession.wordsPracticed session))
  /\ 0 <= UseLearningSession.correctPronunciations session
       <= UseLearningSession.totalAttempts session
  /\ exists a : Q,
       UseLearningSession.accuracyRate session = Js.Num a /\ (0 <= a <= 100)%Q.
Proof.
  intros session.
  destruct (SessionFacts.session_counts user now ty db attempts)
    as (Hw & Ht & Hc & _ & _).
  fold session in Hw, Ht, Hc.
  pose proof (SessionFacts.filter_length_le at_correct attempts) as Hle.
  split; [rewrite Hw, Ht, length_map; reflexivity|].
  split; [lia|].
  destruct (Z.ltb_spec 0 (UseLearningSession.totalAttempts session)) as [Hpos|Hzero].
  - destruct (SessionFacts.percentage_rounded
                (UseLearningSession.correctPronunciations session)
                (UseLearningSession.totalAttempts session)) as (a & Ea & Ha & _);
      [lia|exact Hpos|].
    exists a. split; [|exact Ha].
    now rewrite SessionFacts.accuracyRate_positive.
  - exists 0%Q. split; [|lra].
    now apply SessionFacts.accuracyRate_zero.
Qed.

(** ** Daily goal tracker *)

Module DailyGoalFacts.
Module S := UseLearningSession.

Lemma update_goal_lookup (db : DB) (now : Timestamp) (u : UserId) (g : GoalType)
    (d : Date) (v : Z) (c : bool) (k : UserId * GoalType * Date) :
  daily_goals (or_unchanged db (update_daily_goal db now u g d v c)) !! k
  = if decide (k = (u, g, d))
    then after_update now v c <$> daily_goals db !! (u, g, d)
    else daily_goals db !! k.
Proof.
  unfold update_daily_goal, after_update, Pg.int4.
  destruct (daily_goals db !! (u, g, d)) as [r|] eqn:Hr; cbn.
  - destruct (Pg.int4_ok v); cbn.
    + case_decide as Hk; [subst k; apply lookup_insert_eq|].
      now rewrite lookup_insert_ne.
    + case_decide as Hk; [subst k; exact Hr|reflexivity].
  - case_decide as Hk; [subst k; exact Hr|reflexivity].
Qed.

Lemma update_goal_profiles (db : DB) (now : Timestamp) (u : UserId) (g : GoalType)
    (d : Date) (v : Z) (c : bool) :
  profiles (or_unchanged db (update_daily_goal db now u g d v c)) = profiles db.
Proof.
  unfold update_daily_goal, Pg.int4.
  destruct (daily_goals db !! (u, g, d)); cbn; [|reflexivity].
  destruct (Pg.int4_ok v); reflexivity.
Qed.

(** An accepted update leaves the flag equal to [target <= current]. *)
Lemma after_update_flag (now : Timestamp) (v : Z) (r : DailyGoal) :
  Pg.int4_ok v = true ->
  let r' := after_update now v (target_value r <=? v) r in
  target_value r' = target_value r /\ current_value r' = v /\ flag_matches r'.
Proof.
  intros Hv. unfold after_update, flag_matches. rewrite Hv. cbn. auto.
Qed.

Lemma int4_value (z x : Z) : Pg.int4 z = Some x -> x = z.
Proof. unfold Pg.int4. destruct (Pg.int4_ok z); [|discriminate]. now intros [= <-]. Qed.

(** The rows of the three-row insert, when it succeeds. *)
Lemma insert_goal_rows_three (now : Timestamp) (u : UserId) (d : Date)
    (dg dg' : gmap (UserId * GoalType * Date) DailyGoal)
    (tw vw tt vt ta va : Z) (cw ct ca : bool) :
  insert_goal_rows now u d
    [mkDailyGoalInsert Words tw vw cw; mkDailyGoalInsert Time tt vt ct;
     mkDailyGoalInsert Accuracy ta va ca] dg = Some dg' ->
  dg' !! (u, Words, d) = Some (mkDailyGoal tw vw cw now)
  /\ dg' !! (u, Time, d) = Some (mkDailyGoal tt vt ct now)
  /\ dg' !! (u, Accuracy, d) = Some (mkDailyGoal ta va ca now).
Proof.
  cbn [insert_goal_rows dgi_goal_type dgi_target_value dgi_current_value dgi_completed].
  destruct (dg !! (u, Words, d)); [discriminate|].
  destruct (Pg.int4 tw) as [tw'|] eqn:E1; cbn; [|discriminate].
  destruct (Pg.int4 vw) as [vw'|] eqn:E2; cbn; [|discriminate].
  rewrite lookup_insert_ne by congruence.
  destruct (dg !! (u, Time, d)); [discriminate|].
  destruct (Pg.int4 tt) as [tt'|] eqn:E3; cbn; [|discriminate].
  destruct (Pg.int4 vt) as [vt'|] eqn:E4; cbn; [|discriminate].
  rewrite !lookup_insert_ne by congruence.
  destruct (dg !! (u, Accuracy, d)); [discriminate|].
  destruct (Pg.int4 ta) as [ta'|] eqn:E5; cbn; [|discriminate].
  destruct (Pg.int4 va) as [va'|] eqn:E6; cbn; [|discriminate].
  intros [= <-].
  apply int4_value in E1, E2, E3, E4, E5, E6. subst.
  split; [|split].
  - rewrite lookup_insert_ne by congruence. rewrite lookup_insert_ne by congruence.
    apply lookup_insert_eq.
  - rewrite lookup_insert_ne by congruence. apply lookup_insert_eq.
  - apply lookup_insert_eq.
Qed.

Lemma written_or_left (now : Timestamp) (v : Z) (r : DailyGoal) :
  if Pg.int4_ok v then
    exists r', Some (after_update now v (target_value r <=? v) r) = Some r'
      /\ target_value r' = target_value r /\ current_value r' = v /\ flag_matches r'
  else Some (after_update now v (target_value r <=? v) r) = Some r.
Proof.
  unfold after_update, flag_matches. destruct (Pg.int4_ok v); [|reflexivity].
  eexists. split; [reflexivity|]. cbn. auto.
Qed.

(** A row found after the three-row insert where none was before is the
    row of its type in the insert. *)
Lemma created_row (db : DB) (now : Timestamp) (u : UserId) (d : Date)
    (tw vw tt vt ta va : Z) (cw ct ca : bool) (g : GoalType) (r' : DailyGoal) :
  daily_goals db !! (u, g, d) = None ->
  daily_goals
    (or_unchanged db
       (insert_daily_goals db now u d
          [mkDailyGoalInsert Words tw vw cw; mkDailyGoalInsert Time tt vt ct;
           mkDailyGoalInsert Accuracy ta va ca])) !! (u, g, d) = Some r' ->
  r' = match g with
       | Words => mkDailyGoal tw vw cw now
       | Time => mkDailyGoal tt vt ct now
       | Accuracy => mkDailyGoal ta va ca now
       end.
Proof.
  intros Hnone. unfold insert_daily_goals.
  destruct (profiles db !! u); [|cbn; rewrite Hnone; discriminate].
  match goal with |- context [insert_goal_rows ?n ?x ?y ?rows ?m] =>
    destruct (insert_goal_rows n x y rows m) as [dg'|] eqn:E end;
    [|cbn; rewrite Hnone; discriminate].
  cbn.
  destruct (insert_goal_rows_three _ _ _ _ _ _ _ _ _ _ _ _ _ _ E) as (Hw & Ht & Ha).
  destruct g; [rewrite Hw|rewrite Ht|rewrite Ha]; now intros [= <-].
Qed.

(** With a profile, no row for today and values in range, the three rows
    are created. *)
Lemma rows_created (db : DB) (now : Timestamp) (u : UserId) (d : Date)
    (tw vw tt vt ta va : Z) (cw ct ca : bool) :
  is_Some (profiles db !! u) ->
  (forall g, daily_goals db !! (u, g, d) = None) ->
  Forall (fun z => Pg.int4_ok z = true) [tw; vw; tt; vt; ta; va] ->
  forall g,
    daily_goals
      (or_unchanged db
         (insert_daily_goals db now u d
            [mkDailyGoalInsert Words tw vw cw; mkDailyGoalInsert Time tt vt ct;
             mkDailyGoalInsert Accuracy ta va ca])) !! (u, g, d)
    = Some match g with
           | Words => mkDailyGoal tw vw cw now
           | Time => mkDailyGoal tt vt ct now
           | Accuracy => mkDailyGoal ta va ca now
           end.
Proof.
  intros [p Hp] Hnone Hok g.
  repeat match goal with H : Forall _ (_ :: _) |- _ => inversion H; subst; clear H end.
  unfold insert_daily_goals. rewrite Hp.
  cbn [insert_goal_rows dgi_goal_type dgi_target_value dgi_current_value dgi_completed].
  unfold Pg.int4.
  rewrite (Hnone Words).
  repeat match goal with H : Pg.int4_ok _ = true |- _ => rewrite H; clear H end.
  cbn [mbind option_bind].
  rewrite lookup_insert_ne, (Hnone Time) by congruence. cbn [mbind option_bind].
  rewrite !lookup_insert_ne, (Hnone Accuracy) by congruence. cbn.
  destruct g.
  - rewrite lookup_insert_ne by congruence. rewrite lookup_insert_ne by congruence.
    apply lookup_insert_eq.
  - rewrite lookup_insert_ne by congruence. apply lookup_insert_eq.
  - apply lookup_insert_eq.
Qed.

End DailyGoalFacts.

(** C6. For each goal type, [updateDailyGoals] leaves today's row of the
    signed-in user as follows.  A row that existed is updated with the merged
    value and [completed = (current_value >= target_value)] (the target is
    kept); only an update the database rejects, the merged value not being a
    32-bit integer, leaves the row as it was.  A row found where there was
    none was created by the call, no row of any type existed for today, and
    it holds the default target, the session's contribution and
    [completed = (current_value >= target_value)]. *)
Theorem daily_goal_flag_after_tracker (u : UserId) (settings : option AppSettings)
    (now : Timestamp) (today : Date) (wordsLearned practiceTime : Z) (accuracy : Q)
    (db : DB) (g : GoalType) :
  let db' :=
    UseLearningSession.updateDailyGoals (Some u) settings now today wordsLearned
      practiceTime accuracy db in
  match daily_goals db !! (u, g, today) with
  | Some r =>
      let v := merged_value g wordsLearned practiceTime accuracy r in
      if Pg.int4_ok v then
        exists r', daily_goals db' !! (u, g, today) = Some r'
          /\ target_value r' = target_value r /\ current_value r' = v /\ flag_matches r'
      else daily_goals db' !! (u, g, today) = Some r
  | None =>
      forall r', daily_goals db' !! (u, g, today) = Some r' ->
        (forall g', daily_goals db !! (u, g', today) = None)
        /\ target_value r' = default_target settings g
        /\ current_value r' = initial_value g wordsLearned practiceTime accuracy
        /\ flag_matches r'
  end.
Proof.
  intros db'. subst db'. unfold UseLearningSession.updateDailyGoals. cbv zeta.
  destruct (daily_goals db !! (u, Words, today)) as [rw|] eqn:HW;
  destruct (daily_goals db !! (u, Time, today)) as [rt|] eqn:HT;
  destruct (daily_goals db !! (u, Accuracy, today)) as [ra|] eqn:HA;
  destruct g; rewrite ?HW, ?HT, ?HA; cbv zeta.
  all: try (repeat (rewrite DailyGoalFacts.update_goal_lookup;
                    case_decide; [try congruence|try congruence]);
            rewrite ?HW, ?HT, ?HA; cbn [fmap option_fmap option_map]).
  all: try (cbn [merged_value]; apply DailyGoalFacts.written_or_left).
  all: try (intros r' Hr'; discriminate Hr').
  all: intros r' Hr';
    apply DailyGoalFacts.created_row in Hr'; [|assumption]; subst r';
    (split; [intros []; assumption|]); unfold flag_matches; cbn; auto.
Qed.

(** On a day without rows the tracker creates the three rows; a second
    session the same day updates them. *)
Example daily_goals_two_sessions :
  let db := example_db "u1" (mkProfile 1 0 0 0 0 0 0) 0 in
  let run := UseLearningSession.updateDailyGoals (Some "u1"%string)
               (Some (mkAppSettings 10)) in
  let db1 := run 100 "2025-06-28"%string 4 130 (200 # 3) db in
  let db2 := run 200 "2025-06-28"%string 7 1700 (90 # 1) db1 in
  List.map (fun g => daily_goals db1 !! ("u1", g, "2025-06-28")%string)
    [Words; Time; Accuracy]
  = [Some (mkDailyGoal 10 4 false 100); Some (mkDailyGoal 30 2 false 100);
     Some (mkDailyGoal 80 66 false 100)]
  /\ List.map (fun g => daily_goals db2 !! ("u1", g, "2025-06-28")%string)
       [Words; Time; Accuracy]
     = [Some (mkDailyGoal 10 11 true 200); Some (mkDailyGoal 30 30 true 200);
        Some (mkDailyGoal 80 90 true 200)].
Proof. vm_compute. split; reflexivity. Qed.

(** ** Streak tracker *)

Module StreakFacts.
Module S := UseLearningSession.

(** The sum [updateStreak] compares with the daily word goal: the stored
    value of today's words row plus the words of the session. *)
Lemma updateStreak_effect (u : UserId) (s : AppSettings) (now : Timestamp)
    (today : Date) (wordsLearned : Z) (db : DB) (p : Profile) :
  profiles db !! u = Some p ->
  - 2 ^ 31 <= current_streak p < 2 ^ 31 - 1 ->
  - 2 ^ 31 <= longest_streak p <= 2 ^ 31 - 1 ->
  let stored :=
    match daily_goals db !! (u, Words, today) with
    | Some g => Js.or_default (current_value g) 0
    | None => 0
    end in
  profiles (S.updateStreak (Some u) (Some s) now today wordsLearned db) !! u
  = Some (if Js.or_default (daily_word_goal s) 10 <=? stored + wordsLearned
          then mkProfile (level p) (total_words_learned p) (total_practice_time p)
                 (accuracy_rate p) (current_streak p + 1)
                 (Z.max (current_streak p + 1) (longest_streak p)) now
          else p).
Proof.
  intros Hp Hs Hl stored. unfold S.updateStreak. fold stored.
  destruct (Js.or_default (daily_word_goal s) 10 <=? stored + wordsLearned); [|exact Hp].
  rewrite Hp. unfold update_profile_streak. rewrite Hp.
  rewrite !WordProgressFacts.int4_in_range by lia. cbn. apply lookup_insert_eq.
Qed.

End StreakFacts.

(** C4 (the code departs from it).  A first session of five words on a day
    with a daily word goal of 10: after [endSession] today's words row
    holds 5 of 10 and is not completed, and yet [current_streak] and
    [longest_streak] went from 0 to 1.  [updateStreak] runs after
    [updateDailyGoals] and adds the session's words to a stored value that
    already contains them (5 + 5 >= 10). *)
Theorem streak_advances_before_goal_is_met :
  let db := example_db "u1" (mkProfile 1 0 0 0 0 0 0) 0 in
  let sd := session_of (Some "u1"%string) 1000 practice db
              [mkAttempt "cat" true easy; mkAttempt "dog" true easy;
               mkAttempt "sun" true easy; mkAttempt "hat" true easy;
               mkAttempt "pig" true easy] in
  let db' := (UseLearningSession.endSession (Some "u1"%string) (Some (mkAppSettings 10))
                61000 "2025-06-28" sd.1 sd.2).2 in
  daily_goals db' !! ("u1", Words, "2025-06-28")%string
  = Some (mkDailyGoal 10 5 false 61000)
  /\ (fun p => (current_streak p, longest_streak p)) <$> profiles db !! "u1"%string
     = Some (0, 0)
  /\ (fun p => (current_streak p, longest_streak p)) <$> profiles db' !! "u1"%string
     = Some (1, 1).
Proof. vm_compute. repeat split. Qed.

(** The same five words ten minutes later complete the goal (10 of 10); the
    streak advances again, to 2, on the same day. *)
Example streak_advances_twice_a_day :
  let db := example_db "u1" (mkProfile 1 0 0 0 0 0 0) 0 in
  let attempts := [mkAttempt "cat" true easy; mkAttempt "dog" true easy;
                   mkAttempt "sun" true easy; mkAttempt "hat" true easy;
                   mkAttempt "pig" true easy] in
  let finish now sd :=
    (UseLearningSession.endSession (Some "u1"%string) (Some (mkAppSettings 10)) now
       "2025-06-28" sd.1 sd.2).2 in
  let db1 := finish 61000 (session_of (Some "u1"%string) 1000 practice db attempts) in
  let db2 := finish 661000 (session_of (Some "u1"%string) 601000 practice db1 attempts) in
  (completed <$> daily_goals db2 !! ("u1", Words, "2025-06-28")%string) = Some true
  /\ (current_streak <$> profiles db2 !! "u1"%string) = Some 2.
Proof. vm_compute. split; reflexivity. Qed.

(** * Further properties of the engine *)

(** ** Which tables each step of [endSession] writes *)

Module FrameFacts.
Module S := UseLearningSession.

Lemma updateUserStats_frame (user : option UserId) (now : Timestamp)
    (wordsLearned practiceTime : Z) (accuracy : Q) (db : DB) :
  only_profiles_changed db (S.updateUserStats user now wordsLearned practiceTime accuracy db).
Proof.
  unfold S.updateUserStats, update_user_stats, only_profiles_changed.
  destruct user as [u|]; [|auto].
  destruct (Pg.int4 wordsLearned); cbn; [|auto].
  destruct (Pg.int4 practiceTime); cbn; [|auto].
  destruct (profiles db !! u) as [p|]; cbn; [|auto].
  destruct (Pg.int4_add (total_words_learned p) wordsLearned); cbn; [|auto].
  destruct (Pg.int4_add (total_practice_time p) practiceTime); cbn; [|auto].
  destruct (Pg.numeric_5_2 _); cbn; auto.
Qed.

Lemma update_profile_streak_frame (db : DB) (now : Timestamp) (u : UserId) (s l : Z) :
  only_profiles_changed db (or_unchanged db (update_profile_streak db now u s l)).
Proof.
  unfold update_profile_streak, only_profiles_changed.
  destruct (profiles db !! u); cbn; [|auto].
  destruct (Pg.int4 s); cbn; [|auto]. destruct (Pg.int4 l); cbn; auto.
Qed.

Lemma updateStreak_frame (user : option UserId) (settings : option AppSettings)
    (now : Timestamp) (today : Date) (wordsLearned : Z) (db : DB) :
  only_profiles_changed db (S.updateStreak user settings now today wordsLearned db).
Proof.
  unfold S.updateStreak.
  destruct user as [u|]; [|unfold only_profiles_changed; auto].
  destruct settings as [s|]; [|unfold only_profiles_changed; auto].
  destruct (_ <=? _); [|unfold only_profiles_changed; auto].
  destruct (profiles db !! u); [|unfold only_profiles_changed; auto].
  apply update_profile_streak_frame.
Qed.

Lemma update_daily_goal_frame (db : DB) (now : Timestamp) (u : UserId) (g : GoalType)
    (d : Date) (v : Z) (c : bool) :
  only_daily_goals_changed db (or_unchanged db (update_daily_goal db now u g d v c)).
Proof.
  unfold update_daily_goal, only_daily_goals_changed.
  destruct (daily_goals db !! (u, g, d)); cbn; [|auto].
  destruct (Pg.int4 v); cbn; auto.
Qed.

Lemma insert_daily_goals_frame (db : DB) (now : Timestamp) (u : UserId) (d : Date)
    (rows : list DailyGoalInsert) :
  only_daily_goals_changed db (or_unchanged db (insert_daily_goals db now u d rows)).
Proof.
  unfold insert_daily_goals, only_daily_goals_changed.
  destruct (profiles db !! u); cbn; [|auto].
  destruct (insert_goal_rows now u d rows (daily_goals db)); cbn; auto.
Qed.

Lemma only_daily_goals_changed_trans (a b c : DB) :
  only_daily_goals_changed a b -> only_daily_goals_changed b c ->
  only_daily_goals_changed a c.
Proof.
  unfold only_daily_goals_changed. intros (H1 & H2 & H3 & H4) (K1 & K2 & K3 & K4).
  repeat split; congruence.
Qed.

Lemma only_daily_goals_changed_refl (a : DB) : only_daily_goals_changed a a.
Proof. unfold only_daily_goals_changed. auto. Qed.

Lemma updateDailyGoals_frame (user : option UserId) (settings : option AppSettings)
    (now : Timestamp) (today : Date) (wordsLearned practiceTime : Z) (accuracy : Q)
    (db : DB) :
  only_daily_goals_changed db
    (S.updateDailyGoals user settings now today wordsLearned practiceTime accuracy db).
Proof.
  unfold S.updateDailyGoals. destruct user as [u|]; [|apply only_daily_goals_changed_refl].
  cbv zeta.
  destruct (daily_goals db !! (u, Words, today)) as [rw|];
  destruct (daily_goals db !! (u, Time, today)) as [rt|];
  destruct (daily_goals db !! (u, Accuracy, today)) as [ra|].
  all: repeat first
    [ apply only_daily_goals_changed_refl
    | apply update_daily_goal_frame
    | apply insert_daily_goals_frame
    | eapply only_daily_goals_changed_trans;
      [|first [apply update_daily_goal_frame | apply insert_daily_goals_frame]] ].
Qed.

Lemma insert_learning_session_row (db : DB) (now : Timestamp) (u : UserId)
    (ty : SessionType) (ws : list string) (c n d : Z) (acc : Q)
    (data : LearningSession) (db0 : DB) :
  insert_learning_session db now u ty ws c n d acc = Some (data, db0) ->
  exists a, data = mkLearningSession u ty ws c n d a now
            /\ db0 = set_learning_sessions db (learning_sessions db ++ [data]).
Proof.
  unfold insert_learning_session.
  destruct (profiles db !! u); [|discriminate].
  destruct (Pg.int4 c) as [c'|] eqn:Ec; [|discriminate]. cbn [mbind option_bind].
  destruct (Pg.int4 n) as [n'|] eqn:En; [|discriminate]. cbn [mbind option_bind].
  destruct (Pg.int4 d) as [d'|] eqn:Ed; [|discriminate]. cbn [mbind option_bind].
  destruct (Pg.numeric_5_2 acc) as [a|]; [|discriminate]. cbn [mbind option_bind].
  apply DailyGoalFacts.int4_value in Ec, En, Ed. subst c' n' d'.
  intros [= <- <-]. eauto.
Qed.

(** A level evaluation writes the profile and appends achievements. *)
Lemma checkLevelProgression_frame (user : option UserId) (now : Timestamp)
    (wordsLearned : Z) (sessionAccuracy : Q) (db : DB) :
  let db' := S.checkLevelProgression user now wordsLearned sessionAccuracy db in
  word_progress db' = word_progress db
  /\ daily_goals db' = daily_goals db
  /\ learning_sessions db' = learning_sessions db
  /\ exists extra, achievements db' = achievements db ++ extra.
Proof.
  intros db'. subst db'.
  assert (Hsame : word_progress db = word_progress db /\ daily_goals db = daily_goals db
                  /\ learning_sessions db = learning_sessions db
                  /\ exists extra, achievements db = achievements db ++ extra).
  { repeat split. exists []. now rewrite app_nil_r. }
  destruct user as [u|]; [|exact Hsame].
  destruct (profiles db !! u) as [p|] eqn:Hp;
    [|unfold S.checkLevelProgression; rewrite Hp; exact Hsame].
  destruct (Z_lt_le_dec (level p) (stored_qualified_level db u p)) as [Hlt|Hle].
  - destruct (LevelUpFacts.session_level_up u now wordsLearned sessionAccuracy db p Hp Hlt)
      as (_ & Hw & Hd & Hl & a & extra & Ha & _).
    repeat split; auto. eauto.
  - rewrite (LevelUpFacts.session_no_level_up u now wordsLearned sessionAccuracy db p Hp Hle).
    exact Hsame.
Qed.

End FrameFacts.

(** X1. [endSession] either stores exactly one session record, built from
    the accumulator (the words as practiced, the two counts, the duration
    in whole seconds), leaving [word_progress] alone and only appending to
    [achievements]; or it reports an error and the database is as before. *)
Theorem endSession_stores_one_record (user : option UserId)
    (settings : option AppSettings) (now : Timestamp) (today : Date)
    (session : UseLearningSession.Session) (db : DB) :
  let r := UseLearningSession.endSession user settings now today session db in
  match r.1 with
  | UseLearningSession.Stored data =>
      user = Some (ls_user_id data)
      /\ learning_sessions r.2 = learning_sessions db ++ [data]
      /\ session_type data = UseLearningSession.sessionType session
      /\ words_practiced data = UseLearningSession.wordsPracticed session
      /\ correct_pronunciations data = UseLearningSession.correctPronunciations session
      /\ total_attempts data = UseLearningSession.totalAttempts session
      /\ session_duration data = (now - UseLearningSession.startTime session) / 1000
      /\ word_progress r.2 = word_progress db
      /\ exists extra, achievements r.2 = achievements db ++ extra
  | UseLearningSession.NoUser => user = None /\ r.2 = db
  | UseLearningSession.Failed => r.2 = db
  end.
Proof.
  intros r. subst r. unfold UseLearningSession.endSession.
  destruct user as [u|]; [|split; reflexivity].
  destruct (UseLearningSession.accuracyRate session) as [acc| |]; [|reflexivity..].
  destruct (insert_learning_session db now u _ _ _ _ _ acc) as [[data db0]|] eqn:E;
    [|reflexivity].
  cbv beta iota zeta. cbn [fst snd].
  apply FrameFacts.insert_learning_session_row in E. destruct E as (a & -> & ->).
  match goal with |- context [UseLearningSession.updateUserStats _ _ _ _ _ ?d] => set (db0 := d) end.
  set (n := Z.of_nat (length (UseLearningSession.wordsPracticed session))).
  set (dur := (now - UseLearningSession.startTime session) / 1000).
  set (db1 := UseLearningSession.updateUserStats (Some u) now n dur acc db0).
  set (db2 := UseLearningSession.updateDailyGoals (Some u) settings now today n dur acc db1).
  set (db3 := UseLearningSession.updateStreak (Some u) settings now today n db2).
  destruct (FrameFacts.updateUserStats_frame (Some u) now n dur acc db0) as (W1 & _ & A1 & L1).
  destruct (FrameFacts.updateDailyGoals_frame (Some u) settings now today n dur acc db1)
    as (_ & W2 & A2 & L2).
  destruct (FrameFacts.updateStreak_frame (Some u) settings now today n db2)
    as (W3 & _ & A3 & L3).
  destruct (FrameFacts.checkLevelProgression_frame (Some u) now n acc db3)
    as (W4 & _ & L4 & extra & A4).
  fold db1 in W1, A1, L1. fold db2 in W2, A2, L2. fold db3 in W3, A3, L3.
  cbn [ls_user_id session_type words_practiced correct_pronunciations total_attempts
       session_duration].
  repeat split.
  - rewrite L4, L3, L2, L1. reflexivity.
  - rewrite W4, W3, W2, W1. reflexivity.
  - exists extra. rewrite A4, A3, A2, A1. reflexivity.
Qed.

(** ** More on the word mastery tracker *)

Module MasteryFacts.

(** A threshold test on the quotient of two counts, as a test on integers. *)
Lemma Qle_bool_fraction (a : Z) (b : positive) (c p : Z) :
  0 < p ->
  Qle_bool (a # b) (inject_Z c / inject_Z p) = (a * p <=? Z.pos b * c).
Proof.
  intros Hp. apply eq_true_iff_eq. rewrite Qle_bool_iff, Z.leb_le.
  assert (Hp' : (0 < inject_Z p)%Q).
  { change 0%Q with (inject_Z 0). now rewrite <- Zlt_Qlt. }
  assert (Hmul : ((a # b) * inject_Z p <= inject_Z c)%Q <-> a * p <= Z.pos b * c).
  { unfold Qle, Qmult, inject_Z. cbn [Qnum Qden]. rewrite !Z.mul_1_r, Pos.mul_1_r.
    split; intros H; lia. }
  rewrite <- Hmul. split; intros H.
  - apply (Qmult_le_r _ _ (inject_Z p)) in H; [|exact Hp'].
    assert (E : (inject_Z c / inject_Z p * inject_Z p == inject_Z c)%Q).
    { field. intros E0. rewrite E0 in Hp'. now apply Qlt_irrefl in Hp'. }
    now rewrite E in H.
  - apply Qle_shift_div_l; assumption.
Qed.

(** The tier of the specification, read on the counts. *)
Lemma tier_cases (c p : Z) :
  0 < p ->
  let m := spec_mastery_tier c p in
  (m = 100 /\ 9 * p <= 10 * c /\ 5 <= p)
  \/ (m = 75 /\ 7 * p <= 10 * c /\ 3 <= p)
  \/ (m = 50 /\ p <= 2 * c)
  \/ (m = 25 /\ 2 * c < p).
Proof.
  intros Hp m. subst m. unfold spec_mastery_tier. cbv zeta.
  rewrite !Qle_bool_fraction by exact Hp.
  destruct (Z.leb_spec (90 * p) (100 * c)), (Z.leb_spec 5 p); cbn [andb];
    try (left; lia).
  all: destruct (Z.leb_spec (70 * p) (100 * c)), (Z.leb_spec 3 p); cbn [andb];
    try (right; left; lia).
  all: destruct (Z.leb_spec (50 * p) (100 * c));
    [right; right; left; lia | right; right; right; lia].
Qed.

(** The row of a pair after a request on it, in full. *)
Lemma call_same_row_full (db : DB) (c : WordCall) (r' : WordProgress) :
  word_progress (call_update_word_progress db c) !! (wc_user c, wc_word c) = Some r' ->
  (word_progress db !! (wc_user c, wc_word c) = None
   /\ r' = mkWordProgress (wc_difficulty c) 1 (if wc_correct c then 1 else 0)
             (wc_now c) 0 (wc_now c))
  \/ (exists r, word_progress db !! (wc_user c, wc_word c) = Some r
      /\ (r' = r
          \/ (- 2 ^ 31 <= times_practiced r + 1 <= 2 ^ 31 - 1
              /\ exists m,
                   mastery_case (times_correct r + (if wc_correct c then 1 else 0))
                     (times_practiced r + 1) = Some m
                   /\ r' = mkWordProgress (difficulty r) (times_practiced r + 1)
                             (times_correct r + (if wc_correct c then 1 else 0))
                             (wc_now c) m (wc_now c)))).
Proof.
  unfold call_update_word_progress, update_word_progress.
  destruct (word_progress db !! (wc_user c, wc_word c)) as [r|] eqn:Hr.
  - intros H. right. exists r. split; [reflexivity|]. revert H.
    destruct (Pg.int4_add (times_practiced r) 1) as [p'|] eqn:Ep; cbn;
      [|rewrite Hr; intros [= <-]; now left].
    destruct (Pg.int4_add (times_correct r) _) as [c'|] eqn:Ec; cbn;
      [|rewrite Hr; intros [= <-]; now left].
    destruct (mastery_case c' p') as [m|] eqn:Em; cbn;
      [|rewrite Hr; intros [= <-]; now left].
    rewrite lookup_insert_eq. intros [= <-].
    apply WordProgressFacts.int4_Some in Ep, Ec.
    destruct Ep as [-> Hrange], Ec as [-> _]. right. split; [lia|]. eauto.
  - intros H. left. split; [reflexivity|]. revert H.
    destruct (profiles db !! wc_user c); cbn; [|rewrite Hr; discriminate].
    rewrite lookup_insert_eq. now intros [= <-].
Qed.

Lemma call_keeps_sound (db : DB) (c : WordCall) (k : UserId * string) :
  (forall r, word_progress db !! k = Some r -> row_sound r) ->
  forall r', word_progress (call_update_word_progress db c) !! k = Some r' -> row_sound r'.
Proof.
  intros Hinv r' Hr'.
  destruct (decide ((wc_user c, wc_word c) = k)) as [<-|Hne].
  - destruct (call_same_row_full db c r' Hr')
      as [(_ & ->)|(r & Hr & [->|(Hrange & m & Hm & ->)])].
    + unfold row_sound. cbn. destruct (wc_correct c); lia.
    + now apply Hinv.
    + destruct (Hinv r Hr) as (Hp & Hc & _).
      rewrite WordProgressFacts.mastery_case_spec in Hm by lia.
      injection Hm as <-. unfold row_sound. cbn.
      destruct (wc_correct c); repeat split; try lia; right; split; (lia || reflexivity).
  - rewrite WordProgressFacts.call_other_row in Hr' by exact Hne. now apply Hinv.
Qed.

Lemma run_keeps_sound (calls : list WordCall) : forall (db : DB) (k : UserId * string),
  (forall r, word_progress db !! k = Some r -> row_sound r) ->
  forall r', word_progress (run_word_calls db calls) !! k = Some r' -> row_sound r'.
Proof.
  induction calls as [|c calls IH]; intros db k Hinv r' Hr'; cbn in Hr'.
  - now apply Hinv.
  - apply (IH (call_update_word_progress db c) k); [|exact Hr'].
    now apply call_keeps_sound.
Qed.

(** A request keeps the row of every pair (it never deletes one) and its
    difficulty tag. *)
Lemma call_keeps_difficulty (db : DB) (c : WordCall) (k : UserId * string)
    (r : WordProgress) :
  word_progress db !! k = Some r ->
  exists r', word_progress (call_update_word_progress db c) !! k = Some r'
             /\ difficulty r' = difficulty r.
Proof.
  intros Hr.
  destruct (decide ((wc_user c, wc_word c) = k)) as [<-|Hne].
  - unfold call_update_word_progress, update_word_progress. rewrite Hr.
    destruct (Pg.int4_add (times_practiced r) 1) as [p'|]; cbn; [|eauto].
    destruct (Pg.int4_add (times_correct r) _) as [c'|]; cbn; [|eauto].
    destruct (mastery_case c' p') as [m|]; cbn; [|eauto].
    rewrite lookup_insert_eq. eauto.
  - rewrite WordProgressFacts.call_other_row by exact Hne. eauto.
Qed.

Lemma call_frame (db : DB) (c : WordCall) :
  only_word_progress_changed db (call_update_word_progress db c).
Proof.
  unfold only_word_progress_changed, call_update_word_progress, update_word_progress.
  destruct (word_progress db !! (wc_user c, wc_word c)) as [r|].
  - destruct (Pg.int4_add (times_practiced r) 1) as [p'|]; cbn; [|auto].
    destruct (Pg.int4_add (times_correct r) _) as [c'|]; cbn; [|auto].
    destruct (mastery_case c' p') as [m|]; cbn; auto.
  - destruct (profiles db !! wc_user c); cbn; auto.
Qed.

End MasteryFacts.

(** X2. Starting from no row for (user, word), after any sequence of
    [update_word_progress] requests the row of the pair holds one of the
    tiers 0, 25, 50, 75, 100; tier 0 exactly while the word was practiced
    once; a tier of 75 or more only with at least 3 attempts of which at
    least 70% were correct, and tier 100 only with at least 5 attempts of
    which at least 90% were correct. *)
Theorem mastery_needs_repeated_success (db : DB) (u : UserId) (w : string)
    (calls : list WordCall) (r : WordProgress) :
  word_progress db !! (u, w) = None ->
  word_progress (run_word_calls db calls) !! (u, w) = Some r ->
  is_tier (mastery_level r)
  /\ 1 <= times_practiced r
  /\ (mastery_level r = 0 <-> times_practiced r = 1)
  /\ (75 <= mastery_level r ->
      3 <= times_practiced r /\ 7 * times_practiced r <= 10 * times_correct r)
  /\ (mastery_level r = 100 ->
      5 <= times_practiced r /\ 9 * times_practiced r <= 10 * times_correct r).
Proof.
  intros Hnone Hr.
  assert (Hs : row_sound r).
  { apply (MasteryFacts.run_keeps_sound calls db (u, w)); [|exact Hr].
    intros r0 Hr0. rewrite Hnone in Hr0. discriminate Hr0. }
  destruct Hs as (Hp & Hc & [[Hone Hm]|[Htwo Hm]]).
  - rewrite Hm. unfold is_tier. repeat split; auto; lia.
  - pose proof (MasteryFacts.tier_cases (times_correct r) (times_practiced r)) as Ht.
    cbv zeta in Ht. rewrite <- Hm in Ht. unfold is_tier.
    destruct Ht as [?|[?|[?|?]]]; [lia|..]; repeat split; intros; lia.
Qed.

Lemma mastery_needs_repeated_success_witness :
  let db := example_db "u1" (mkProfile 1 0 0 0 0 0 0) 0 in
  let calls := repeat (mkWordCall 7 "u1" "cat" easy true) 3 in
  word_progress db !! ("u1", "cat")%string = None
  /\ exists r, word_progress (run_word_calls db calls) !! ("u1", "cat")%string = Some r
       /\ mastery_level r = 75 /\ 3 <= times_practiced r.
Proof.
  intros db calls.
  assert (Hnone : word_progress db !! ("u1", "cat")%string = None) by reflexivity.
  split; [exact Hnone|].
  exists (mkWordProgress easy 3 3 7 75 7).
  assert (Hr : word_progress (run_word_calls db calls) !! ("u1", "cat")%string
               = Some (mkWordProgress easy 3 3 7 75 7)) by (vm_compute; reflexivity).
  split; [exact Hr|]. split; [reflexivity|].
  destruct (mastery_needs_repeated_success db "u1" "cat" calls _ Hnone Hr)
    as (_ & _ & _ & H75 & _).
  apply H75. cbn. lia.
Defined.

(** X3. Once a word has a row, no later request deletes it or changes its
    difficulty tag: the tag is the one given with the first attempt. *)
Theorem difficulty_is_fixed_by_first_attempt (calls : list WordCall) (db : DB)
    (k : UserId * string) (r : WordProgress) :
  word_progress db !! k = Some r ->
  exists r', word_progress (run_word_calls db calls) !! k = Some r'
             /\ difficulty r' = difficulty r.
Proof.
  revert db r. induction calls as [|c calls IH]; intros db r Hr; cbn.
  - eauto.
  - destruct (MasteryFacts.call_keeps_difficulty db c k r Hr) as (r1 & Hr1 & Hd1).
    destruct (IH _ _ Hr1) as (r' & Hr' & Hd'). exists r'. split; [exact Hr'|congruence].
Qed.

Lemma difficulty_is_fixed_by_first_attempt_witness :
  let db := example_db "u1" (mkProfile 1 0 0 0 0 0 0) 1 in
  let calls := [mkWordCall 7 "u1" "word0" hard true; mkWordCall 8 "u1" "word0" medium false] in
  word_progress db !! ("u1", "word0")%string = Some (mkWordProgress easy 5 5 0 100 0)
  /\ exists r', word_progress (run_word_calls db calls) !! ("u1", "word0")%string = Some r'
                /\ difficulty r' = easy.
Proof.
  intros db calls.
  assert (Hr : word_progress db !! ("u1", "word0")%string
               = Some (mkWordProgress easy 5 5 0 100 0)) by (vm_compute; reflexivity).
  split; [exact Hr|].
  exact (difficulty_is_fixed_by_first_attempt calls db _ _ Hr).
Defined.

(** X4. A sequence of [update_word_progress] requests writes [word_progress]
    only, and there only the rows of the pairs it names. *)
Theorem word_requests_touch_their_rows_only (calls : list WordCall) (db : DB) :
  only_word_progress_changed db (run_word_calls db calls)
  /\ forall k, Forall (fun c => (wc_user c, wc_word c) <> k) calls ->
       word_progress (run_word_calls db calls) !! k = word_progress db !! k.
Proof.
  revert db. induction calls as [|c calls IH]; intros db; cbn.
  - unfold only_word_progress_changed. auto.
  - destruct (IH (call_update_word_progress db c)) as [Hf Hk].
    destruct (MasteryFacts.call_frame db c) as (F1 & F2 & F3 & F4).
    destruct Hf as (G1 & G2 & G3 & G4).
    split.
    + unfold only_word_progress_changed.
      fold (run_word_calls (call_update_word_progress db c) calls).
      repeat split; congruence.
    + intros k Hall. inversion Hall as [|? ? Hc Hrest]; subst.
      fold (run_word_calls (call_update_word_progress db c) calls).
      rewrite (Hk k Hrest). now apply WordProgressFacts.call_other_row.
Qed.

(** ** More on the session recorder, the streak and the aggregate stats *)

Module KeyFacts.

Lemma lower_ascii_idem (c : ascii) : Js.lower_ascii (Js.lower_ascii c) = Js.lower_ascii c.
Proof. destruct c as [[] [] [] [] [] [] [] []]; reflexivity. Qed.

Lemma toLowerCase_idem (s : string) : Js.toLowerCase (Js.toLowerCase s) = Js.toLowerCase s.
Proof.
  induction s as [|c s IH]; cbn; [reflexivity|]. now rewrite lower_ascii_idem, IH.
Qed.

End KeyFacts.

(** X5. [addWordToSession] files the attempt under the lower-cased word:
    reporting a word or its lower-case form has the same effect on the
    database, while [wordsPracticed] keeps the word as it was given. *)
Theorem attempts_are_keyed_by_lower_case (user : option UserId) (now : Timestamp)
    (session : UseLearningSession.Session) (word : string) (isCorrect : bool)
    (difficulty : Difficulty) (db : DB) :
  (UseLearningSession.addWordToSession user now session word isCorrect difficulty db).2
  = (UseLearningSession.addWordToSession user now session (Js.toLowerCase word) isCorrect
       difficulty db).2
  /\ UseLearningSession.wordsPracticed
       (UseLearningSession.addWordToSession user now session word isCorrect difficulty db).1
     = UseLearningSession.wordsPracticed session ++ [word].
Proof.
  unfold UseLearningSession.addWordToSession, UseLearningSession.updateWordProgress.
  cbn [fst snd UseLearningSession.wordsPracticed]. split; [|reflexivity].
  destruct user; [|reflexivity]. now rewrite KeyFacts.toLowerCase_idem.
Qed.

(** X6. [updateStreak] leaves every profile either as it was or, for the
    signed-in user, with [current_streak] one higher and [longest_streak]
    the larger of that and its old value (nothing else of the profile
    changing but [updated_at]); so a streak never goes down in this step,
    and [current_streak <= longest_streak] is kept.  No other table is
    written. *)
Theorem streak_only_advances (user : option UserId) (settings : option AppSettings)
    (now : Timestamp) (today : Date) (wordsLearned : Z) (db : DB) (u : UserId)
    (p : Profile) :
  profiles db !! u = Some p ->
  let db' := UseLearningSession.updateStreak user settings now today wordsLearned db in
  only_profiles_changed db db'
  /\ exists p', profiles db' !! u = Some p'
       /\ (p' = p
           \/ (user = Some u
               /\ p' = mkProfile (level p) (total_words_learned p) (total_practice_time p)
                         (accuracy_rate p) (current_streak p + 1)
                         (Z.max (current_streak p + 1) (longest_streak p)) now))
       /\ current_streak p <= current_streak p' <= current_streak p + 1
       /\ longest_streak p <= longest_streak p'
       /\ (current_streak p <= longest_streak p -> current_streak p' <= longest_streak p').
Proof.
  intros Hp db'. split; [apply FrameFacts.updateStreak_frame|].
  assert (Hsame : exists p', profiles db !! u = Some p'
            /\ (p' = p \/ (user = Some u
                  /\ p' = mkProfile (level p) (total_words_learned p)
                            (total_practice_time p) (accuracy_rate p) (current_streak p + 1)
                            (Z.max (current_streak p + 1) (longest_streak p)) now))
            /\ current_streak p <= current_streak p' <= current_streak p + 1
            /\ longest_streak p <= longest_streak p'
            /\ (current_streak p <= longest_streak p ->
                current_streak p' <= longest_streak p')).
  { exists p. repeat split; auto; lia. }
  subst db'. unfold UseLearningSession.updateStreak.
  destruct user as [v|]; [|exact Hsame].
  destruct settings as [s|]; [|exact Hsame].
  destruct (_ <=? _); [|exact Hsame].
  destruct (profiles db !! v) as [pv|] eqn:Hv; [|exact Hsame].
  unfold update_profile_streak. rewrite Hv.
  destruct (Pg.int4 (current_streak pv + 1)) as [s'|] eqn:Es; cbn; [|exact Hsame].
  destruct (Pg.int4 (Z.max _ _)) as [l'|] eqn:El; cbn; [|exact Hsame].
  apply DailyGoalFacts.int4_value in Es, El. subst s' l'.
  destruct (decide (v = u)) as [->|Hne].
  - rewrite lookup_insert_eq. rewrite Hp in Hv. injection Hv as <-.
    eexists. split; [reflexivity|]. cbn. repeat split; auto; lia.
  - rewrite lookup_insert_ne by exact Hne. exact Hsame.
Qed.

Lemma streak_only_advances_witness :
  let p := mkProfile 1 0 0 0 3 9 0 in
  let db := example_db "u1" p 0 in
  profiles db !! "u1"%string = Some p
  /\ exists p',
       profiles (UseLearningSession.updateStreak (Some "u1"%string) (Some (mkAppSettings 10))
                   7 "2025-06-28" 12 db) !! "u1"%string = Some p'
       /\ current_streak p' = 4 /\ longest_streak p' = 9.
Proof.
  intros p db.
  assert (Hp : profiles db !! "u1"%string = Some p) by (vm_compute; reflexivity).
  split; [exact Hp|].
  destruct (streak_only_advances (Some "u1"%string) (Some (mkAppSettings 10)) 7
              "2025-06-28" 12 db "u1" p Hp) as (_ & p' & Hp' & _).
  exists p'. split; [exact Hp'|].
  vm_compute in Hp'. injection Hp' as <-. split; reflexivity.
Defined.

Module RateFacts.

Lemma round_half_away_range (q : Q) (lo hi : Z) :
  (inject_Z lo <= q <= inject_Z hi)%Q -> lo <= Pg.round_half_away q <= hi.
Proof.
  intros [Hlo Hhi].
  pose proof (StatsFacts.round_half_away_close q) as [H1 H2].
  split.
  - apply Z.lt_pred_le. rewrite Zlt_Qlt. unfold Z.pred.
    rewrite inject_Z_plus. change (inject_Z (-1)) with (-1)%Q. lra.
  - apply Z.lt_succ_r. rewrite Zlt_Qlt. unfold Z.succ.
    rewrite inject_Z_plus. change (inject_Z 1) with 1%Q. lra.
Qed.

Lemma mean_rate_range (p : Profile) (acc : Q) :
  0 <= accuracy_rate p <= 10000 -> (0 <= acc <= 100)%Q ->
  (inject_Z 0 <= mean_rate p acc * 100 <= inject_Z 10000)%Q.
Proof.
  intros [Hl Hh] [Al Ah]. unfold mean_rate.
  assert (E : (Pg.numeric_5_2_val (accuracy_rate p)
               == inject_Z (accuracy_rate p) * (1 # 100))%Q).
  { unfold Pg.numeric_5_2_val, Qeq. cbn. lia. }
  assert (Hl' : (inject_Z 0 <= inject_Z (accuracy_rate p))%Q) by now rewrite <- Zle_Qle.
  assert (Hh' : (inject_Z (accuracy_rate p) <= inject_Z 10000)%Q) by now rewrite <- Zle_Qle.
  change (inject_Z 0) with 0%Q in *. change (inject_Z 10000) with 10000%Q in *.
  rewrite E. split.
  - assert (0 <= (inject_Z (accuracy_rate p) * (1 # 100) + acc) / 2)%Q.
    { apply Qle_shift_div_l; lra. }
    lra.
  - assert ((inject_Z (accuracy_rate p) * (1 # 100) + acc) / 2 <= 100)%Q.
    { apply Qle_shift_div_r; lra. }
    lra.
Qed.

Lemma update_user_stats_other (db : DB) (now : Timestamp) (v u : UserId)
    (wordsLearned practiceTime : Z) (acc : Q) :
  v <> u ->
  profiles (or_unchanged db (update_user_stats db now v wordsLearned practiceTime acc)) !! u
  = profiles db !! u.
Proof.
  intros Hne. unfold update_user_stats.
  destruct (Pg.int4 wordsLearned); cbn; [|reflexivity].
  destruct (Pg.int4 practiceTime); cbn; [|reflexivity].
  destruct (profiles db !! v) as [pv|]; cbn; [|reflexivity].
  destruct (Pg.int4_add (total_words_learned pv) wordsLearned); cbn; [|reflexivity].
  destruct (Pg.int4_add (total_practice_time pv) practiceTime); cbn; [|reflexivity].
  destruct (Pg.numeric_5_2 _); cbn; [|reflexivity].
  now rewrite lookup_insert_ne.
Qed.

End RateFacts.

(** X7. A profile whose [accuracy_rate] is between 0 and 100 keeps it there
    under [update_user_stats] with a session accuracy between 0 and 100:
    the rounding to two decimals does not leave the interval. *)
Theorem accuracy_rate_stays_a_percentage (user : option UserId) (now : Timestamp)
    (wordsLearned practiceTime : Z) (sessionAccuracy : Q) (db : DB) (u : UserId)
    (p : Profile) :
  profiles db !! u = Some p ->
  0 <= accuracy_rate p <= 10000 ->
  (0 <= sessionAccuracy <= 100)%Q ->
  exists p',
    profiles (UseLearningSession.updateUserStats user now wordsLearned practiceTime
                sessionAccuracy db) !! u = Some p'
    /\ 0 <= accuracy_rate p' <= 10000.
Proof.
  intros Hp Hr Ha. unfold UseLearningSession.updateUserStats.
  assert (Hsame : exists p', profiles db !! u = Some p' /\ 0 <= accuracy_rate p' <= 10000)
    by (exists p; auto).
  destruct user as [v|]; [|exact Hsame].
  destruct (decide (v = u)) as [->|Hne].
  - destruct (stats_accepted p wordsLearned practiceTime sessionAccuracy) eqn:Hacc.
    + rewrite (StatsFacts.update_user_stats_accepted _ _ _ _ _ _ _ Hp Hacc). cbn.
      rewrite lookup_insert_eq. eexists. split; [reflexivity|]. cbn.
      apply RateFacts.round_half_away_range. now apply RateFacts.mean_rate_range.
    + rewrite (StatsFacts.update_user_stats_rejected _ _ _ _ _ _ _ Hp Hacc). exact Hsame.
  - now rewrite RateFacts.update_user_stats_other.
Qed.

Lemma accuracy_rate_stays_a_percentage_witness :
  let p := mkProfile 1 12 600 9999 0 0 0 in
  let db := example_db "u1" p 0 in
  profiles db !! "u1"%string = Some p
  /\ exists p',
       profiles (UseLearningSession.updateUserStats (Some "u1"%string) 7 3 60 100 db)
         !! "u1"%string = Some p'
       /\ 0 <= accuracy_rate p' <= 10000.
Proof.
  intros p db.
  assert (Hp : profiles db !! "u1"%string = Some p) by (vm_compute; reflexivity).
  split; [exact Hp|].
  apply (accuracy_rate_stays_a_percentage (Some "u1"%string) 7 3 60 100 db "u1" p Hp).
  - cbn. lia.
  - split; unfold Qle; cbn; lia.
Defined.

(** ** Repeated level evaluations *)

Module SettledFacts.
Module S := UseLearningSession.
Module P := UseLevelProgression.

Lemma stored_level_ext (db db' : DB) (u : UserId) (p p' : Profile) :
  word_progress db' = word_progress db ->
  accuracy_rate p' = accuracy_rate p -> current_streak p' = current_streak p ->
  total_practice_time p' = total_practice_time p ->
  stored_qualified_level db' u p' = stored_qualified_level db u p.
Proof.
  intros Hw Ha Hs Ht. unfold stored_qualified_level, mastered_rows.
  now rewrite Hw, Ha, Hs, Ht.
Qed.

(** After a level-up transition the user is settled. *)
Lemma transition_settles (u : UserId) (now : Timestamp) (p : Profile) (db db' : DB) :
  level_up_transition u now p (stored_qualified_level db u p) db db' ->
  level_settled db' u.
Proof.
  intros (Hprof & Hw & _) p' Hp'. rewrite Hprof, lookup_insert_eq in Hp'.
  injection Hp' as <-. cbn [level].
  match goal with |- stored_qualified_level db' u ?q <= _ =>
    rewrite (stored_level_ext db db' u p q Hw eq_refl eq_refl eq_refl) end.
  lia.
Qed.

Lemma session_check_settles (u : UserId) (now : Timestamp) (wl : Z) (sa : Q) (db : DB) :
  level_settled (S.checkLevelProgression (Some u) now wl sa db) u.
Proof.
  destruct (profiles db !! u) as [p|] eqn:Hp.
  - destruct (Z_lt_le_dec (level p) (stored_qualified_level db u p)) as [Hlt|Hle].
    + apply (transition_settles u now p db).
      now apply LevelUpFacts.session_level_up.
    + rewrite (LevelUpFacts.session_no_level_up u now wl sa db p Hp Hle).
      intros p' Hp'. rewrite Hp in Hp'. now injection Hp' as <-.
  - unfold S.checkLevelProgression. rewrite Hp. intros p' Hp'. congruence.
Qed.

Lemma progression_check_settles (u : UserId) (now : Timestamp) (db : DB) :
  level_settled (P.checkLevelProgression (Some u) now db).1 u.
Proof.
  destruct (profiles db !! u) as [p|] eqn:Hp.
  - destruct (Z_lt_le_dec (level p) (stored_qualified_level db u p)) as [Hlt|Hle].
    + apply (transition_settles u now p db).
      now apply LevelUpFacts.progression_level_up.
    + rewrite (LevelUpFacts.progression_no_level_up u now db p Hp Hle).
      intros p' Hp'. cbn in Hp'. rewrite Hp in Hp'. now injection Hp' as <-.
  - unfold P.checkLevelProgression. rewrite Hp. intros p' Hp'. cbn in Hp'. congruence.
Qed.

(** On a settled user either evaluation writes nothing. *)
Lemma settled_no_write (u : UserId) (now : Timestamp) (wl : Z) (sa : Q) (db : DB) :
  level_settled db u ->
  S.checkLevelProgression (Some u) now wl sa db = db
  /\ (P.checkLevelProgression (Some u) now db).1 = db.
Proof.
  intros Hs. destruct (profiles db !! u) as [p|] eqn:Hp.
  - specialize (Hs p Hp). split.
    + now apply (LevelUpFacts.session_no_level_up u now wl sa db p).
    + now rewrite (LevelUpFacts.progression_no_level_up u now db p Hp Hs).
  - unfold S.checkLevelProgression, P.checkLevelProgression. rewrite Hp. auto.
Qed.

End SettledFacts.

(** X8. Level evaluation is idempotent: after an evaluation by either hook,
    a further evaluation by either hook, at any later time and with any
    arguments, writes nothing (no second level-up record). *)
Theorem level_evaluation_is_idempotent (u : UserId) (now now' : Timestamp)
    (wl wl' : Z) (sa sa' : Q) (db : DB) :
  let after_session := UseLearningSession.checkLevelProgression (Some u) now wl sa db in
  let after_view := (UseLevelProgression.checkLevelProgression (Some u) now db).1 in
  UseLearningSession.checkLevelProgression (Some u) now' wl' sa' after_session
  = after_session
  /\ (UseLevelProgression.checkLevelProgression (Some u) now' after_session).1
     = after_session
  /\ UseLearningSession.checkLevelProgression (Some u) now' wl' sa' after_view = after_view
  /\ (UseLevelProgression.checkLevelProgression (Some u) now' after_view).1 = after_view.
Proof.
  intros after_session after_view.
  destruct (SettledFacts.settled_no_write u now' wl' sa' after_session
              (SettledFacts.session_check_settles u now wl sa db)) as [H1 H2].
  destruct (SettledFacts.settled_no_write u now' wl' sa' after_view
              (SettledFacts.progression_check_settles u now db)) as [H3 H4].
  auto.
Qed.

(** ** More on the daily goal tracker *)

Module GoalFrameFacts.
Module S := UseLearningSession.

Lemma insert_goal_rows_other (now : Timestamp) (u : UserId) (d : Date)
    (rows : list DailyGoalInsert) :
  forall (dg dg' : gmap (UserId * GoalType * Date) DailyGoal) (k : UserId * GoalType * Date),
    insert_goal_rows now u d rows dg = Some dg' ->
    (forall g, k <> (u, g, d)) -> dg' !! k = dg !! k.
Proof.
  induction rows as [|r rows IH]; intros dg dg' k H Hk; cbn in H.
  - now injection H as <-.
  - destruct (dg !! (u, dgi_goal_type r, d)); [discriminate|].
    destruct (Pg.int4 (dgi_target_value r)) as [t|]; cbn in H; [|discriminate].
    destruct (Pg.int4 (dgi_current_value r)) as [v|]; cbn in H; [|discriminate].
    rewrite (IH _ _ k H Hk). apply lookup_insert_ne. intros E. now apply (Hk (dgi_goal_type r)).
Qed.

Lemma insert_daily_goals_other (db : DB) (now : Timestamp) (u : UserId) (d : Date)
    (rows : list DailyGoalInsert) (k : UserId * GoalType * Date) :
  (forall g, k <> (u, g, d)) ->
  daily_goals (or_unchanged db (insert_daily_goals db now u d rows)) !! k
  = daily_goals db !! k.
Proof.
  intros Hk. unfold insert_daily_goals.
  destruct (profiles db !! u); [|reflexivity].
  destruct (insert_goal_rows now u d rows (daily_goals db)) as [dg'|] eqn:E; [|reflexivity].
  cbn. now apply (insert_goal_rows_other now u d rows (daily_goals db)).
Qed.

End GoalFrameFacts.

(** X9. [updateDailyGoals] writes [daily_goals] only, and there only rows
    of the signed-in user dated today: rows of other users and of other
    days are as before. *)
Theorem daily_goals_of_other_days_untouched (user : option UserId)
    (settings : option AppSettings) (now : Timestamp) (today : Date)
    (wordsLearned practiceTime : Z) (accuracy : Q) (db : DB) :
  let db' :=
    UseLearningSession.updateDailyGoals user settings now today wordsLearned practiceTime
      accuracy db in
  only_daily_goals_changed db db'
  /\ forall (v : UserId) (g : GoalType) (d : Date),
       ~ (user = Some v /\ d = today) ->
       daily_goals db' !! (v, g, d) = daily_goals db !! (v, g, d).
Proof.
  intros db'. split; [apply FrameFacts.updateDailyGoals_frame|].
  intros v g d Hk. subst db'. unfold UseLearningSession.updateDailyGoals.
  destruct user as [u|]; [|reflexivity]. cbv zeta.
  assert (Hne : forall g', (v, g, d) <> (u, g', today)).
  { intros g' [= -> _ ->]. now apply Hk. }
  destruct (daily_goals db !! (u, Words, today)) as [rw|];
  destruct (daily_goals db !! (u, Time, today)) as [rt|];
  destruct (daily_goals db !! (u, Accuracy, today)) as [ra|].
  all: rewrite ?GoalFrameFacts.insert_daily_goals_other by exact Hne.
  all: repeat (rewrite DailyGoalFacts.update_goal_lookup;
               case_decide; [exfalso; eapply Hne; eassumption|]).
  all: reflexivity.
Qed.

(** X10. The tracker creates rows only on a day without any: when the user
    already has a row of some type for today, a missing row of another type
    stays missing. *)
Theorem missing_goal_row_is_not_created (u : UserId) (settings : option AppSettings)
    (now : Timestamp) (today : Date) (wordsLearned practiceTime : Z) (accuracy : Q)
    (db : DB) (g g' : GoalType) :
  daily_goals db !! (u, g, today) = None ->
  is_Some (daily_goals db !! (u, g', today)) ->
  daily_goals
    (UseLearningSession.updateDailyGoals (Some u) settings now today wordsLearned
       practiceTime accuracy db) !! (u, g, today) = None.
Proof.
  intros Hnone [r' Hsome]. unfold UseLearningSession.updateDailyGoals. cbv zeta.
  destruct (daily_goals db !! (u, Words, today)) as [rw|] eqn:HW;
  destruct (daily_goals db !! (u, Time, today)) as [rt|] eqn:HT;
  destruct (daily_goals db !! (u, Accuracy, today)) as [ra|] eqn:HA;
  destruct g; try congruence; destruct g'; try congruence.
  all: repeat (rewrite DailyGoalFacts.update_goal_lookup;
               case_decide; [try congruence|try congruence]);
       rewrite ?HW, ?HT, ?HA; reflexivity.
Qed.

Lemma missing_goal_row_is_not_created_witness :
  let db := set_daily_goals (example_db "u1" (mkProfile 1 0 0 0 0 0 0) 0)
              {[ ("u1", Words, "2025-06-28")%string := mkDailyGoal 10 2 false 0 ]} in
  daily_goals db !! ("u1", Time, "2025-06-28")%string = None
  /\ is_Some (daily_goals db !! ("u1", Words, "2025-06-28")%string)
  /\ daily_goals
       (UseLearningSession.updateDailyGoals (Some "u1"%string) (Some (mkAppSettings 10)) 7
          "2025-06-28" 3 600 (90 # 1) db) !! ("u1", Time, "2025-06-28")%string = None.
Proof.
  intros db.
  assert (Hn : daily_goals db !! ("u1", Time, "2025-06-28")%string = None)
    by (vm_compute; reflexivity).
  assert (Hs : is_Some (daily_goals db !! ("u1", Words, "2025-06-28")%string))
    by (vm_compute; eauto).
  split; [exact Hn|]. split; [exact Hs|].
  exact (missing_goal_row_is_not_created "u1" (Some (mkAppSettings 10)) 7 "2025-06-28"
           3 600 (90 # 1) db Time Words Hn Hs).
Defined.

(** ** Progress to the next level *)

Module ProgressFacts.
Module P := UseLevelProgression.
Module V := LevelProgressView.

(** A capped ratio of a value that is not negative to a positive
    requirement lies in [0, 1] and is 1 exactly when the requirement is
    met. *)
Lemma capped_ratio (cur : Q) (req : Z) :
  (0 <= cur)%Q -> 0 < req ->
  exists m : Q,
    JsMath.min (Js.div (Js.Num cur) (Js.of_Z req)) (Js.of_Z 1) = Js.Num m
    /\ (0 <= m <= 1)%Q
    /\ ((1 <= m)%Q <-> Qle_bool (inject_Z req) cur = true).
Proof.
  intros Hcur Hreq.
  assert (Hreq' : (0 < inject_Z req)%Q).
  { change 0%Q with (inject_Z 0). now rewrite <- Zlt_Qlt. }
  unfold Js.div, Js.of_Z, Js.is_zero. cbn [Qnum inject_Z].
  destruct (Z.eqb_spec req 0) as [|_]; [lia|]. unfold JsMath.min.
  assert (H0 : (0 <= cur / inject_Z req)%Q) by (apply Qle_shift_div_l; [assumption|lra]).
  assert (Hge : (1 <= cur / inject_Z req)%Q <-> (inject_Z req <= cur)%Q).
  { split; intros H.
    - apply (Qmult_le_r _ _ (inject_Z req)) in H; [|exact Hreq'].
      assert (E : (cur / inject_Z req * inject_Z req == cur)%Q).
      { field. intros E0. rewrite E0 in Hreq'. now apply Qlt_irrefl in Hreq'. }
      rewrite E in H. lra.
    - apply Qle_shift_div_l; [assumption|lra]. }
  destruct (Qle_bool (cur / inject_Z req) (inject_Z 1)) eqn:E.
  - apply Qle_bool_iff in E. change (inject_Z 1) with 1%Q in E.
    eexists. split; [reflexivity|]. split; [lra|].
    rewrite Qle_bool_iff, <- Hge. reflexivity.
  - assert (Hgt : ~ (cur / inject_Z req <= 1)%Q).
    { intros H. change 1%Q with (inject_Z 1) in H. apply Qle_bool_iff in H. congruence. }
    apply Qnot_le_lt in Hgt.
    exists 1%Q. split; [reflexivity|]. split; [lra|].
    rewrite Qle_bool_iff, <- Hge. split; intros; lra.
Qed.

Lemma inject_nonneg (z : Z) : 0 <= z -> (0 <= inject_Z z)%Q.
Proof. intros H. change 0%Q with (inject_Z 0). now rewrite <- Zle_Qle. Qed.

Lemma Qle_bool_inject (a b : Z) : Qle_bool (inject_Z a) (inject_Z b) = (a <=? b).
Proof.
  apply eq_true_iff_eq. now rewrite Qle_bool_iff, Z.leb_le, <- Zle_Qle.
Qed.

(** The progress towards a requirement with positive thresholds. *)
Lemma progress_percentage (mw : Z) (acc : Q) (st pm : Z) (r : P.LevelRequirements.t) :
  metrics_nonneg mw acc st pm ->
  0 < P.LevelRequirements.minWordsLearned r -> 0 < P.LevelRequirements.minAccuracy r ->
  0 < P.LevelRequirements.minStreakDays r -> 0 < P.LevelRequirements.minPracticeTime r ->
  exists n : Z,
    V.calculateProgressToNextLevel mw acc st pm r = Js.Num (inject_Z n)
    /\ 0 <= n <= 100
    /\ (n = 100 <-> P.meetsRequirements mw acc st pm r = true).
Proof.
  intros (Hw & Ha & Hs & Ht) Rw Ra Rs Rt.
  unfold V.calculateProgressToNextLevel. cbv zeta.
  destruct (capped_ratio (inject_Z mw) _ (inject_nonneg _ Hw) Rw) as (m1 & E1 & B1 & T1).
  destruct (capped_ratio acc _ Ha Ra) as (m2 & E2 & B2 & T2).
  destruct (capped_ratio (inject_Z st) _ (inject_nonneg _ Hs) Rs) as (m3 & E3 & B3 & T3).
  destruct (capped_ratio (inject_Z pm) _ (inject_nonneg _ Ht) Rt) as (m4 & E4 & B4 & T4).
  unfold Js.of_Z in E1, E2, E3, E4 |- *. rewrite E1, E2, E3, E4.
  cbn [fold_left JsMath.add length Z.of_nat].
  unfold Js.div, Js.mul, Js.is_zero, JsMath.floor. cbn [Qnum inject_Z Z.eqb Pos.of_succ_nat Pos.succ].
  change (Z.of_nat 4 =? 0) with false. cbv beta iota.
  match goal with |- context [Qfloor ?e] => set (v := e) end.
  exists (Qfloor v). split; [reflexivity|].
  assert (Ev : (v == (m1 + m2 + m3 + m4) * 25)%Q).
  { subst v. change (inject_Z (Z.of_nat 4)) with 4%Q. change (inject_Z 0) with 0%Q.
    change (inject_Z 100) with 100%Q. unfold Qdiv. change (/ 4)%Q with (1 # 4). ring. }
  assert (Hlo : 0 <= Qfloor v).
  { rewrite <- (Qfloor_Z 0). apply Qfloor_resp_le. rewrite Ev.
    change (inject_Z 0) with 0%Q. lra. }
  assert (Hhi : Qfloor v <= 100).
  { rewrite <- (Qfloor_Z 100). apply Qfloor_resp_le. rewrite Ev.
    change (inject_Z 100) with 100%Q. lra. }
  split; [lia|].
  assert (Hfull : Qfloor v = 100 <-> (1 <= m1 /\ 1 <= m2 /\ 1 <= m3 /\ 1 <= m4)%Q).
  { split.
    - intros E. pose proof (Qfloor_le v) as Hf. rewrite E, Ev in Hf.
      change (inject_Z 100) with 100%Q in Hf. repeat split; lra.
    - intros (F1 & F2 & F3 & F4). apply Z.le_antisymm; [exact Hhi|].
      rewrite <- (Qfloor_Z 100). apply Qfloor_resp_le. rewrite Ev.
      change (inject_Z 100) with 100%Q. lra. }
  rewrite Hfull, T1, T2, T3, T4. unfold P.meetsRequirements.
  rewrite !Qle_bool_inject, !andb_true_iff. tauto.
Qed.

End ProgressFacts.

(** X11. For values that are not negative, the end of
    [checkLevelProgression] always finds the next requirement, the one of
    level [min (qualifiedLevel + 1) 10], and the progress it shows is a
    whole number from 0 to 100, which is 100 exactly when the user is at
    level 10. *)
Theorem progress_is_a_percentage (masteredWords : Z) (accuracy_rate : Q)
    (current_streak practiceTimeMinutes : Z) :
  metrics_nonneg masteredWords accuracy_rate current_streak practiceTimeMinutes ->
  let q := UseLevelProgression.qualifiedLevel masteredWords accuracy_rate current_streak
             practiceTimeMinutes in
  exists (n : Z) (r : UseLevelProgression.LevelRequirements.t),
    LevelProgressView.nextLevelProgress masteredWords accuracy_rate current_streak
      practiceTimeMinutes = Some (Js.Num (inject_Z n), r)
    /\ UseLevelProgression.LevelRequirements.level r = Z.min (q + 1) 10
    /\ 0 <= n <= 100
    /\ (n = 100 <-> q = 10).
Proof.
  intros Hnn q.
  pose proof (QualificationFacts.progression_qualified_highest _ _ _ _ Hnn)
    as (Hrange & _ & Hnext & _ & _).
  pose proof (QualificationFacts.progression_qualified_highest _ _ _ _ Hnn)
    as (_ & Hmet & _).
  fold q in Hrange, Hnext, Hmet.
  unfold LevelProgressView.nextLevelProgress. fold q. cbv zeta.
  change (Z.of_nat (length UseLevelProgression.LEVEL_REQUIREMENTS)) with 10.
  assert (Hq : q = 1 \/ q = 2 \/ q = 3 \/ q = 4 \/ q = 5 \/ q = 6 \/ q = 7 \/ q = 8
               \/ q = 9 \/ q = 10) by lia.
  assert (Hstop : q < 10 ->
            UseLevelProgression.meetsLevel masteredWords accuracy_rate current_streak
              practiceTimeMinutes (Z.min (q + 1) 10) = false).
  { intros Hlt. rewrite Z.min_l by lia. now apply Hnext. }
  assert (Htop : q = 10 ->
            UseLevelProgression.meetsLevel masteredWords accuracy_rate current_streak
              practiceTimeMinutes (Z.min (q + 1) 10) = true).
  { intros E. rewrite Z.min_r by lia. apply Hmet. lia. }
  unfold UseLevelProgression.meetsLevel, UseLevelProgression.requirementFor in Hstop, Htop.
  clear Hnext Hmet. clearbody q.
  destruct Hq as [->|[->|[->|[->|[->|[->|[->|[->|[->| ->]]]]]]]]].
  all: change (Z.min (_ + 1) 10) with 2 in * || change (Z.min (_ + 1) 10) with 3 in *
       || change (Z.min (_ + 1) 10) with 4 in * || change (Z.min (_ + 1) 10) with 5 in *
       || change (Z.min (_ + 1) 10) with 6 in * || change (Z.min (_ + 1) 10) with 7 in *
       || change (Z.min (_ + 1) 10) with 8 in * || change (Z.min (_ + 1) 10) with 9 in *
       || change (Z.min (_ + 1) 10) with 10 in *.
  all: match goal with
       | |- context [List.find ?f ?l] =>
           let x := eval vm_compute in (List.find f l) in
           change (List.find f l) with x in *
       end; cbv beta iota in *.
  all: match goal with
       | |- context [LevelProgressView.calculateProgressToNextLevel _ _ _ _ ?r] =>
           destruct (ProgressFacts.progress_percentage masteredWords accuracy_rate
                       current_streak practiceTimeMinutes r Hnn)
             as (n & En & Hn & Hfull); [cbn; lia..|];
           exists n, r; (split; [rewrite En; reflexivity|]);
           (split; [reflexivity|]); (split; [exact Hn|]); rewrite Hfull
       end.
  all: try (rewrite Hstop by lia; split; [discriminate|lia]).
  all: rewrite Htop by reflexivity; tauto.
Qed.

Lemma progress_is_a_percentage_witness :
  metrics_nonneg 30 (6500 # 100) 4 45
  /\ exists (n : Z) (r : UseLevelProgression.LevelRequirements.t),
       LevelProgressView.nextLevelProgress 30 (6500 # 100) 4 45 = Some (Js.Num (inject_Z n), r)
       /\ UseLevelProgression.LevelRequirements.level r = 3
       /\ 0 <= n <= 100.
Proof.
  assert (Hnn : metrics_nonneg 30 (6500 # 100) 4 45).
  { unfold metrics_nonneg, Qle. simpl. lia. }
  split; [exact Hnn|].
  destruct (progress_is_a_percentage 30 (6500 # 100) 4 45 Hnn) as (n & r & E & Hl & Hn & _).
  exists n, r. split; [exact E|]. split; [exact Hl|exact Hn].
Defined.

(** ** The practice screen: edit distance and similarity *)

Module LevenshteinFacts.
Import PracticeScreen.

Section Facts.
Context {A : Type} `{EqDecision A}.

Lemma edit_distance_nil_r (s : list A) : edit_distance s [] = Z.of_nat (length s).
Proof. destruct s; reflexivity. Qed.

Lemma edit_distance_cons (a b : A) (s t : list A) :
  edit_distance (a :: s) (b :: t)
  = if decide (a = b) then edit_distance s t
    else Z.min (Z.min (edit_distance s t + 1) (edit_distance (a :: s) t + 1))
           (edit_distance s (b :: t) + 1).
Proof. reflexivity. Qed.

Lemma edit_distance_nonneg (s : list A) : forall t, 0 <= edit_distance s t.
Proof.
  induction s as [|a s IHs]; intros t; [cbn; lia|].
  induction t as [|b t IHt]; [cbn; lia|].
  rewrite edit_distance_cons. destruct (decide (a = b)); [apply IHs|].
  specialize (IHs t) as H1. specialize (IHs (b :: t)) as H2. lia.
Qed.

Lemma edit_distance_refl (s : list A) : edit_distance s s = 0.
Proof.
  induction s as [|a s IH]; [reflexivity|].
  rewrite edit_distance_cons. destruct (decide (a = a)); [exact IH|congruence].
Qed.

Lemma edit_distance_sym (s : list A) : forall t, edit_distance s t = edit_distance t s.
Proof.
  induction s as [|a s IHs]; intros t.
  - now rewrite edit_distance_nil_r.
  - induction t as [|b t IHt]; [now rewrite edit_distance_nil_r|].
    rewrite !edit_distance_cons.
    destruct (decide (a = b)) as [->|Hne].
    + destruct (decide (b = b)); [apply IHs|congruence].
    + destruct (decide (b = a)); [congruence|].
      rewrite (IHs t), (IHs (b :: t)), IHt. lia.
Qed.

Lemma edit_distance_bounds (s : list A) : forall t,
  Z.abs (Z.of_nat (length s) - Z.of_nat (length t)) <= edit_distance s t
  <= Z.max (Z.of_nat (length s)) (Z.of_nat (length t)).
Proof.
  induction s as [|a s IHs]; intros t; [cbn [edit_distance length]; lia|].
  induction t as [|b t IHt]; [rewrite edit_distance_nil_r; cbn [length]; lia|].
  rewrite edit_distance_cons.
  specialize (IHs t) as H1. specialize (IHs (b :: t)) as H2.
  cbn [length] in *. destruct (decide (a = b)); lia.
Qed.

Lemma edit_distance_zero (s : list A) : forall t, edit_distance s t = 0 -> s = t.
Proof.
  induction s as [|a s IHs]; intros t.
  - destruct t; [reflexivity|cbn; lia].
  - induction t as [|b t IHt]; [cbn; lia|].
    rewrite edit_distance_cons. destruct (decide (a = b)) as [->|Hne].
    + intros H0. now rewrite (IHs t H0).
    + pose proof (edit_distance_nonneg s t). pose proof (edit_distance_nonneg (a :: s) t).
      pose proof (edit_distance_nonneg s (b :: t)). lia.
Qed.

(** The inner loop fills the row of [c2 :: p2] from the row of [p2]. *)
Lemma fill_row_spec (c2 : A) (p2 : list A) (cs : list A) : forall p1,
  fill_row c2 (edit_distance p2 p1) (edit_distance (c2 :: p2) p1) (row_of p2 p1 cs) cs
  = row_of (c2 :: p2) p1 cs.
Proof.
  induction cs as [|c1 cs IH]; intros p1; [reflexivity|].
  cbn [fill_row row_of]. cbv zeta.
  rewrite <- (edit_distance_cons c2 c1 p2 p1). f_equal. apply IH.
Qed.

Lemma row_of_nil (cs : list A) : forall p1,
  row_of [] p1 cs = List.map Z.of_nat (seq (S (length p1)) (length cs)).
Proof.
  induction cs as [|c cs IH]; intros p1; [reflexivity|].
  cbn [row_of length seq map]. now rewrite IH.
Qed.

Lemma first_row_spec (str1 : list A) :
  first_row str1 = edit_distance (@nil A) [] :: row_of [] [] str1.
Proof. unfold first_row. now rewrite row_of_nil. Qed.

Lemma next_row_spec (c2 : A) (p2 str1 : list A) :
  next_row (Z.of_nat (S (length p2))) c2 (edit_distance p2 [] :: row_of p2 [] str1) str1
  = edit_distance (c2 :: p2) [] :: row_of (c2 :: p2) [] str1.
Proof.
  unfold next_row. rewrite <- fill_row_spec.
  now rewrite (edit_distance_nil_r (c2 :: p2)).
Qed.

(** Row [i] of the matrix is the row of the first [i] units of [str2]. *)
Lemma rows_from_spec (str1 : list A) (rest2 : list A) : forall p2,
  ((edit_distance p2 [] :: row_of p2 [] str1)
   :: rows_from (Z.of_nat (S (length p2))) (edit_distance p2 [] :: row_of p2 [] str1)
        str1 rest2)
  !! length rest2
  = Some (edit_distance (rev rest2 ++ p2) [] :: row_of (rev rest2 ++ p2) [] str1).
Proof.
  induction rest2 as [|c2 rest2 IH]; intros p2; [reflexivity|].
  cbn [rows_from length rev]. rewrite next_row_spec.
  rewrite <- app_assoc. cbn [app].
  change (lookup (S (length rest2)) (?x :: ?l)) with (l !! length rest2).
  replace (Z.of_nat (S (length p2)) + 1) with (Z.of_nat (S (length (c2 :: p2))))
    by (cbn [length]; lia).
  apply (IH (c2 :: p2)).
Qed.

Lemma row_last (p2 : list A) (cs : list A) : forall p1,
  (edit_distance p2 p1 :: row_of p2 p1 cs) !! length cs
  = Some (edit_distance p2 (rev cs ++ p1)).
Proof.
  induction cs as [|c cs IH]; intros p1; [reflexivity|].
  cbn [length row_of rev]. rewrite <- app_assoc. cbn [app].
  change (lookup (S (length cs)) (?x :: ?l)) with (l !! length cs).
  apply (IH (c :: p1)).
Qed.

(** The matrix computes the edit distance. *)
Lemma levenshteinDistance_spec (str1 str2 : list A) :
  levenshteinDistance str1 str2 = edit_distance (rev str2) (rev str1).
Proof.
  unfold levenshteinDistance, matrix. rewrite first_row_spec.
  pose proof (rows_from_spec str1 str2 []) as Hrow.
  cbn [length] in Hrow. change (Z.of_nat 1) with 1 in Hrow. rewrite Hrow.
  cbn [mbind option_bind]. rewrite row_last. now rewrite !app_nil_r.
Qed.

End Facts.
End LevenshteinFacts.

Module DistanceFacts.
Section Facts.
Context {A : Type} `{EqDecision A}.

Lemma distance_zero (str1 str2 : list A) :
  PracticeScreen.levenshteinDistance str1 str2 = 0 <-> str1 = str2.
Proof.
  rewrite LevenshteinFacts.levenshteinDistance_spec. split.
  - intros H0. apply LevenshteinFacts.edit_distance_zero in H0.
    apply (f_equal (@rev A)) in H0. rewrite !rev_involutive in H0. congruence.
  - intros ->. apply LevenshteinFacts.edit_distance_refl.
Qed.

Lemma distance_sym (str1 str2 : list A) :
  PracticeScreen.levenshteinDistance str1 str2
  = PracticeScreen.levenshteinDistance str2 str1.
Proof.
  rewrite !LevenshteinFacts.levenshteinDistance_spec.
  apply LevenshteinFacts.edit_distance_sym.
Qed.

Lemma distance_range (str1 str2 : list A) :
  Z.abs (Z.of_nat (length str1) - Z.of_nat (length str2))
  <= PracticeScreen.levenshteinDistance str1 str2
  <= Z.max (Z.of_nat (length str1)) (Z.of_nat (length str2)).
Proof.
  rewrite LevenshteinFacts.levenshteinDistance_spec.
  pose proof (LevenshteinFacts.edit_distance_bounds (rev str2) (rev str1)) as Hb.
  rewrite !length_rev in Hb. lia.
Qed.

End Facts.
End DistanceFacts.

(** X12. [levenshteinDistance] is 0 exactly for equal strings. *)
Theorem levenshtein_zero_iff_equal {A : Type} `{EqDecision A} (str1 str2 : list A) :
  PracticeScreen.levenshteinDistance str1 str2 = 0 <-> str1 = str2.
Proof.
  apply DistanceFacts.distance_zero.
Qed.

(** X13. [levenshteinDistance] does not depend on the order of its two
    arguments. *)
Theorem levenshtein_symmetric {A : Type} `{EqDecision A} (str1 str2 : list A) :
  PracticeScreen.levenshteinDistance str1 str2
  = PracticeScreen.levenshteinDistance str2 str1.
Proof.
  apply DistanceFacts.distance_sym.
Qed.

(** X14. [levenshteinDistance] is at least the difference of the two lengths
    and at most the larger length; against the empty string it is the
    length of the other string. *)
Theorem levenshtein_bounds {A : Type} `{EqDecision A} (str1 str2 : list A) :
  Z.abs (Z.of_nat (length str1) - Z.of_nat (length str2))
  <= PracticeScreen.levenshteinDistance str1 str2
  <= Z.max (Z.of_nat (length str1)) (Z.of_nat (length str2))
  /\ PracticeScreen.levenshteinDistance str1 [] = Z.of_nat (length str1)
  /\ PracticeScreen.levenshteinDistance [] str2 = Z.of_nat (length str2).
Proof.
  split; [apply DistanceFacts.distance_range|].
  pose proof (DistanceFacts.distance_range str1 []) as H1.
  pose proof (DistanceFacts.distance_range [] str2) as H2.
  cbn [length] in H1, H2. lia.
Qed.

Example levenshtein_kitten_sitting :
  PracticeScreen.levenshteinDistance (PracticeScreen.code_units "kitten")
    (PracticeScreen.code_units "sitting") = 3
  /\ PracticeScreen.matrix (PracticeScreen.code_units "cat") (PracticeScreen.code_units "at")
     = [[0; 1; 2; 3]; [1; 1; 1; 2]; [2; 2; 2; 1]].
Proof. split; vm_compute; reflexivity. Qed.

Module SimilarityFacts.
Import PracticeScreen.

Section Facts.
Context {A : Type} `{EqDecision A}.

(** With a longer string that is not empty, the similarity is the quotient
    [(length - distance) / length]. *)
Lemma similarity_quotient (longer shorter : list A) :
  length longer <> 0%nat ->
  Js.div (JsMath.sub (Js.of_Z (Z.of_nat (length longer)))
            (Js.of_Z (levenshteinDistance longer shorter)))
    (Js.of_Z (Z.of_nat (length longer)))
  = Js.Num ((inject_Z (Z.of_nat (length longer))
             - inject_Z (levenshteinDistance longer shorter))
            / inject_Z (Z.of_nat (length longer))).
Proof.
  intros Hne. unfold Js.div, JsMath.sub, Js.of_Z, Js.is_zero. cbn [Qnum inject_Z].
  destruct (Z.eqb_spec (Z.of_nat (length longer)) 0); [lia|reflexivity].
Qed.

Lemma quotient_range (l d : Z) :
  0 < l -> 0 <= d <= l ->
  (0 <= (inject_Z l - inject_Z d) / inject_Z l <= 1)%Q
  /\ (((inject_Z l - inject_Z d) / inject_Z l == 1)%Q <-> d = 0).
Proof.
  intros Hl [Hd0 Hdl].
  assert (Hl' : (0 < inject_Z l)%Q).
  { change 0%Q with (inject_Z 0). now rewrite <- Zlt_Qlt. }
  assert (Hd0' : (0 <= inject_Z d)%Q).
  { change 0%Q with (inject_Z 0). now rewrite <- Zle_Qle. }
  assert (Hdl' : (inject_Z d <= inject_Z l)%Q) by now rewrite <- Zle_Qle.
  assert (E : ((inject_Z l - inject_Z d) / inject_Z l * inject_Z l
               == inject_Z l - inject_Z d)%Q).
  { field. intros E0. rewrite E0 in Hl'. now apply Qlt_irrefl in Hl'. }
  split; [split|split].
  - apply Qle_shift_div_l; [assumption|lra].
  - apply Qle_shift_div_r; [assumption|lra].
  - intros H1. rewrite H1 in E.
    assert (Hz : (inject_Z d == inject_Z 0)%Q) by (change (inject_Z 0) with 0%Q; lra).
    unfold Qeq in Hz. cbn in Hz. lia.
  - intros ->. change (inject_Z 0) with 0%Q. field.
    intros E0. rewrite E0 in Hl'. now apply Qlt_irrefl in Hl'.
Qed.

End Facts.
End SimilarityFacts.

(** X15. [calculateSimilarity] is a finite number between 0 and 1, it is 1
    exactly for equal strings (two empty strings included), and it does not
    depend on the order of its arguments. *)
Theorem similarity_is_a_fraction {A : Type} `{EqDecision A} (str1 str2 : list A) :
  (exists q : Q,
     PracticeScreen.calculateSimilarity str1 str2 = Js.Num q
     /\ (0 <= q <= 1)%Q
     /\ ((q == 1)%Q <-> str1 = str2))
  /\ PracticeScreen.calculateSimilarity str1 str2
     = PracticeScreen.calculateSimilarity str2 str1.
Proof.
  assert (Hgen : forall longer shorter : list A,
            (length shorter <= length longer)%nat ->
            exists q : Q,
              (if (length longer =? 0)%nat then Js.of_Z 1
               else Js.div (JsMath.sub (Js.of_Z (Z.of_nat (length longer)))
                              (Js.of_Z (PracticeScreen.levenshteinDistance longer shorter)))
                      (Js.of_Z (Z.of_nat (length longer)))) = Js.Num q
              /\ (0 <= q <= 1)%Q /\ ((q == 1)%Q <-> longer = shorter)).
  { intros longer shorter Hlen.
    destruct (Nat.eqb_spec (length longer) 0) as [E0|Hne].
    - exists 1%Q. split; [reflexivity|]. split; [lra|]. split; [|reflexivity].
      intros _. destruct longer; [|discriminate]. destruct shorter; [reflexivity|].
      cbn in Hlen. lia.
    - rewrite SimilarityFacts.similarity_quotient by exact Hne.
      eexists. split; [reflexivity|].
      pose proof (DistanceFacts.distance_range longer shorter) as Hd.
      destruct (SimilarityFacts.quotient_range (Z.of_nat (length longer))
                  (PracticeScreen.levenshteinDistance longer shorter)) as [Hr H1]; [lia|lia|].
      split; [exact Hr|]. rewrite H1. apply DistanceFacts.distance_zero. }
  unfold PracticeScreen.calculateSimilarity. cbv zeta.
  destruct (Nat.ltb_spec (length str2) (length str1)) as [Hlt|Hge].
  - assert (Hrev : (length str2 <? length str1)%nat = true) by now apply Nat.ltb_lt.
    destruct (Nat.ltb_spec (length str1) (length str2)) as [Hlt'|_]; [lia|].
    split; [|reflexivity].
    destruct (Hgen str1 str2) as (q & E & Hr & H1); [lia|]. eauto.
  - split.
    + destruct (Hgen str2 str1 Hge) as (q & E & Hr & H1).
      exists q. split; [exact E|]. split; [exact Hr|]. rewrite H1. split; congruence.
    + destruct (Nat.ltb_spec (length str1) (length str2)) as [Hlt'|Hge']; [reflexivity|].
      assert (Hlen : length str1 = length str2) by lia.
      rewrite Hlen, (DistanceFacts.distance_sym str2 str1). reflexivity.
Qed.

(** ** The practice screen: the verdict on a transcript *)

Module MatchFacts.
Import PracticeScreen.

Section Lists.
Context {A : Type} `{EqDecision A}.

Lemma starts_with_app (p s : list A) : starts_with (p ++ s) p = true.
Proof.
  induction p as [|x p IH]; [destruct s; reflexivity|].
  cbn. rewrite IH. now rewrite bool_decide_eq_true_2.
Qed.

Lemma includes_nil (s : list A) : includes s [] = true.
Proof. destruct s; reflexivity. Qed.

Lemma includes_app (pre m post : list A) : includes (pre ++ m ++ post) m = true.
Proof.
  induction pre as [|x pre IH].
  - cbn [app]. pose proof (starts_with_app m post) as Hs.
    destruct (m ++ post); cbn [includes]; now rewrite Hs.
  - cbn [app includes]. rewrite IH. apply orb_true_r.
Qed.

Lemma edit_distance_app (p s t : list A) :
  edit_distance (p ++ s) (p ++ t) = edit_distance s t.
Proof.
  induction p as [|x p IH]; [reflexivity|].
  cbn [app]. rewrite LevenshteinFacts.edit_distance_cons.
  destruct (decide (x = x)); [exact IH|congruence].
Qed.

(** Changing one element costs at most one edit. *)
Lemma distance_one_substitution (a b : list A) (x y : A) :
  0 <= levenshteinDistance (a ++ x :: b) (a ++ y :: b) <= 1.
Proof.
  rewrite LevenshteinFacts.levenshteinDistance_spec.
  split; [apply LevenshteinFacts.edit_distance_nonneg|].
  rewrite !rev_app_distr. cbn [rev]. rewrite <- !app_assoc.
  rewrite edit_distance_app. cbn [app].
  rewrite LevenshteinFacts.edit_distance_cons.
  pose proof (LevenshteinFacts.edit_distance_refl (rev a)) as Hr.
  destruct (decide (y = x)); lia.
Qed.

End Lists.

Lemma trim_start_suffix (s : list ascii) : exists pre, s = pre ++ trim_start s.
Proof.
  induction s as [|c s [pre IH]]; [now exists []|].
  cbn. destruct (is_space c).
  - exists (c :: pre). cbn. now rewrite <- IH.
  - now exists [].
Qed.

Lemma trim_middle (s : list ascii) : exists pre post, s = pre ++ trim s ++ post.
Proof.
  destruct (trim_start_suffix s) as [pre Hpre].
  destruct (trim_start_suffix (rev (trim_start s))) as [post Hpost].
  exists pre, (rev post). unfold trim.
  rewrite <- rev_app_distr, <- Hpost, rev_involutive. exact Hpre.
Qed.

Lemma includes_trim (s : list ascii) : includes s (trim s) = true.
Proof.
  destruct (trim_middle s) as (pre & post & Hm).
  assert (Hgen : forall t, s = pre ++ t ++ post -> includes s t = true).
  { intros t ->. apply includes_app. }
  now apply Hgen.
Qed.

Lemma trim_start_blank (s : list ascii) :
  Forall (fun c => is_space c = true) s -> trim_start s = [].
Proof. induction 1 as [|c s Hc _ IH]; [reflexivity|]. cbn. now rewrite Hc. Qed.

Lemma is_space_lower (c : ascii) : is_space (Js.lower_ascii c) = is_space c.
Proof. destruct c as [[] [] [] [] [] [] [] []]; reflexivity. Qed.

Lemma code_units_lower (s : string) :
  code_units (Js.toLowerCase s) = List.map Js.lower_ascii (code_units s).
Proof.
  unfold code_units. induction s as [|c s IH]; cbn; [reflexivity|]. now rewrite IH.
Qed.

(** The comparison with 0.7, in whole numbers. *)
Lemma similar_enough (l d : Z) :
  0 < l -> 10 * d < 3 * l ->
  negb (Qle_bool ((inject_Z l - inject_Z d) / inject_Z l) (7 # 10)) = true.
Proof.
  intros Hl Hd. apply negb_true_iff, not_true_is_false. rewrite Qle_bool_iff.
  apply Qlt_not_le.
  assert (Hl' : (0 < inject_Z l)%Q).
  { change 0%Q with (inject_Z 0). now rewrite <- Zlt_Qlt. }
  apply Qlt_shift_div_l; [exact Hl'|].
  assert (H10 : (inject_Z (10 * d) < inject_Z (3 * l))%Q) by now rewrite <- Zlt_Qlt.
  rewrite !inject_Z_mult in H10.
  change (inject_Z 10) with (10 # 1) in H10. change (inject_Z 3) with (3 # 1) in H10.
  lra.
Qed.

End MatchFacts.

(** X16. [checkPronunciation] accepts a transcript that is the word up to
    the case of its ASCII letters and the white space around it. *)
Theorem the_word_itself_is_accepted (word spokenText : string) :
  PracticeScreen.trim (PracticeScreen.code_units (Js.toLowerCase spokenText))
  = PracticeScreen.trim (PracticeScreen.code_units (Js.toLowerCase word)) ->
  PracticeScreen.isCorrect word spokenText = true.
Proof.
  intros E. unfold PracticeScreen.isCorrect. cbv zeta.
  rewrite E, MatchFacts.includes_trim. now rewrite orb_true_r.
Qed.

Lemma the_word_itself_is_accepted_witness :
  PracticeScreen.isCorrect "Apple" " APPLE " = true.
Proof. apply the_word_itself_is_accepted. reflexivity. Defined.

(** X17. [checkPronunciation] accepts an empty transcript, and one made of
    white space only, for every word: the word [includes] the empty
    string. *)
Theorem blank_transcript_is_accepted (word spokenText : string) :
  Forall (fun c => PracticeScreen.is_space c = true) (PracticeScreen.code_units spokenText) ->
  PracticeScreen.isCorrect word spokenText = true.
Proof.
  intros Hb. unfold PracticeScreen.isCorrect. cbv zeta.
  assert (Ht : PracticeScreen.trim (PracticeScreen.code_units (Js.toLowerCase spokenText)) = []).
  { unfold PracticeScreen.trim. rewrite MatchFacts.code_units_lower.
    rewrite (MatchFacts.trim_start_blank
               (List.map Js.lower_ascii (PracticeScreen.code_units spokenText)));
      [reflexivity|].
    apply Forall_map. eapply Forall_impl; [exact Hb|].
    intros c Hc. cbn. now rewrite MatchFacts.is_space_lower. }
  rewrite Ht, MatchFacts.includes_nil. now rewrite orb_true_r.
Qed.

Lemma blank_transcript_is_accepted_witness :
  PracticeScreen.isCorrect "elephant" "  " = true.
Proof.
  apply blank_transcript_is_accepted. repeat constructor.
Defined.

(** X18. [checkPronunciation] accepts a transcript that differs from a word
    of four or more code units in one code unit: the similarity is then at
    least 3/4, above the 0.7 that is asked. *)
Theorem one_wrong_letter_is_tolerated (word spokenText : string)
    (a b : list ascii) (x y : ascii) :
  PracticeScreen.code_units (Js.toLowerCase word) = a ++ x :: b ->
  PracticeScreen.trim (PracticeScreen.code_units (Js.toLowerCase spokenText)) = a ++ y :: b ->
  (4 <= length (a ++ x :: b))%nat ->
  PracticeScreen.isCorrect word spokenText = true.
Proof.
  intros Hw Hs Hlen. unfold PracticeScreen.isCorrect. cbv zeta. rewrite Hw, Hs.
  assert (Hl : length (a ++ y :: b) = length (a ++ x :: b)).
  { rewrite !length_app. reflexivity. }
  assert (Hsim : JsMath.gt (PracticeScreen.calculateSimilarity (a ++ y :: b) (a ++ x :: b))
                   (Js.Num (7 # 10)) = true).
  { unfold PracticeScreen.calculateSimilarity. cbv zeta. rewrite Hl.
    rewrite Nat.ltb_irrefl.
    destruct (Nat.eqb_spec (length (a ++ x :: b)) 0) as [E0|Hne]; [lia|].
    rewrite SimilarityFacts.similarity_quotient by exact Hne.
    cbn [JsMath.gt]. apply MatchFacts.similar_enough; [lia|].
    pose proof (MatchFacts.distance_one_substitution a b x y). lia. }
  rewrite Hsim. now rewrite !orb_true_r.
Qed.

Lemma one_wrong_letter_is_tolerated_witness :
  PracticeScreen.isCorrect "bird" "Bard" = true.
Proof.
  apply (one_wrong_letter_is_tolerated "bird" "Bard" ["b"%char] ["r"%char; "d"%char]
           "i"%char "a"%char); [reflexivity|reflexivity|cbn; lia].
Defined.

Example three_letter_words_need_every_letter :
  PracticeScreen.isCorrect "cat" "bat" = false
  /\ PracticeScreen.isCorrect "cat" "concatenate" = true
  /\ PracticeScreen.isCorrect "elephant" "e" = true.
Proof. repeat split; vm_compute; reflexivity. Qed.

(** ** The screens: word on display, chat sessions, achievement cards *)

Module ScreenFacts.
Import PracticeScreen.

Lemma keeps_easy (difficultyLevel : string) (w : PracticeWord) :
  is_easy w = true -> keeps difficultyLevel w = true.
Proof.
  intros He. unfold keeps. rewrite He.
  repeat destruct (String.eqb _ _); reflexivity.
Qed.

(** Every filter keeps the first word of the table. *)
Lemma filtered_nonempty (difficultyLevel : string) :
  (0 < length (List.filter (keeps difficultyLevel) practiceWords))%nat.
Proof.
  assert (Hin : In (mkPracticeWord "cat" easy)
                  (List.filter (keeps difficultyLevel) practiceWords)).
  { apply filter_In. split; [left; reflexivity|]. now apply keeps_easy. }
  destruct (List.filter (keeps difficultyLevel) practiceWords); [destruct Hin|].
  cbn [length]. lia.
Qed.

Lemma step_bounded (p : Practice) (e : Event) :
  lists_bounded p -> lists_bounded (step p e).
Proof.
  unfold lists_bounded. intros Hp. destruct e as [l|k|]; cbn [step].
  - cbn [rendered]. apply Forall_app. split; [exact Hp|].
    apply Forall_singleton.
    cbn [setDifficulty filteredWords]. split; [apply filtered_nonempty|].
    apply List.filter_length_le.
  - destruct (rendered p !! k); exact Hp.
  - exact Hp.
Qed.

(** The list on display is never empty. *)
Lemma step_nonempty (p : Practice) (e : Event) :
  (0 < length (filteredWords (screen p)))%nat ->
  (0 < length (filteredWords (screen (step p e))))%nat.
Proof.
  intros Hp. destruct e as [l|k|]; cbn [step].
  - cbn [screen setDifficulty filteredWords]. apply filtered_nonempty.
  - destruct (rendered p !! k); exact Hp.
  - exact Hp.
Qed.

Lemma run_nonempty (events : list Event) :
  (0 < length (filteredWords (screen (run events initial))))%nat.
Proof.
  assert (Hgen : forall p, (0 < length (filteredWords (screen p)))%nat ->
                           (0 < length (filteredWords (screen (run events p))))%nat).
  { induction events as [|e events IH]; intros p Hp; [exact Hp|].
    cbn. apply IH, step_nonempty, Hp. }
  apply Hgen. vm_compute. lia.
Qed.

(** The index stays below the length of the table. *)
Lemma step_in_table (p : Practice) (e : Event) :
  lists_bounded p ->
  (currentWordIndex (screen p) < length practiceWords)%nat ->
  (currentWordIndex (screen (step p e)) < length practiceWords)%nat.
Proof.
  intros Hb Hi. destruct e as [l|k|]; cbn [step].
  - cbn. lia.
  - destruct (rendered p !! k) as [ws|] eqn:E; [|exact Hi].
    cbn [screen nextWord currentWordIndex].
    unfold lists_bounded in Hb. rewrite Forall_lookup in Hb. specialize (Hb k ws E).
    pose proof (Nat.mod_upper_bound (currentWordIndex (screen p) + 1) (length ws)
                  ltac:(lia)). lia.
  - cbn. lia.
Qed.

Lemma run_in_table (events : list Event) : forall p,
  lists_bounded p ->
  (currentWordIndex (screen p) < length practiceWords)%nat ->
  (currentWordIndex (screen (run events p)) < length practiceWords)%nat.
Proof.
  induction events as [|e events IH]; intros p Hb Hi; [exact Hi|].
  cbn. apply IH; [now apply step_bounded|now apply step_in_table].
Qed.

(** With closures of the current render the index stays inside the list. *)
Lemma run_in_range (events : list Event) : forall p,
  uses_current_words events p ->
  index_in_range (screen p) -> index_in_range (screen (run events p)).
Proof.
  induction events as [|e events IH]; intros p Hc Hs; [exact Hs|].
  cbn [uses_current_words] in Hc. destruct Hc as [He Hc].
  cbn [run fold_left]. apply IH; [exact Hc|].
  unfold index_in_range in *. destruct e as [l|k|]; cbn [step].
  - cbn [screen setDifficulty currentWordIndex filteredWords]. apply filtered_nonempty.
  - rewrite He. cbn [screen nextWord currentWordIndex filteredWords].
    apply Nat.mod_upper_bound. lia.
  - cbn [screen resetIndex currentWordIndex filteredWords]. lia.
Qed.

End ScreenFacts.

(** X19. On the practice screen the word list is never empty and
    [currentWordIndex] always stays below 24, the length of [practiceWords],
    whatever the difficulty setting is changed to (a name the filter does
    not know included) and whichever [nextWord] closures run.  As long as
    every [nextWord] that runs was made by a render showing the current
    word list, the index stays inside [filteredWords] and a word is on
    display. *)
Theorem practice_word_index_stays_in_table (events : list PracticeScreen.Event) :
  let p := PracticeScreen.run events PracticeScreen.initial in
  let s := PracticeScreen.screen p in
  (0 < length (PracticeScreen.filteredWords s))%nat
  /\ (PracticeScreen.currentWordIndex s < length PracticeScreen.practiceWords)%nat
  /\ length PracticeScreen.practiceWords = 24%nat
  /\ (uses_current_words events PracticeScreen.initial ->
      (PracticeScreen.currentWordIndex s < length (PracticeScreen.filteredWords s))%nat
      /\ is_Some (PracticeScreen.currentWord s)).
Proof.
  cbv zeta.
  assert (Hb0 : lists_bounded PracticeScreen.initial).
  { unfold lists_bounded. cbn [PracticeScreen.rendered PracticeScreen.initial].
    apply Forall_singleton. vm_compute. lia. }
  assert (Hi0 : (PracticeScreen.currentWordIndex
                   (PracticeScreen.screen PracticeScreen.initial)
                 < length PracticeScreen.practiceWords)%nat) by (vm_compute; lia).
  split; [|split; [now apply ScreenFacts.run_in_table|split; [reflexivity|]]].
  - apply ScreenFacts.run_nonempty.
  - intros Hc.
    assert (Hr : index_in_range
                   (PracticeScreen.screen
                      (PracticeScreen.run events PracticeScreen.initial))).
    { apply ScreenFacts.run_in_range; [exact Hc|].
      unfold index_in_range. vm_compute. lia. }
    split; [exact Hr|]. apply lookup_lt_is_Some_2, Hr.
Qed.

(** At the beginner setting the list has the 8 easy words.  Eight words
    advanced by the handler of the current render come back to the first
    word; eight advanced by the speech handler of the first render, whose
    [nextWord] takes the remainder by 24, leave the list, and no word is on
    display. *)
Example stale_next_word_leaves_the_list :
  let after k :=
    PracticeScreen.run
      (PracticeScreen.DifficultyChanged "beginner"
       :: repeat (PracticeScreen.NextWord k) 8)
      PracticeScreen.initial in
  let current := after 1%nat in
  let stale := after 0%nat in
  PracticeScreen.currentWord (PracticeScreen.screen current)
  = Some (PracticeScreen.mkPracticeWord "cat" easy)
  /\ PracticeScreen.currentWordIndex (PracticeScreen.screen stale) = 8%nat
  /\ length (PracticeScreen.filteredWords (PracticeScreen.screen stale)) = 8%nat
  /\ PracticeScreen.currentWord (PracticeScreen.screen stale) = None.
Proof. vm_compute. repeat split; reflexivity. Qed.

Module ChatFacts.
Module S := UseLearningSession.

Lemma sendMessages_none (user : option UserId) (msgs : list (Timestamp * string)) :
  forall db, ChatScreen.sendMessages user msgs None db = (None, db).
Proof.
  unfold ChatScreen.sendMessages.
  induction msgs as [|m msgs IH]; intros db; [reflexivity|].
  cbn [fold_left fst snd]. unfold ChatScreen.sendMessage at 2.
  destruct (String.eqb _ _); apply IH.
Qed.

Lemma sendMessages_some (user : option UserId) (msgs : list (Timestamp * string)) :
  forall s db, all_correct s ->
  exists s',
    (ChatScreen.sendMessages user msgs (Some s) db).1 = Some s'
    /\ all_correct s'
    /\ S.sessionType s' = S.sessionType s
    /\ S.startTime s' = S.startTime s
    /\ length (S.wordsPracticed s')
       = (length (S.wordsPracticed s)
          + length (List.filter (fun m => negb (blank_message m)) msgs))%nat.
Proof.
  unfold ChatScreen.sendMessages.
  induction msgs as [|m msgs IH]; intros s db Hs.
  - exists s. cbn. repeat split; try apply Hs. lia.
  - cbn [fold_left fst snd List.filter]. unfold ChatScreen.sendMessage at 2, blank_message at 1.
    destruct (String.eqb (ChatScreen.trim m.2) "") eqn:Eb; cbn [negb].
    + apply IH, Hs.
    + cbv zeta. cbn [fst snd].
      match goal with
      | |- context [fold_left _ msgs (Some ?s1, ?d1)] =>
          destruct (IH s1 d1) as (s' & E & Hc & Hty & Hst & Hlen)
      end.
      { destruct Hs as [H1 H2]. unfold all_correct, S.addWordToSession.
        cbn [fst S.correctPronunciations S.totalAttempts S.wordsPracticed].
        rewrite length_app. cbn [length]. lia. }
      exists s'. split; [exact E|]. split; [exact Hc|].
      unfold S.addWordToSession in Hty, Hst, Hlen.
      cbn [fst S.sessionType S.startTime S.wordsPracticed] in Hty, Hst, Hlen.
      rewrite length_app in Hlen. cbn [length] in *. repeat split; [assumption..|lia].
Qed.

Lemma perfect_rate (s : S.Session) :
  all_correct s ->
  exists q : Q,
    S.accuracyRate s = Js.Num q
    /\ (q == if (length (S.wordsPracticed s) =? 0)%nat then 0 else 100)%Q.
Proof.
  intros [Hc Ht].
  destruct (S.wordsPracticed s) as [|w ws] eqn:Ew.
  - exists 0%Q. split; [|reflexivity]. apply SessionFacts.accuracyRate_zero.
    rewrite Ht. cbn. lia.
  - cbn [length Nat.eqb]. cbn [length] in Ht.
    assert (Hn : 0 < S.totalAttempts s) by lia.
    exists 100%Q. split; [|reflexivity].
    rewrite SessionFacts.accuracyRate_positive by exact Hn.
    rewrite Hc. now apply SessionFacts.percentage_full.
Qed.

End ChatFacts.

(** X20. In a chat session every word that is sent counts as pronounced
    correctly: after any messages sent from [startSession('chat')] the
    session has as many correct as total attempts, one per message that is
    not blank, and the accuracy that [endSession] stores for it is 100 (0
    while nothing was sent). *)
Theorem chat_sessions_are_always_perfect (user : option UserId) (now0 : Timestamp)
    (msgs : list (Timestamp * string)) (db : DB) :
  exists (s : UseLearningSession.Session) (q : Q),
    (ChatScreen.sendMessages user msgs
       (Some (UseLearningSession.startSession now0 chat)) db).1 = Some s
    /\ UseLearningSession.sessionType s = chat
    /\ UseLearningSession.correctPronunciations s = UseLearningSession.totalAttempts s
    /\ UseLearningSession.totalAttempts s
       = Z.of_nat (length (List.filter (fun m => negb (blank_message m)) msgs))
    /\ length (UseLearningSession.wordsPracticed s)
       = length (List.filter (fun m => negb (blank_message m)) msgs)
    /\ UseLearningSession.accuracyRate s = Js.Num q
    /\ (q == if (length (UseLearningSession.wordsPracticed s) =? 0)%nat
             then 0 else 100)%Q.
Proof.
  destruct (ChatFacts.sendMessages_some user msgs
              (UseLearningSession.startSession now0 chat) db)
    as (s & E & Hc & Hty & _ & Hlen).
  { split; reflexivity. }
  destruct (ChatFacts.perfect_rate s Hc) as (q & Eq & Hq).
  cbn in Hlen. destruct Hc as [Hc Ht].
  exists s, q. repeat split; try assumption. lia.
Qed.

Module AchievementFacts.

Lemma whole_card (i : string) (stat m : Z) :
  card_consistent (ProgressScreen.mkAchievement i (m <=? stat) (inject_Z (Z.min stat m)) m).
Proof.
  unfold card_consistent.
  cbn [ProgressScreen.progress ProgressScreen.maxProgress ProgressScreen.earned].
  rewrite <- Zle_Qle, inject_Z_injective, Z.leb_le. lia.
Qed.

End AchievementFacts.

(** X21. [calculateAchievements] keeps every card consistent: its progress
    never exceeds [maxProgress], and it is [earned] exactly when the
    progress equals [maxProgress]. *)
Theorem achievement_earned_iff_bar_full (stats : ProgressScreen.UserStats) :
  Forall card_consistent (ProgressScreen.calculateAchievements stats).
Proof.
  apply List.Forall_forall. intros a Hin.
  unfold ProgressScreen.calculateAchievements in Hin. cbn [In] in Hin.
  repeat (destruct Hin as [<-|Hin]); try apply AchievementFacts.whole_card;
    [| |destruct Hin].
  - (* first_word: [totalWords > 0] against [min(totalWords, 1)] *)
    unfold card_consistent.
    cbn [ProgressScreen.progress ProgressScreen.maxProgress ProgressScreen.earned].
    rewrite <- Zle_Qle, inject_Z_injective, Z.ltb_lt. lia.
  - (* reading_champion: a fractional statistic *)
    unfold card_consistent.
    cbn [ProgressScreen.progress ProgressScreen.maxProgress ProgressScreen.earned].
    change (inject_Z 90) with 90%Q. rewrite Qle_bool_iff.
    destruct (Qle_bool (ProgressScreen.accuracyRate stats) 90) eqn:E.
    + apply Qle_bool_iff in E. split; [exact E|]. split; intros H; lra.
    + assert (Hn : ~ (ProgressScreen.accuracyRate stats <= 90)%Q).
      { intros H. apply Qle_bool_iff in H. congruence. }
      apply Qnot_le_lt in Hn. split; [lra|]. split; intros _; [reflexivity|lra].
Qed.

Module GoalCardFacts.

(** The card of a type is the stored row of that type, or the placeholder. *)
Lemma card_of_row (settings : option AppSettings) (db : DB) (u : UserId) (today : Date)
    (g : GoalType) :
  ProgressScreen.getGoalByType settings (ProgressScreen.fetchDailyGoals db u today) g
  = match daily_goals db !! (u, g, today) with
    | Some r =>
        ProgressScreen.mkDailyGoalView g (target_value r) (current_value r) (completed r)
    | None => ProgressScreen.mkDailyGoalView g (default_target settings g) 0 false
    end.
Proof.
  unfold ProgressScreen.getGoalByType, ProgressScreen.fetchDailyGoals.
  cbn [omap list_omap].
  destruct g;
    destruct (daily_goals db !! (u, Words, today)) as [rw|];
    destruct (daily_goals db !! (u, Time, today)) as [rt|];
    destruct (daily_goals db !! (u, Accuracy, today)) as [ra|];
    reflexivity.
Qed.

End GoalCardFacts.

(** X22. The target the progress screen shows for a goal of today does not
    change when [updateDailyGoals] creates today's rows: the placeholder of
    [getGoalByType] and the defaults of the tracker are the same numbers. *)
Theorem goal_card_target_survives_creation (u : UserId) (settings : option AppSettings)
    (now : Timestamp) (today : Date) (wordsLearned practiceTime : Z) (accuracy : Q)
    (db : DB) (g : GoalType) :
  (forall g', daily_goals db !! (u, g', today) = None) ->
  let db' :=
    UseLearningSession.updateDailyGoals (Some u) settings now today wordsLearned
      practiceTime accuracy db in
  ProgressScreen.view_target_value
    (ProgressScreen.getGoalByType settings (ProgressScreen.fetchDailyGoals db' u today) g)
  = ProgressScreen.view_target_value
      (ProgressScreen.getGoalByType settings (ProgressScreen.fetchDailyGoals db u today) g).
Proof.
  intros Hnone db'. rewrite !GoalCardFacts.card_of_row. rewrite (Hnone g).
  cbn [ProgressScreen.view_target_value].
  destruct (daily_goals db' !! (u, g, today)) as [r'|] eqn:E; [|reflexivity].
  cbn [ProgressScreen.view_target_value].
  subst db'. unfold UseLearningSession.updateDailyGoals in E.
  rewrite !Hnone in E. cbv zeta in E.
  apply DailyGoalFacts.created_row in E; [|apply Hnone].
  subst r'. destruct g; reflexivity.
Qed.

Lemma goal_card_target_survives_creation_witness :
  let db := example_db "u1" (mkProfile 1 0 0 0 0 0 0) 0 in
  let settings := Some (mkAppSettings 5) in
  (forall g', daily_goals db !! ("u1", g', "2025-07-01") = None)
  /\ ProgressScreen.view_target_value
       (ProgressScreen.getGoalByType settings
          (ProgressScreen.fetchDailyGoals
             (UseLearningSession.updateDailyGoals (Some "u1") settings 7
                "2025-07-01" 3 120 80 db) "u1" "2025-07-01") Words)
     = ProgressScreen.view_target_value
         (ProgressScreen.getGoalByType settings
            (ProgressScreen.fetchDailyGoals db "u1" "2025-07-01") Words).
Proof.
  cbv zeta. split.
  - intros g'. destruct g'; vm_compute; reflexivity.
  - apply (goal_card_target_survives_creation "u1" (Some (mkAppSettings 5)) 7
             "2025-07-01" 3 120 80 (example_db "u1" (mkProfile 1 0 0 0 0 0 0) 0) Words).
    intros g'. destruct g'; vm_compute; reflexivity.
Defined.
